(** * matcaffe: the MATLAB bridge of caffe::Net

    A shallow embedding of [matlab/caffe/matcaffe.cpp].  The MEX file keeps
    two statics, the handle [net_] and the integer [init_key], and talks to
    two foreign worlds: MATLAB's [mxArray] values on one side and the Caffe
    library (the [Net], its [Blob] objects, the [Caffe] singleton) on the
    other.  Everything the bridge does not implement itself is a field of
    the [Engine] interface below. *)

From Stdlib Require Import ZArith Lia Floats.SpecFloat QArith Qround.
From stdpp Require Import base option list gmap strings.

Local Open Scope string_scope.
Local Open Scope list_scope.
Local Open Scope Z_scope.
Local Set Warnings "-register-all".

(** ** Machine numbers *)

(** [float] is the element type of every blob and of [mxSINGLE_CLASS]
    arrays; the bridge only copies such values.  [double] is the element
    type of [mxDOUBLE_CLASS] arrays (IEEE binary64). *)
Definition float : Type := spec_float.
Definition double : Type := spec_float.

Definition float_zero : float := S754_zero false.

Definition INT_MIN : Z := - 2 ^ 31.
Definition INT_MAX : Z := 2 ^ 31 - 1.

(** Two's complement reduction of an [int] result. *)
Definition wrap_int (z : Z) : Z := (z + 2 ^ 31) mod 2 ^ 32 - 2 ^ 31.

(** [static_cast<unsigned int>] of an [mwSize]. *)
Definition static_cast_unsigned_int (z : Z) : Z := z mod 2 ^ 32.

(** Implicit conversion of an [int] to [mwSize] / [size_t]. *)
Definition mwSize_of_int (z : Z) : Z := z mod 2 ^ 64.

Definition int_mul (a b : Z) : Z := wrap_int (a * b).
Definition int_add (a b : Z) : Z := wrap_int (a + b).
Definition int_sub (a b : Z) : Z := wrap_int (a - b).

Definition double_add : double -> double -> double := SFadd 53 1024.
Definition double_ltb : double -> double -> bool := SFltb.

(** The double nearest to an integer ([mxCreateDoubleScalar] of an [int],
    the literals [0] and [0.5]). *)
Definition double_of_int (z : Z) : double := binary_normalize 53 1024 z 0 false.
Definition double_half : double := binary_normalize 53 1024 1 (-1) false.

(** Truncation toward zero of a finite double, as an unbounded integer. *)
Definition double_trunc (d : double) : option Z :=
  match d with
  | S754_zero _ => Some 0
  | S754_finite s m e =>
      let a := match e with
               | Z0 => Zpos m
               | Zpos p => Zpos m * 2 ^ Zpos p
               | Zneg p => Zpos m / 2 ^ Zpos p
               end in
      Some (if s then - a else a)
  | S754_infinity _ | S754_nan => None
  end.

(** [(int) d].  For a value whose truncation is not an [int] (and for
    infinities and NaN) the language leaves the result open; the x86-64
    conversion instruction the MEX file is compiled to yields [INT_MIN]. *)
Definition int_of_double (d : double) : Z :=
  match double_trunc d with
  | Some z => if (INT_MIN <=? z) && (z <=? INT_MAX) then z else INT_MIN
  | None => INT_MIN
  end.

(** The IEEE 754 interchange encoding, for a format of precision [prec]
    and largest exponent [emax]: sign bit, [ew] bits of biased exponent,
    [mw] bits of fraction.  [spec_float] keeps no NaN payload, so a NaN
    has no determined encoding; every NaN pattern decodes to the one
    NaN. *)
Definition join_bits (mw ew : Z) (s : bool) (e m : Z) : Z :=
  ((if s then 2 ^ ew else 0) + e) * 2 ^ mw + m.

Definition bits_of_spec_float (prec emax : Z) (x : spec_float) : option Z :=
  let mw := prec - 1 in
  let ew := Z.log2 emax + 1 in
  match x with
  | S754_zero s => Some (join_bits mw ew s 0 0)
  | S754_infinity s => Some (join_bits mw ew s (2 ^ ew - 1) 0)
  | S754_nan => None
  | S754_finite s m e =>
      if bounded prec emax m e then
        Some (if 2 ^ mw <=? Zpos m
              then join_bits mw ew s (e - emin prec emax + 1) (Zpos m - 2 ^ mw)
              else join_bits mw ew s 0 (Zpos m))
      else None
  end.

Definition spec_float_of_bits (prec emax : Z) (z : Z) : spec_float :=
  let mw := prec - 1 in
  let ew := Z.log2 emax + 1 in
  let m := z mod 2 ^ mw in
  let e := (z / 2 ^ mw) mod 2 ^ ew in
  let s := Z.testbit z (mw + ew) in
  if e =? 0 then
    match m with
    | Zpos p => S754_finite s p (emin prec emax)
    | _ => S754_zero s
    end
  else if e =? 2 ^ ew - 1 then
    if m =? 0 then S754_infinity s else S754_nan
  else
    match m + 2 ^ mw with
    | Zpos p => S754_finite s p (e + emin prec emax - 1)
    | _ => S754_nan
    end.

Definition float_bits : float -> option Z := bits_of_spec_float 24 128.
Definition double_bits : double -> option Z := bits_of_spec_float 53 1024.
Definition float_of_bits : Z -> float := spec_float_of_bits 24 128.
Definition double_of_bits : Z -> double := spec_float_of_bits 53 1024.

(** ** MATLAB values *)

(** The array classes the bridge reads or creates.  [dims] is what
    [mxGetDimensions] points to, [pr] what [mxGetPr] points to; an unset
    cell or field is a NULL pointer ([None]). *)
Inductive mxArray : Type :=
| mxSingle (dims : list Z) (pr : list float)
| mxDouble (dims : list Z) (pr : list double)
| mxChar (s : string)
| mxCell (dims : list Z) (cells : list (option mxArray))
| mxStruct (dims : list Z) (fnames : list string)
           (elems : list (list (string * option mxArray))).

Definition mxGetDimensions (a : mxArray) : list Z :=
  match a with
  | mxSingle d _ | mxDouble d _ | mxCell d _ | mxStruct d _ _ => d
  | mxChar s => [1; Z.of_nat (String.length s)]
  end.

Definition dims_product (d : list Z) : Z := foldr Z.mul 1 d.

Definition mxGetNumberOfElements (a : mxArray) : Z :=
  dims_product (mxGetDimensions a).

Definition mxIsSingle (a : mxArray) : bool :=
  match a with mxSingle _ _ => true | _ => false end.

(** [mxArrayToString]: NULL unless the array is a char array. *)
Definition mxArrayToString (a : mxArray) : option string :=
  match a with mxChar s => Some s | _ => None end.

(** [mxCreateNumericArray(n, dims, mxSINGLE_CLASS, mxREAL)]: zero filled. *)
Definition mxCreateNumericArray (dims : list Z) : mxArray :=
  mxSingle dims (replicate (Z.to_nat (dims_product dims)) float_zero).

Definition mxCreateDoubleScalar (d : double) : mxArray := mxDouble [1; 1] [d].

Definition mxCreateString (s : string) : mxArray := mxChar s.

(** [mxCreateCellMatrix(m, n)] and [mxCreateCellArray(2, {m, n})]. *)
Definition mxCreateCellMatrix (m n : Z) : mxArray :=
  mxCell [m; n] (replicate (Z.to_nat (m * n)) None).

Definition mxCreateStructArray (dims : list Z) (fnames : list string) : mxArray :=
  mxStruct dims fnames
    (replicate (Z.to_nat (dims_product dims)) (map (fun f => (f, None)) fnames)).

(** ** Engine objects *)

Inductive Brew : Type := CPU | GPU.
Inductive Phase : Type := TRAIN | TEST.

(** A [Blob<float>]: shape and the two buffers.  The CPU and GPU views of
    a buffer hold the same elements. *)
Record Blob : Type := mkBlob {
  num : Z; channels : Z; height : Z; width : Z;
  data : list float;
  diff : list float
}.

Definition count (b : Blob) : Z := num b * channels b * height b * width b.

(** A [Blob<float>*]; address 0 is NULL. *)
Definition ptr : Type := N.
Definition NULL : ptr := 0%N.

(** [caffe_copy(n, src, dst)]: [None] when [n] elements cannot be read
    from [src] or written to [dst]. *)
Definition caffe_copy (n : Z) (src dst : list float) : option (list float) :=
  if (0 <=? n) && (n <=? Z.of_nat (length src)) && (n <=? Z.of_nat (length dst))
  then Some (take (Z.to_nat n) src ++ drop (Z.to_nat n) dst)
  else None.

(** Everything the Caffe library owns: the [Caffe] singleton's mode and
    phase, the live [Blob] objects by address, and the rest of the
    library's state (devices, files, layer internals), which the bridge
    never inspects. *)
Record Lib (Internal : Type) : Type := mkLib {
  caffe_mode : Brew;
  caffe_phase : Phase;
  blob_heap : gmap N Blob;
  internal : Internal
}.
Arguments mkLib {Internal}.
Arguments caffe_mode {Internal}.
Arguments caffe_phase {Internal}.
Arguments blob_heap {Internal}.
Arguments internal {Internal}.

(** The library calls the bridge makes.  A call that ends the process
    (a failed [CHECK] inside the library) yields [None].  Vectors of blob
    pointers are lists of addresses into [blob_heap]. *)
Class Engine (Net Internal PRNG : Type) : Type := {
  (* [new Net<float>(param_file)] and the destructor run by [shared_ptr] *)
  Net_new : string -> Lib Internal -> option (Net * Lib Internal);
  Net_delete : Net -> Lib Internal -> Lib Internal;
  Net_CopyTrainedLayersFrom :
    string -> Net -> Lib Internal -> option (Net * Lib Internal);
  Net_input_blobs : Net -> list ptr;
  Net_output_blobs : Net -> list ptr;
  Net_top_vecs : Net -> list (list ptr);
  Net_blobs : Net -> list ptr;
  Net_blob_names : Net -> list string;
  (* [layers()[i]->blobs()] for every layer [i] *)
  Net_layers : Net -> list (list ptr);
  Net_layer_names : Net -> list string;
  Net_ForwardPrefilled :
    Net -> Lib Internal -> option (list ptr * Net * Lib Internal);
  Net_Backward : Net -> Lib Internal -> option (Net * Lib Internal);
  (* status and the vector of freshly allocated per-batch blobs *)
  Net_CalcGradientsPrefilled :
    string -> list Z -> Net -> Lib Internal ->
    option (Z * list ptr * Net * Lib Internal);
  Net_GetFeaturesPrefilled :
    string -> Net -> Lib Internal -> option (Z * list ptr * Net * Lib Internal);
  Caffe_SetDevice : Z -> Lib Internal -> option (Lib Internal);
  (* [ReadProtoFromBinaryFile] followed by [Blob::FromProto]; [Some None]
     when the read returns false *)
  Blob_read_proto : string -> Lib Internal -> option (option Blob);
  (* libc [random()] *)
  random : PRNG -> Z * PRNG
}.

(** ** The state of the MEX file and its control effects *)

(** [net_] and [init_key] are the file's two statics.  [deleted] is a
    ghost trace of the [delete] expressions the bridge itself executed. *)
Record World (Net Internal PRNG : Type) : Type := mkWorld {
  net_ : option Net;
  init_key : Z;
  lib : Lib Internal;
  prng : PRNG;
  deleted : list ptr
}.
Arguments mkWorld {Net Internal PRNG}.
Arguments net_ {Net Internal PRNG}.
Arguments init_key {Net Internal PRNG}.
Arguments lib {Net Internal PRNG}.
Arguments prng {Net Internal PRNG}.
Arguments deleted {Net Internal PRNG}.

(** How a piece of bridge code ends: it returns; it raises a MATLAB error
    ([mexErrMsgTxt] leaves the MEX function, the statics persist); the
    process is aborted (glog [CHECK] / [LOG(FATAL)]); or it does something
    the language leaves undefined (NULL or out-of-bounds access). *)
Inductive outcome (W A : Type) : Type :=
| Ret (a : A) (w : W)
| MexErr (msg : string) (w : W)
| Fatal (msg : string)
| Undef.
Arguments Ret {W A}.
Arguments MexErr {W A}.
Arguments Fatal {W A}.
Arguments Undef {W A}.

Definition M (W A : Type) : Type := W -> outcome W A.

Definition ret {W A} (a : A) : M W A := fun w => Ret a w.

Definition bind {W A B} (m : M W A) (f : A -> M W B) : M W B :=
  fun w => match m w with
           | Ret a w' => f a w'
           | MexErr msg w' => MexErr msg w'
           | Fatal msg => Fatal msg
           | Undef => Undef
           end.

Notation "x <- m ;; k" := (bind m (fun x => k))
  (at level 90, m at level 60, right associativity, only parsing).
Notation "m ;;; k" := (bind m (fun _ => k))
  (at level 90, right associativity, only parsing).

Section Bridge.
Context {Net Internal PRNG : Type} {E : Engine Net Internal PRNG}.

Local Abbreviation W := (World Net Internal PRNG).
Local Abbreviation M := (M W).

Definition mexErrMsgTxt {A} (msg : string) : M A := fun w => MexErr msg w.
Definition LOG_FATAL {A} (msg : string) : M A := fun _ => Fatal msg.
Definition undefined {A} : M A := fun _ => Undef.

(** [CHECK(c) << msg] *)
Definition CHECK (c : bool) (msg : string) : M unit :=
  if c then ret tt else LOG_FATAL msg.

(** A value that must be there: NULL dereference, index out of bounds. *)
Definition defined {A} (o : option A) : M A :=
  match o with Some a => ret a | None => undefined end.

(** *** Primitive accesses to the world *)

Definition get_net_ : M (option Net) := fun w => Ret (net_ w) w.
Definition get_init_key_ : M Z := fun w => Ret (init_key w) w.
Definition get_lib : M (Lib Internal) := fun w => Ret (lib w) w.

Definition set_net_ (n : option Net) : M unit :=
  fun w => Ret tt (mkWorld n (init_key w) (lib w) (prng w) (deleted w)).
Definition set_init_key (k : Z) : M unit :=
  fun w => Ret tt (mkWorld (net_ w) k (lib w) (prng w) (deleted w)).
Definition set_lib (l : Lib Internal) : M unit :=
  fun w => Ret tt (mkWorld (net_ w) (init_key w) l (prng w) (deleted w)).

Definition call_random : M Z :=
  fun w => let '(r, g) := random (prng w) in
           Ret r (mkWorld (net_ w) (init_key w) (lib w) g (deleted w)).

(** [net_->...]: the handle must not be null. *)
Definition the_net : M Net := o <- get_net_ ;; defined o.

(** A call of a [Net] member function on [*net_]. *)
Definition net_call {A}
    (f : Net -> Lib Internal -> option (A * Net * Lib Internal)) : M A :=
  n <- the_net ;;
  l <- get_lib ;;
  match f n l with
  | Some (a, n', l') => set_net_ (Some n') ;;; set_lib l' ;;; ret a
  | None => LOG_FATAL "caffe"
  end.

Definition Caffe_mode : M Brew := l <- get_lib ;; ret (caffe_mode l).

Definition Caffe_set_mode (m : Brew) : M unit :=
  l <- get_lib ;;
  set_lib (mkLib m (caffe_phase l) (blob_heap l) (internal l)).

Definition Caffe_set_phase (p : Phase) : M unit :=
  l <- get_lib ;;
  set_lib (mkLib (caffe_mode l) p (blob_heap l) (internal l)).

(** [*p] for a blob pointer. *)
Definition deref (p : ptr) : M Blob :=
  l <- get_lib ;;
  if N.eqb p NULL then undefined else defined (blob_heap l !! p).

Definition store_blob (p : ptr) (b : Blob) : M unit :=
  l <- get_lib ;;
  set_lib (mkLib (caffe_mode l) (caffe_phase l) (<[p := b]> (blob_heap l))
                 (internal l)).

(** [delete p] executed by the bridge. *)
Definition delete_blob (p : ptr) : M unit :=
  fun w =>
    match blob_heap (lib w) !! p with
    | Some _ =>
        Ret tt (mkWorld (net_ w) (init_key w)
                  (mkLib (caffe_mode (lib w)) (caffe_phase (lib w))
                         (delete p (blob_heap (lib w))) (internal (lib w)))
                  (prng w) (p :: deleted w))
    | None => Undef
    end.

(** [for (unsigned int i = 0; i < v.size(); ++i) body], the vector being
    untouched by the body. *)
Fixpoint for_each {A} (body : nat -> A -> M unit) (i : nat) (v : list A)
    : M unit :=
  match v with
  | [] => ret tt
  | x :: v' => body i x ;;; for_each body (S i) v'
  end.

(** The same loop threading a local variable through the iterations. *)
Fixpoint for_fold {A T} (body : nat -> A -> T -> M T) (i : nat) (v : list A)
    (s : T) : M T :=
  match v with
  | [] => ret s
  | x :: v' => s' <- body i x s ;; for_fold body (S i) v' s'
  end.

Definition when_ (c : bool) (m : M unit) : M unit := if c then m else ret tt.

(** The truth value of a [shared_ptr]. *)
Definition is_set {A} (o : option A) : bool :=
  match o with Some _ => true | None => false end.

(** *** MEX accessors used by the bridge *)

(** [mxGetPr(a)] is the address of the array's data buffer, whatever the
    class of [a]; the bridge casts it to [const float*] or [const double*]
    without looking at the class.  Read through a pointer of its own
    element type the buffer gives the elements themselves.  Read through
    the other pointer type it gives the buffer's bytes regrouped: the
    buffer is laid out here as little-endian 32-bit words (one per
    [float], two per [double], one per two [mxChar] code units), as on the
    x86-64 the MEX file runs on.  A NaN has no payload in [spec_float], so
    the words of a buffer are known up to its first NaN; the buffer of a
    cell or struct array holds addresses, which the model does not have. *)
Fixpoint words_of_floats (pr : list float) : list Z :=
  match pr with
  | [] => []
  | x :: pr' => match float_bits x with
                | Some z => z :: words_of_floats pr'
                | None => []
                end
  end.

Fixpoint words_of_doubles (pr : list double) : list Z :=
  match pr with
  | [] => []
  | x :: pr' => match double_bits x with
                | Some z => z mod 2 ^ 32 :: z / 2 ^ 32 :: words_of_doubles pr'
                | None => []
                end
  end.

Definition code_unit (c : Ascii.ascii) : Z := Z.of_N (Ascii.N_of_ascii c).

Fixpoint words_of_chars (s : string) : list Z :=
  match s with
  | String c0 (String c1 s') =>
      code_unit c0 + 2 ^ 16 * code_unit c1 :: words_of_chars s'
  | _ => []
  end.

Definition buffer_words (a : mxArray) : option (list Z) :=
  match a with
  | mxSingle _ pr => Some (words_of_floats pr)
  | mxDouble _ pr => Some (words_of_doubles pr)
  | mxChar s => Some (words_of_chars s)
  | mxCell _ _ | mxStruct _ _ _ => None
  end.

Fixpoint doubles_of_words (ws : list Z) : list double :=
  match ws with
  | lo :: hi :: ws' => double_of_bits (lo + 2 ^ 32 * hi) :: doubles_of_words ws'
  | _ => []
  end.

(** [reinterpret_cast<const float*>(mxGetPr(a))] *)
Definition mxGetPr_float (a : mxArray) : option (list float) :=
  match a with
  | mxSingle _ pr => Some pr
  | _ => map float_of_bits <$> buffer_words a
  end.

(** [reinterpret_cast<const double*>(mxGetPr(a))] *)
Definition mxGetPr_double (a : mxArray) : option (list double) :=
  match a with
  | mxDouble _ pr => Some pr
  | _ => doubles_of_words <$> buffer_words a
  end.

(** [mxGetCell(a, i)]: NULL for an unset cell, an index out of range or a
    non-cell array. *)
Definition mxGetCell (a : mxArray) (i : nat) : option mxArray :=
  match a with mxCell _ cells => mjoin (cells !! i) | _ => None end.

Definition mxSetCell (a : mxArray) (i : nat) (v : mxArray) : option mxArray :=
  match a with
  | mxCell d cells =>
      if bool_decide (i < length cells)%nat
      then Some (mxCell d (<[i := Some v]> cells)) else None
  | _ => None
  end.

Definition set_field (f : string) (v : mxArray)
    (e : list (string * option mxArray)) : list (string * option mxArray) :=
  map (fun gx => if String.eqb (fst gx) f then (fst gx, Some v) else gx) e.

Definition mxSetField (a : mxArray) (index : nat) (f : string) (v : mxArray)
    : option mxArray :=
  match a with
  | mxStruct d fn elems =>
      match elems !! index with
      | Some e =>
          if existsb (String.eqb f) fn
          then Some (mxStruct d fn (<[index := set_field f v e]> elems))
          else None
      | None => None
      end
  | _ => None
  end.

Definition double_of_float (x : float) : double :=
  match x with
  | S754_finite s m e => binary_normalize 53 1024 (cond_Zopp s (Zpos m)) e s
  | _ => x
  end.

(** [mxGetScalar]: the first element, as a double. *)
Definition mxGetScalar (a : mxArray) : option double :=
  match a with
  | mxDouble _ (x :: _) => Some x
  | mxSingle _ (x :: _) => Some (double_of_float x)
  | mxChar (String c _) => Some (double_of_int (Z.of_nat (Ascii.nat_of_ascii c)))
  | _ => None
  end.

(** *** Moving elements between blobs and arrays *)

Definition set_data (b : Blob) (d : list float) : Blob :=
  mkBlob (num b) (channels b) (height b) (width b) d (diff b).
Definition set_diff (b : Blob) (d : list float) : Blob :=
  mkBlob (num b) (channels b) (height b) (width b) (data b) d.

(** [switch (Caffe::mode())] around
    [caffe_copy(p->count(), src, p->mutable_{cpu,gpu}_data())]. *)
Definition copy_to_blob_data (p : ptr) (src : list float) : M unit :=
  b <- deref p ;;
  m <- Caffe_mode ;;
  match m with
  | CPU => d <- defined (caffe_copy (count b) src (data b)) ;;
           store_blob p (set_data b d)
  | GPU => d <- defined (caffe_copy (count b) src (data b)) ;;
           store_blob p (set_data b d)
  end.

(** The same with [mutable_{cpu,gpu}_diff()]. *)
Definition copy_to_blob_diff (p : ptr) (src : list float) : M unit :=
  b <- deref p ;;
  m <- Caffe_mode ;;
  match m with
  | CPU => d <- defined (caffe_copy (count b) src (diff b)) ;;
           store_blob p (set_diff b d)
  | GPU => d <- defined (caffe_copy (count b) src (diff b)) ;;
           store_blob p (set_diff b d)
  end.

(** [caffe_copy(n, src, data_ptr)] where [data_ptr] is [off] elements into
    the buffer of the single array [a]. *)
Definition copy_to_mx (n : Z) (src : list float) (a : mxArray) (off : Z)
    : option mxArray :=
  match a with
  | mxSingle d pr =>
      if 0 <=? off then
        match caffe_copy n src (drop (Z.to_nat off) pr) with
        | Some tl => Some (mxSingle d (take (Z.to_nat off) pr ++ tl))
        | None => None
        end
      else None
  | _ => None
  end.

(** The dimensions [{width, height, channels, num}] handed to
    [mxCreateNumericArray] ([int] to [mwSize]). *)
Definition blob_dims (b : Blob) : list Z :=
  [mwSize_of_int (width b); mwSize_of_int (height b);
   mwSize_of_int (channels b); mwSize_of_int (num b)].

(** One iteration of the output loops of [do_forward], [do_backward],
    [do_get_features] and [do_get_weights]: a fresh 4-D single array for
    the blob at [p], filled with [count] elements of the buffer [sel]. *)
Definition mx_blob_of (sel : Blob -> list float) (p : ptr) : M mxArray :=
  b <- deref p ;;
  let mx_blob := mxCreateNumericArray (blob_dims b) in
  m <- Caffe_mode ;;
  match m with
  | CPU => defined (copy_to_mx (count b) (sel b) mx_blob 0)
  | GPU => defined (copy_to_mx (count b) (sel b) mx_blob 0)
  end.

(** [mxCreateCellMatrix(blobs.size(), 1)] and the loop filling it.  The
    source stores the fresh array in its cell before filling the array's
    buffer; the cell holds a pointer, so the order is immaterial. *)
Definition cell_of_blobs (sel : Blob -> list float) (blobs : list ptr)
    : M mxArray :=
  for_fold (fun i p mx_out =>
              mx_blob <- mx_blob_of sel p ;;
              defined (mxSetCell mx_out i mx_blob))
           0%nat blobs (mxCreateCellMatrix (Z.of_nat (length blobs)) 1).

(** ** The worker functions *)

(** The body of the first loop of [do_forward]: cell [i] of [bottom] is
    checked and copied into the input blob at [p]. *)
Definition copy_input_cell (bottom : mxArray) (i : nat) (p : ptr) : M unit :=
  elem <- defined (mxGetCell bottom i) ;;
  CHECK (mxIsSingle elem)
    "MatCaffe require single-precision float point data" ;;;
  b <- deref p ;;
  CHECK (mxGetNumberOfElements elem =? mwSize_of_int (count b))
    "MatCaffe input size does not match the input size of the network" ;;;
  data_ptr <- defined (mxGetPr_float elem) ;;
  copy_to_blob_data p data_ptr.

Definition fill_input_blobs (bottom : mxArray) : M unit :=
  net <- the_net ;;
  let input_blobs := Net_input_blobs net in
  d0 <- defined (mxGetDimensions bottom !! 0%nat) ;;
  CHECK (static_cast_unsigned_int d0 =? Z.of_nat (length input_blobs))
        "Check failed: dims[0] == input_blobs.size()" ;;;
  for_each (copy_input_cell bottom) 0%nat input_blobs.

Definition do_forward (bottom : mxArray) : M mxArray :=
  fill_input_blobs bottom ;;;
  output_blobs <- net_call Net_ForwardPrefilled ;;
  cell_of_blobs data output_blobs.

(** "First, copy the output diff" *)
Definition fill_output_diffs (top_diff : mxArray) : M unit :=
  net <- the_net ;;
  let output_blobs := Net_output_blobs net in
  d0 <- defined (mxGetDimensions top_diff !! 0%nat) ;;
  CHECK (static_cast_unsigned_int d0 =? Z.of_nat (length output_blobs))
        "Check failed: dims[0] == output_blobs.size()" ;;;
  for_each (fun i p =>
              elem <- defined (mxGetCell top_diff i) ;;
              data_ptr <- defined (mxGetPr_float elem) ;;
              copy_to_blob_diff p data_ptr)
           0%nat output_blobs.

(** [input_blobs] is a reference into [*net_]: after [Backward] it is
    read from the net as it then is. *)
Definition do_backward (top_diff : mxArray) : M mxArray :=
  fill_output_diffs top_diff ;;;
  net_call (fun n l => match Net_Backward n l with
                       | Some (n', l') => Some (tt, n', l')
                       | None => None
                       end) ;;;
  net' <- the_net ;;
  cell_of_blobs diff (Net_input_blobs net').

(** The body of the input loop shared verbatim by [do_get_gradients]
    and [do_get_features]: the cell has its first four dimension
    entries compared with the blob's [width], [height], [channels] and
    [num] before its elements are copied into the blob. *)
Definition check_and_copy_cell (bottom : mxArray) (i : nat) (p : ptr)
    : M unit :=
  elem <- defined (mxGetCell bottom i) ;;
  b <- deref p ;;
  e0 <- defined (mxGetDimensions elem !! 0%nat) ;;
  when_ (negb (e0 =? mwSize_of_int (width b)))
    (mexErrMsgTxt "The height of the input images is wrong!") ;;;
  e1 <- defined (mxGetDimensions elem !! 1%nat) ;;
  when_ (negb (e1 =? mwSize_of_int (height b)))
    (mexErrMsgTxt "The width of the input images is wrong!") ;;;
  e2 <- defined (mxGetDimensions elem !! 2%nat) ;;
  when_ (negb (e2 =? mwSize_of_int (channels b)))
    (mexErrMsgTxt "The channel size of the input images is wrong!") ;;;
  e3 <- defined (mxGetDimensions elem !! 3%nat) ;;
  when_ (negb (e3 =? mwSize_of_int (num b)))
    (mexErrMsgTxt "The batch size of the input images is wrong!") ;;;
  data_ptr <- defined (mxGetPr_float elem) ;;
  copy_to_blob_data p data_ptr.

(** "Copy the input to the bottom blob": the cell count is compared
    with the number of input blobs, then every cell is checked and
    copied. *)
Definition copy_checked_inputs (bottom : mxArray) : M unit :=
  net <- the_net ;;
  let input_blobs := Net_input_blobs net in
  d0 <- defined (mxGetDimensions bottom !! 0%nat) ;;
  when_ (negb (static_cast_unsigned_int d0 =? Z.of_nat (length input_blobs)))
    (mexErrMsgTxt "The input has to be a cell array usually containing a single height x width x channels x batch size image!") ;;;
  for_each (check_and_copy_cell bottom) 0%nat input_blobs.

(** "convert float array to int array": the first [dims[0]*dims[1]]
    doubles of [channel_ids], each rejected when below zero and otherwise
    pushed as [(int)(d + 0.5)]. *)
Definition convert_channel (d : double) : Z :=
  int_of_double (double_add d double_half).

(** The body of the conversion loop for index [i]. *)
Definition read_channel (selected_channels : option (list double)) (i : nat)
    (selected_channels_i : list Z) : M (list Z) :=
  d <- defined (selected_channels ≫= (.!! i)) ;;
  when_ (double_ltb d (double_of_int 0))
    (mexErrMsgTxt "The channel ids must be greater than zero!") ;;;
  ret (selected_channels_i ++ [convert_channel d]).

Definition read_channel_ids (channel_ids : mxArray) : M (list Z) :=
  let selected_channels := mxGetPr_double channel_ids in
  d0 <- defined (mxGetDimensions channel_ids !! 0%nat) ;;
  d1 <- defined (mxGetDimensions channel_ids !! 1%nat) ;;
  for_fold (fun _ i selected_channels_i =>
              read_channel selected_channels i selected_channels_i)
           0%nat (seq 0 (Z.to_nat ((d0 * d1) mod 2 ^ 64))) [].

(** The local variables of the gradient loop: [mx_out] (unset before the
    first iteration), [data_ptr] as an element offset into the buffer of
    [mx_out], [data_copied] and [channels_left]. *)
Record grad_state : Type := mkGrad {
  mx_out : option mxArray;
  data_ptr : Z;
  data_copied : Z;
  channels_left : Z
}.

Definition num_to_copy (b : Blob) (channels_left : Z) : Z :=
  Z.min (count b)
        (int_mul (int_mul (int_mul (width b) (height b)) (channels b))
                 channels_left).

Definition gradients_step (k batch_size : Z) (i : nat) (p : ptr)
    (st : grad_state) : M grad_state :=
  b <- deref p ;;
  let st :=
    match i with
    | O => mkGrad (Some (mxCreateNumericArray
                           [mwSize_of_int (width b); mwSize_of_int (height b);
                            mwSize_of_int (channels b);
                            mwSize_of_int (wrap_int k)]))
                  0 (data_copied st) (channels_left st)
    | _ => st
    end in
  let n := num_to_copy b (channels_left st) in
  m <- Caffe_mode ;;
  a <- defined (mx_out st) ;;
  a' <- match m with
        | CPU => defined (copy_to_mx n (diff b) a (data_ptr st))
        | GPU => defined (copy_to_mx n (diff b) a (data_ptr st))
        end ;;
  ret (mkGrad (Some a') (data_ptr st + n) (int_add (data_copied st) n)
              (Z.max 0 (int_sub (channels_left st) batch_size))).

(** [width*height*channels * selected_channels_i.size()] of the first
    output blob: an [int] product widened to [size_t]. *)
Definition expected_elements (b0 : Blob) (k : Z) : Z :=
  (mwSize_of_int (int_mul (int_mul (width b0) (height b0)) (channels b0)) * k)
  mod 2 ^ 64.

(** The [else] block after a successful [CalcGradientsPrefilled]: the
    copy loop over the per-batch blobs and the two [CHECK_EQ]. *)
Definition copy_gradients (k batch_size : Z) (output_blobs : list ptr)
    : M grad_state :=
  st <- for_fold (gradients_step k batch_size) 0%nat output_blobs
                 (mkGrad None 0 0 (wrap_int k)) ;;
  p0 <- defined (output_blobs !! 0%nat) ;;
  b0 <- deref p0 ;;
  CHECK (mwSize_of_int (data_copied st) =? expected_elements b0 k)
        "Check failed: data_copied == width*height*channels*size" ;;;
  CHECK (data_ptr st =? expected_elements b0 k)
        "Check failed: data_ptr == mxGetPr(mx_out) + width*height*channels*size" ;;;
  ret st.

(** "Remove all temp blobs" *)
Definition remove_temp_blobs (output_blobs : list ptr) : M unit :=
  for_each (fun _ p => when_ (negb (N.eqb p NULL)) (delete_blob p))
           0%nat output_blobs.

Definition do_get_gradients (bottom layername channel_ids : mxArray)
    : M mxArray :=
  o <- get_net_ ;;
  when_ (negb (is_set o))
    (mexErrMsgTxt "Initialize caffe first by calling matcaffe_init.") ;;;
  let layer_name := mxArrayToString layername in
  selected_channels_i <- read_channel_ids channel_ids ;;
  let k := Z.of_nat (length selected_channels_i) in
  when_ (k <? 1) (mexErrMsgTxt "Channel list must not be empty.") ;;;
  copy_checked_inputs bottom ;;;
  (* Start gradient calculation *)
  net <- the_net ;;
  top <- defined (Net_top_vecs net !! 0%nat ≫= (.!! 0%nat)) ;;
  top_blob <- deref top ;;
  let batch_size := num top_blob in
  name <- defined layer_name ;;
  r <- net_call (Net_CalcGradientsPrefilled name selected_channels_i) ;;
  st <- (if negb (fst r =? 0) then
           mexErrMsgTxt "Error while calculating. Probably a layer with that name does not exist."
         else copy_gradients k batch_size (snd r)) ;;
  remove_temp_blobs (snd r) ;;;
  defined (mx_out st).

Definition do_get_features (bottom layername : mxArray) : M mxArray :=
  o <- get_net_ ;;
  when_ (negb (is_set o))
    (mexErrMsgTxt "Initialize caffe first by calling matcaffe_init.") ;;;
  let layer_name := mxArrayToString layername in
  copy_checked_inputs bottom ;;;
  name <- defined layer_name ;;
  r <- net_call (Net_GetFeaturesPrefilled name) ;;
  let '(status, output_blobs) := r in
  when_ (negb (status =? 0))
    (mexErrMsgTxt "Error while calculating. Probably a layer with that name does not exist.") ;;;
  cell_of_blobs data output_blobs.

Definition do_get_blobs : M mxArray :=
  net <- the_net ;;
  let blobs := Net_blobs net in
  let blob_names := Net_blob_names net in
  let num_layers := wrap_int (Z.of_nat (length blob_names)) in
  let mx_layers :=
    mxCreateStructArray [mwSize_of_int num_layers; 1]
                        ["diff"; "data"; "blob_names"] in
  r <- for_fold (fun i name (st : nat * mxArray) =>
                   let '(mx_layer_index, mx_layers) := st in
                   p <- defined (blobs !! i) ;;
                   mx_data <- mx_blob_of data p ;;
                   mx_diff <- mx_blob_of diff p ;;
                   l1 <- defined (mxSetField mx_layers mx_layer_index "data" mx_data) ;;
                   l2 <- defined (mxSetField l1 mx_layer_index "diff" mx_diff) ;;
                   l3 <- defined (mxSetField l2 mx_layer_index "blob_names"
                                             (mxCreateString name)) ;;
                   ret (S mx_layer_index, l3))
                0%nat blob_names (0%nat, mx_layers) ;;
  ret (snd r).

(** Step 1 of [do_get_weights]: count the number of layers with weights.
    The body of the loop for layer [i]. *)
Definition count_weight_step (layer_names : list string) (i : nat)
    (layer_blobs : list ptr) (st : string * Z) : M (string * Z) :=
  let '(prev_layer_name, num_layers) := st in
  if (length layer_blobs =? 0)%nat then ret st
  else
    name <- defined (layer_names !! i) ;;
    if negb (String.eqb name prev_layer_name)
    then ret (name, int_add num_layers 1)
    else ret st.

Definition count_weight_layers (layers : list (list ptr))
    (layer_names : list string) : M Z :=
  r <- for_fold (count_weight_step layer_names) 0%nat layers ("", 0) ;;
  ret (snd r).

(** The inner loop of step 3: [mxSetCell(mx_layer_cells, j, mx_weights)]
    for every blob of the layer.  [mx_layer_cells] is NULL unless this
    iteration of the outer loop created it. *)
Definition fill_layer_cells (mx_layer_cells : option mxArray)
    (layer_blobs : list ptr) : M (option mxArray) :=
  for_fold (fun j p (cells : option mxArray) =>
              mx_weights <- mx_blob_of data p ;;
              c <- defined cells ;;
              c' <- defined (mxSetCell c j mx_weights) ;;
              ret (Some c'))
           0%nat layer_blobs mx_layer_cells.

(** Step 3, the body of the loop for layer [i].  The cell array created
    for a layer is stored in the struct by pointer and filled afterwards
    through [mx_layer_cells]; the last [mxSetField] below is that write
    through the shared array. *)
Definition copy_weight_step (layer_names : list string) (i : nat)
    (layer_blobs : list ptr) (st : string * nat * mxArray)
    : M (string * nat * mxArray) :=
  let '(prev_layer_name, mx_layer_index, mx_layers) := st in
  if (length layer_blobs =? 0)%nat then ret st
  else
    name <- defined (layer_names !! i) ;;
    if negb (String.eqb name prev_layer_name) then
      let mx_layer_cells :=
        mxCreateCellMatrix (Z.of_nat (length layer_blobs)) 1 in
      l1 <- defined (mxSetField mx_layers mx_layer_index
                                "weights" mx_layer_cells) ;;
      l2 <- defined (mxSetField l1 mx_layer_index "layer_names"
                                (mxCreateString name)) ;;
      filled <- fill_layer_cells (Some mx_layer_cells) layer_blobs ;;
      c <- defined filled ;;
      l3 <- defined (mxSetField l2 mx_layer_index "weights" c) ;;
      ret (name, S mx_layer_index, l3)
    else
      fill_layer_cells None layer_blobs ;;;
      ret st.

Definition copy_weight_layers (layers : list (list ptr))
    (layer_names : list string) (mx_layers : mxArray) : M mxArray :=
  r <- for_fold (copy_weight_step layer_names) 0%nat layers
                ("", 0%nat, mx_layers) ;;
  ret (snd r).

Definition do_get_weights : M mxArray :=
  net <- the_net ;;
  let layers := Net_layers net in
  let layer_names := Net_layer_names net in
  num_layers <- count_weight_layers layers layer_names ;;
  let mx_layers :=
    mxCreateStructArray [mwSize_of_int num_layers; 1]
                        ["weights"; "layer_names"] in
  copy_weight_layers layers layer_names mx_layers.

(** ** The command handlers

    A handler receives [nlhs] and the arguments after the command name
    ([nrhs] is their number); it yields what it stores in [plhs[0]], if
    anything. *)
Definition handler : Type := Z -> list mxArray -> M (option mxArray).

Definition nrhs (prhs : list mxArray) : Z := Z.of_nat (length prhs).

(** [if (nrhs != n) { LOG(ERROR) ...; mexErrMsgTxt("Wrong number of arguments"); }] *)
Definition expect_nrhs (prhs : list mxArray) (n : Z) : M unit :=
  when_ (negb (nrhs prhs =? n)) (mexErrMsgTxt "Wrong number of arguments").

Definition get_blobs : handler := fun nlhs prhs =>
  r <- do_get_blobs ;; ret (Some r).

Definition get_weights : handler := fun nlhs prhs =>
  r <- do_get_weights ;; ret (Some r).

Definition set_mode_cpu : handler := fun nlhs prhs =>
  Caffe_set_mode CPU ;;; ret None.

Definition set_mode_gpu : handler := fun nlhs prhs =>
  Caffe_set_mode GPU ;;; ret None.

Definition set_phase_train : handler := fun nlhs prhs =>
  Caffe_set_phase TRAIN ;;; ret None.

Definition set_phase_test : handler := fun nlhs prhs =>
  Caffe_set_phase TEST ;;; ret None.

Definition set_device : handler := fun nlhs prhs =>
  expect_nrhs prhs 1 ;;;
  a <- defined (prhs !! 0%nat) ;;
  d <- defined (mxGetScalar a) ;;
  let device_id := int_of_double d in
  l <- get_lib ;;
  match Caffe_SetDevice device_id l with
  | Some l' => set_lib l' ;;; ret None
  | None => LOG_FATAL "caffe"
  end.

Definition get_init_key : handler := fun nlhs prhs =>
  k <- get_init_key_ ;;
  ret (Some (mxCreateDoubleScalar (double_of_int k))).

(** [net_.reset(p)]: the handle takes [p]; the net it held, if any, is
    destroyed by the library. *)
Definition net_reset (p : option Net) : M unit :=
  o <- get_net_ ;;
  set_net_ p ;;;
  match o with
  | Some old => l <- get_lib ;; set_lib (Net_delete old l)
  | None => ret tt
  end.

Definition init : handler := fun nlhs prhs =>
  expect_nrhs prhs 2 ;;;
  a0 <- defined (prhs !! 0%nat) ;;
  a1 <- defined (prhs !! 1%nat) ;;
  let param_file := mxArrayToString a0 in
  let model_file := mxArrayToString a1 in
  pf <- defined param_file ;;
  l <- get_lib ;;
  match Net_new pf l with
  | None => LOG_FATAL "caffe"
  | Some (n, l') =>
      set_lib l' ;;;
      net_reset (Some n) ;;;
      mf <- defined model_file ;;
      net_call (fun n l => match Net_CopyTrainedLayersFrom mf n l with
                           | Some (n', l') => Some (tt, n', l')
                           | None => None
                           end) ;;;
      r <- call_random ;;
      set_init_key (wrap_int r) ;;;
      if nlhs =? 1 then
        k <- get_init_key_ ;;
        ret (Some (mxCreateDoubleScalar (double_of_int k)))
      else ret None
  end.

Definition reset : handler := fun nlhs prhs =>
  o <- get_net_ ;;
  if is_set o then
    net_reset None ;;;
    set_init_key (-2) ;;;
    ret None
  else ret None.

Definition forward : handler := fun nlhs prhs =>
  expect_nrhs prhs 1 ;;;
  a0 <- defined (prhs !! 0%nat) ;;
  r <- do_forward a0 ;;
  ret (Some r).

Definition backward : handler := fun nlhs prhs =>
  expect_nrhs prhs 1 ;;;
  a0 <- defined (prhs !! 0%nat) ;;
  r <- do_backward a0 ;;
  ret (Some r).

Definition get_gradients : handler := fun nlhs prhs =>
  expect_nrhs prhs 3 ;;;
  a0 <- defined (prhs !! 0%nat) ;;
  a1 <- defined (prhs !! 1%nat) ;;
  a2 <- defined (prhs !! 2%nat) ;;
  r <- do_get_gradients a0 a1 a2 ;;
  ret (Some r).

Definition get_features : handler := fun nlhs prhs =>
  expect_nrhs prhs 2 ;;;
  a0 <- defined (prhs !! 0%nat) ;;
  a1 <- defined (prhs !! 1%nat) ;;
  r <- do_get_features a0 a1 ;;
  ret (Some r).

Definition is_initialized : handler := fun nlhs prhs =>
  o <- get_net_ ;;
  if negb (is_set o)
  then ret (Some (mxCreateDoubleScalar (double_of_int 0)))
  else ret (Some (mxCreateDoubleScalar (double_of_int 1))).

Definition read_mean : handler := fun nlhs prhs =>
  if negb (nrhs prhs =? 1) then
    mexErrMsgTxt "Usage: caffe('read_mean', 'path_to_binary_mean_file'"
  else
    a0 <- defined (prhs !! 0%nat) ;;
    mean_file <- defined (mxArrayToString a0) ;;
    l <- get_lib ;;
    match Blob_read_proto mean_file l with
    | None => LOG_FATAL "caffe"
    | Some None => mexErrMsgTxt "Couldn't read the file"
    | Some (Some data_mean) =>
        let mx_blob := mxCreateNumericArray (blob_dims data_mean) in
        r <- defined (copy_to_mx (count data_mean) (data data_mean) mx_blob 0) ;;
        ret (Some r)
    end.

(** ** Available commands *)

Record handler_registry : Type := mkHandler {
  cmd : string;
  func : option handler
}.

Definition handlers : list handler_registry :=
  [ mkHandler "forward" (Some forward);
    mkHandler "backward" (Some backward);
    mkHandler "get_gradients" (Some get_gradients);
    mkHandler "get_features" (Some get_features);
    mkHandler "init" (Some init);
    mkHandler "is_initialized" (Some is_initialized);
    mkHandler "set_mode_cpu" (Some set_mode_cpu);
    mkHandler "set_mode_gpu" (Some set_mode_gpu);
    mkHandler "set_phase_train" (Some set_phase_train);
    mkHandler "set_phase_test" (Some set_phase_test);
    mkHandler "set_device" (Some set_device);
    mkHandler "get_weights" (Some get_weights);
    mkHandler "get_blobs" (Some get_blobs);
    mkHandler "get_init_key" (Some get_init_key);
    mkHandler "reset" (Some reset);
    mkHandler "read_mean" (Some read_mean);
    (* The end. *)
    mkHandler "END" None ].

(** The dispatch loop
    [for (int i = 0; handlers[i].func != NULL; i++)
       if (handlers[i].cmd.compare(cmd) == 0) { call; dispatched = true; break; }]
    over a table [hs]; it yields [dispatched] and the handler's output.
    A table without the NULL sentinel is read past its end. *)
Fixpoint dispatch (hs : list handler_registry) (command : string) (nlhs : Z)
    (args : list mxArray) : M (bool * option mxArray) :=
  match hs with
  | [] => undefined
  | h :: hs' =>
      match func h with
      | None => ret (false, None)
      | Some f =>
          if String.eqb (cmd h) command
          then r <- f nlhs args ;; ret (true, r)
          else dispatch hs' command nlhs args
      end
  end.

(** matlab entry point: [caffe(api_command, arg1, arg2, ...)] *)
Definition mexFunction (nlhs : Z) (prhs : list mxArray) : M (option mxArray) :=
  if nrhs prhs =? 0 then mexErrMsgTxt "An API command is requires"
  else
    a0 <- defined (prhs !! 0%nat) ;;
    command <- defined (mxArrayToString a0) ;;
    r <- dispatch handlers command nlhs (tail prhs) ;;
    when_ (negb (fst r)) (mexErrMsgTxt "API command not recognized") ;;;
    ret (snd r).

End Bridge.

Arguments handler : clear implicits.
Arguments handler_registry : clear implicits.

(** ** A small engine to run the bridge on

    [Toy] implements the [Engine] interface by an identity network: one
    input blob of shape (num 2, channels 1, height 1, width 3) at address
    1, one output blob of the same shape at address 2, and one layer with
    a weight and a bias blob.  The concrete runs in the second half of the
    file use it. *)
Module Toy.

Record net : Type := mkNet {
  inputs : list ptr;
  outputs : list ptr;
  tops : list (list ptr);
  all_blobs : list ptr;
  names : list string;
  layer_blobs : list (list ptr);
  layer_names : list string
}.

Definition fl (z : Z) : float := binary_normalize 24 128 z 0 false.

Definition zeros (n : nat) : list float := replicate n float_zero.

Definition blob3 (d g : list float) : Blob := mkBlob 2 1 1 3 d g.

Definition std_net : net :=
  mkNet [1%N] [2%N] [[2%N]] [1%N; 2%N] ["data"; "prob"]
        [[]; [3%N; 4%N]] ["data"; "ip"].

(** Two consecutive layers with blobs that share the name "conv". *)
Definition dup_net : net :=
  mkNet [1%N] [2%N] [[2%N]] [1%N; 2%N] ["data"; "prob"]
        [[]; [3%N]; [4%N]] ["data"; "conv"; "conv"].

Definition std_heap : gmap N Blob :=
  <[1%N := blob3 (zeros 6) (zeros 6)]>
  (<[2%N := blob3 (zeros 6) (zeros 6)]>
  (<[3%N := mkBlob 1 1 2 2 (zeros 4) (zeros 4)]>
  (<[4%N := mkBlob 1 1 1 2 (zeros 2) (zeros 2)]> ∅))).

Definition with_heap (l : Lib unit) (h : gmap N Blob) : Lib unit :=
  mkLib (caffe_mode l) (caffe_phase l) h (internal l).

Definition new (file : string) (l : Lib unit) : option (net * Lib unit) :=
  if String.eqb file "missing.prototxt" then None
  else Some (if String.eqb file "dup.prototxt" then dup_net else std_net,
             with_heap l (std_heap ∪ blob_heap l)).

Definition delete_net (n : net) (l : Lib unit) : Lib unit :=
  with_heap l (foldr delete (blob_heap l)
                     (all_blobs n ++ concat (layer_blobs n))).

Definition copy_trained (file : string) (n : net) (l : Lib unit)
    : option (net * Lib unit) :=
  if String.eqb file "missing.caffemodel" then None
  else Some (n, with_heap l
                  (<[3%N := mkBlob 1 1 2 2 [fl 1; fl 2; fl 3; fl 4] (zeros 4)]>
                   (<[4%N := mkBlob 1 1 1 2 [fl 5; fl 6] (zeros 2)]>
                    (blob_heap l)))).

(** The output blob takes the data of the input blob. *)
Definition forward_prefilled (n : net) (l : Lib unit)
    : option (list ptr * net * Lib unit) :=
  match blob_heap l !! 1%N, blob_heap l !! 2%N with
  | Some i, Some o =>
      Some (outputs n, n, with_heap l (<[2%N := blob3 (data i) (diff o)]> (blob_heap l)))
  | _, _ => None
  end.

(** The input blob takes the diff of the output blob. *)
Definition backward_all (n : net) (l : Lib unit) : option (net * Lib unit) :=
  match blob_heap l !! 1%N, blob_heap l !! 2%N with
  | Some i, Some o =>
      Some (n, with_heap l (<[1%N := blob3 (data i) (diff o)]> (blob_heap l)))
  | _, _ => None
  end.

(** One fresh blob per batch of two channels, at addresses 100, 101, ...;
    blob [i] holds the diff [100 i + 0 .. 100 i + 5]. *)
Definition grad_blob (i : nat) : Blob :=
  blob3 (zeros 6)
        (map (fun j => fl (100 * Z.of_nat i + Z.of_nat j)) (seq 0 6)).

Definition batches (k : nat) : list nat := seq 0 ((k + 1) / 2).

Definition calc_gradients (name : string) (ids : list Z) (n : net)
    (l : Lib unit) : option (Z * list ptr * net * Lib unit) :=
  if String.eqb name "ip" then
    let bs := batches (length ids) in
    Some (0, map (fun i => N.of_nat (100 + i)) bs, n,
          with_heap l (foldr (fun i h => <[N.of_nat (100 + i) := grad_blob i]> h)
                             (blob_heap l) bs))
  else Some (1, [], n, l).

Definition get_features_prefilled (name : string) (n : net) (l : Lib unit)
    : option (Z * list ptr * net * Lib unit) :=
  if String.eqb name "ip" then
    match forward_prefilled n l with
    | Some (o, n', l') => Some (0, o, n', l')
    | None => None
    end
  else Some (1, [], n, l).

Definition set_device (id : Z) (l : Lib unit) : option (Lib unit) :=
  if id =? 0 then Some l else None.

Definition read_proto (file : string) (l : Lib unit) : option (option Blob) :=
  if String.eqb file "mean.binaryproto"
  then Some (Some (mkBlob 1 1 1 2 [fl 7; fl 8] (zeros 2)))
  else Some None.

(** The generator of the C library's TYPE_0 [random()]. *)
Definition lcg (g : Z) : Z * Z :=
  let r := (g * 1103515245 + 12345) mod 2 ^ 31 in (r, r).

#[global] Instance engine : Engine net unit Z := {|
  Net_new := new;
  Net_delete := delete_net;
  Net_CopyTrainedLayersFrom := copy_trained;
  Net_input_blobs := inputs;
  Net_output_blobs := outputs;
  Net_top_vecs := tops;
  Net_blobs := all_blobs;
  Net_blob_names := names;
  Net_layers := layer_blobs;
  Net_layer_names := layer_names;
  Net_ForwardPrefilled := forward_prefilled;
  Net_Backward := backward_all;
  Net_CalcGradientsPrefilled := calc_gradients;
  Net_GetFeaturesPrefilled := get_features_prefilled;
  Caffe_SetDevice := set_device;
  Blob_read_proto := read_proto;
  random := lcg
|}.

(** The state of a freshly loaded MEX file. *)
Definition w0 : World net unit Z :=
  mkWorld None (-2) (mkLib CPU TEST ∅ tt) 1 [].

(** The state reached by [caffe('init', 'net.prototxt', 'net.caffemodel')]. *)
Definition w1 : World net unit Z :=
  mkWorld (Some std_net) 1103527590
          (mkLib CPU TEST
             (<[3%N := mkBlob 1 1 2 2 [fl 1; fl 2; fl 3; fl 4] (zeros 4)]>
              (<[4%N := mkBlob 1 1 1 2 [fl 5; fl 6] (zeros 2)]> std_heap)) tt)
          1103527590 [].

(** A 3 x 1 x 1 x 2 single array holding 1 .. 6. *)
Definition image : mxArray := mxSingle [3; 1; 1; 2] (map fl [1; 2; 3; 4; 5; 6]).

Definition dbl (z : Z) : double := double_of_int z.

(** The cell array passed to [forward]: one cell, the image. *)
Definition bottom : mxArray := mxCell [1; 1] [Some image].

(** The library state once the image is in the input blob, and once the
    network has run forward on it. *)
Definition lib_filled : Lib unit :=
  with_heap (lib w1)
    (<[1%N := blob3 (map fl [1; 2; 3; 4; 5; 6]) (zeros 6)]> (blob_heap (lib w1))).

Definition lib_forwarded : Lib unit :=
  with_heap lib_filled
    (<[2%N := blob3 (map fl [1; 2; 3; 4; 5; 6]) (zeros 6)]> (blob_heap lib_filled)).

Definition w1_filled : World net unit Z :=
  mkWorld (net_ w1) (init_key w1) lib_filled (prng w1) (deleted w1).

Definition w1_forwarded : World net unit Z :=
  mkWorld (net_ w1) (init_key w1) lib_forwarded (prng w1) (deleted w1).

(** The channel ids 0, 1, 2 as a 1 x 3 double array, and the library
    state once the engine has allocated the two per-batch blobs. *)
Definition ids_array : mxArray := mxDouble [1; 3] [dbl 0; dbl 1; dbl 2].

Definition lib_gradients : Lib unit :=
  with_heap lib_filled
    (<[100%N := grad_blob 0]> (<[101%N := grad_blob 1]> (blob_heap lib_filled))).

(** The state reached by [caffe('init', 'dup.prototxt', 'net.caffemodel')]. *)
Definition w_dup : World net unit Z :=
  mkWorld (Some dup_net) (init_key w1) (lib w1) (prng w1) [].

End Toy.

(** * Properties of the bridge *)

(** ** Vocabulary of the statements *)

Section Vocabulary.
Context {Net Internal PRNG : Type}.
Local Abbreviation W := (World Net Internal PRNG).

(** What MATLAB sees of a call: the value stored in [plhs[0]], the error
    message, or the loss of the process. *)
Inductive observation : Type :=
| Returned (plhs0 : option mxArray)
| Raised (msg : string)
| Aborted (msg : string)
| Undefined.

Definition observe (o : outcome W (option mxArray)) : observation :=
  match o with
  | Ret r _ => Returned r
  | MexErr msg _ => Raised msg
  | Fatal msg => Aborted msg
  | Undef => Undefined
  end.

(** The world a call leaves behind, when the process survives it. *)
Definition survives {A} (o : outcome W A) : option W :=
  match o with
  | Ret _ w | MexErr _ w => Some w
  | Fatal _ | Undef => None
  end.

(** [steps T P m]: whenever [m] hands control back, by a return or by a
    MATLAB error, the worlds before and after are related by [T], and
    every error message it raises satisfies [P]. *)
Definition steps {A} (T : W -> W -> Prop) (P : string -> Prop) (m : M W A)
    : Prop :=
  forall w, match m w with
            | Ret _ w' => T w w'
            | MexErr msg w' => T w w' /\ P msg
            | Fatal _ | Undef => True
            end.

(** Worlds that differ at most in [init_key]. *)
Definition same_but_key (w1 w2 : W) : Prop :=
  net_ w1 = net_ w2 /\ lib w1 = lib w2 /\ prng w1 = prng w2 /\
  deleted w1 = deleted w2.

Definition same_outcome {A} (o1 o2 : outcome W A) : Prop :=
  match o1, o2 with
  | Ret a w1, Ret b w2 => a = b /\ same_but_key w1 w2
  | MexErr m1 w1, MexErr m2 w2 => m1 = m2 /\ same_but_key w1 w2
  | Fatal m1, Fatal m2 => m1 = m2
  | Undef, Undef => True
  | _, _ => False
  end.

(** [key_blind m]: [m] never looks at the [init_key] it starts with. *)
Definition key_blind {A} (m : M W A) : Prop :=
  forall w1 w2, same_but_key w1 w2 -> same_outcome (m w1) (m w2).

(** The three transition relations used below. *)
Definition any_step (w w' : W) : Prop := True.
Definition no_delete (w w' : W) : Prop := deleted w' = deleted w.
Definition keeps_handle (w w' : W) : Prop :=
  is_set (net_ w') = is_set (net_ w) /\ init_key w' = init_key w.

Definition upd_lib (w : W) (l : Lib Internal) : W :=
  mkWorld (net_ w) (init_key w) l (prng w) (deleted w).

(** The invariants the library maintains of a blob: [int] dimensions
    that are not negative, an [int] count, and buffers of [count]
    elements. *)
Definition blob_wf (b : Blob) : Prop :=
  (0 <= num b <= INT_MAX) /\ (0 <= channels b <= INT_MAX) /\
  (0 <= height b <= INT_MAX) /\ (0 <= width b <= INT_MAX) /\
  count b <= INT_MAX /\
  Z.of_nat (length (data b)) = count b /\
  Z.of_nat (length (diff b)) = count b.

(** [p] points to the live blob [b]. *)
Definition blob_at (l : Lib Internal) (p : ptr) (b : Blob) : Prop :=
  p <> NULL /\ blob_heap l !! p = Some b.

Definition with_blob (l : Lib Internal) (p : ptr) (b : Blob) : Lib Internal :=
  mkLib (caffe_mode l) (caffe_phase l) (<[p := b]> (blob_heap l)) (internal l).

(** The 4-D single array of dimensions [width, height, channels, num]
    that holds the buffer [sel] of a blob as it is. *)
Definition host_array (sel : Blob -> list float) (b : Blob) : mxArray :=
  mxSingle [width b; height b; channels b; num b] (sel b).

(** The cells built from the blobs at [ps] as the library state [l]
    holds them. *)
Definition cells_of (sel : Blob -> list float) (l : Lib Internal)
    (ps : list ptr) : list (option mxArray) :=
  map (fun p => host_array sel <$> blob_heap l !! p) ps.

(** Every pointer of [ps] points to a live, well-formed blob. *)
Definition blobs_ok (l : Lib Internal) (ps : list ptr) : Prop :=
  Forall (fun p => exists b, blob_at l p b /\ blob_wf b) ps.

(** The channel ids [get_gradients] reads from its third argument: the
    first [dims[0]*dims[1]] elements of the buffer, which for a vector
    or a matrix are all of them. *)
Definition supplied_ids (channel_ids : mxArray) : list double :=
  match channel_ids with
  | mxDouble (d0 :: d1 :: _) pr => take (Z.to_nat ((d0 * d1) mod 2 ^ 64)) pr
  | _ => []
  end.

(** A double array that owns at least the elements its first two
    dimensions announce. *)
Definition is_id_array (channel_ids : mxArray) : Prop :=
  match channel_ids with
  | mxDouble (d0 :: d1 :: _) pr =>
      (d0 * d1) mod 2 ^ 64 <= Z.of_nat (length pr)
  | _ => False
  end.

Definition strictly_negative (d : double) : bool :=
  double_ltb d (double_of_int 0).

(** The rational a finite double stands for. *)
Definition double_value (d : double) : option Q :=
  match d with
  | S754_zero _ => Some (inject_Z 0)
  | S754_finite s m e =>
      match e with
      | Z0 => Some (inject_Z (cond_Zopp s (Zpos m)))
      | Zpos p => Some (inject_Z (cond_Zopp s (Zpos m * 2 ^ Zpos p)))
      | Zneg p => Some (Qmake (cond_Zopp s (Zpos m)) (2 ^ p))
      end
  | S754_infinity _ | S754_nan => None
  end.

(** Rounding to the nearest integer, halves upwards. *)
Definition round_half_up (q : Q) : Z := Qfloor (q + (1 # 2))%Q.

(** The largest double below one half. *)
Definition below_half : double := S754_finite false (2 ^ 53 - 1) (-54).

(** A call ends by raising the message [msg]. *)
Definition raises {A} (o : outcome W A) (msg : string) : Prop :=
  exists w', o = MexErr msg w'.

(** The elements [get_gradients] takes from the per-batch blobs [bs], in
    batch order, when [left] channels are still wanted: from each blob
    the first [min(count, width*height*channels*channels_left)] elements
    of its diff. *)
Fixpoint gradient_chunks (batch_size : Z) (bs : list Blob) (left : Z)
    : list float :=
  match bs with
  | [] => []
  | b :: bs' =>
      take (Z.to_nat (num_to_copy b left)) (diff b)
      ++ gradient_chunks batch_size bs' (Z.max 0 (int_sub left batch_size))
  end.

(** [channels_left] after the blobs [bs]. *)
Fixpoint final_left (batch_size : Z) (bs : list Blob) (left : Z) : Z :=
  match bs with
  | [] => left
  | _ :: bs' => final_left batch_size bs' (Z.max 0 (int_sub left batch_size))
  end.

(** The heap once the bridge has deleted the blobs at [ps]. *)
Definition delete_all (ps : list ptr) (h : gmap N Blob) : gmap N Blob :=
  foldl (fun h p => delete p h) h ps.

(** The four checks an input cell of dimensions [dims] undergoes
    against its blob, in order, and the message of the first that
    fails.  The first entry is compared with the blob's width under a
    message about the height, the second with the height under a
    message about the width. *)
Definition dimension_error (dims : list Z) (b : Blob) : option string :=
  match dims with
  | e0 :: e1 :: e2 :: e3 :: _ =>
      if negb (e0 =? width b) then
        Some "The height of the input images is wrong!"
      else if negb (e1 =? height b) then
        Some "The width of the input images is wrong!"
      else if negb (e2 =? channels b) then
        Some "The channel size of the input images is wrong!"
      else if negb (e3 =? num b) then
        Some "The batch size of the input images is wrong!"
      else None
  | _ => None
  end.

Definition dimension_messages : list string :=
  [ "The height of the input images is wrong!";
    "The width of the input images is wrong!";
    "The channel size of the input images is wrong!";
    "The batch size of the input images is wrong!" ].

(** The error of the first cell that fails a check, cells and blobs
    taken in order. *)
Fixpoint first_dimension_error (cells : list (list Z * list float))
    (bs : list Blob) : option string :=
  match cells, bs with
  | c :: cells', b :: bs' =>
      match dimension_error (fst c) b with
      | Some msg => Some msg
      | None => first_dimension_error cells' bs'
      end
  | _, _ => None
  end.

(** The dimension error a call ended with, if it ended with one. *)
Definition raised_dimension_error {A} (o : outcome W A) : option string :=
  match o with
  | MexErr msg _ =>
      if bool_decide (msg ∈ dimension_messages) then Some msg else None
  | _ => None
  end.

Definition not_dimension_message (msg : string) : Prop :=
  msg ∉ dimension_messages.

(** A cell array of single arrays, given by the dimensions and the
    buffer of every cell. *)
Definition cell_array (d : list Z) (cells : list (list Z * list float))
    : mxArray :=
  mxCell d (map (fun c => Some (mxSingle (fst c) (snd c))) cells).

(** Four dimension entries and a buffer of as many elements as they
    announce. *)
Definition is_4d (c : list Z * list float) : Prop :=
  length (fst c) = 4%nat /\ Z.of_nat (length (snd c)) = dims_product (fst c).

Definition same_shape (b b' : Blob) : Prop :=
  num b = num b' /\ channels b = channels b' /\
  height b = height b' /\ width b = width b'.




(** A cell that [forward] accepts for the blob [b]: as many elements as
    the blob counts, all of them in the buffer. *)
Definition fits (c : list Z * list float) (b : Blob) : Prop :=
  dims_product (fst c) = count b /\ Z.of_nat (length (snd c)) = count b.

(** The layers that own parameter blobs, each with its name. *)
Fixpoint weight_layers (layers : list (list ptr)) (layer_names : list string)
    : list (string * list ptr) :=
  match layers, layer_names with
  | layer_blobs :: ls, name :: ns =>
      if (length layer_blobs =? 0)%nat then weight_layers ls ns
      else (name, layer_blobs) :: weight_layers ls ns
  | _, _ => []
  end.

(** Some name of [names] equals the one before it, [prev] for the
    first: a run of two layers. *)
Fixpoint repeats (prev : string) (names : list string) : bool :=
  match names with
  | [] => false
  | name :: ns => String.eqb name prev || repeats name ns
  end.

(** The number of maximal runs of equal names in [names], the first
    run continuing [prev]. *)
Fixpoint count_runs (prev : string) (names : list string) : nat :=
  match names with
  | [] => 0
  | name :: ns =>
      ((if String.eqb name prev then 0 else 1) + count_runs name ns)%nat
  end.

(** The struct element [get_weights] builds for a layer: the cell array
    of its blobs' data and its name. *)
Definition weight_entry (l : Lib Internal) (x : string * list ptr)
    : list (string * option mxArray) :=
  [("weights", Some (mxCell [Z.of_nat (length (snd x)); 1]
                            (cells_of data l (snd x))));
   ("layer_names", Some (mxChar (fst x)))].

(** The struct array [get_weights] builds for the blob-bearing layers
    [wl]. *)
Definition weight_struct (l : Lib Internal) (wl : list (string * list ptr))
    : mxArray :=
  mxStruct [Z.of_nat (length wl); 1] ["weights"; "layer_names"]
           (map (weight_entry l) wl).

(** The pointers of [outs] that are not NULL. *)
Definition non_null (outs : list ptr) : list ptr :=
  filter (fun p => p <> NULL) outs.

(** The handle is set exactly when an init [g] is in force, and the key
    is then the one it generated, [-2] otherwise. *)
Definition handle_inv (w : W) (g : option Z) : Prop :=
  is_set (net_ w) = is_set g /\ init_key w = default (-2) g.

(** Filling the input blobs or the output diffs leaves the handle, the
    key, the generator and the deletion trace alone. *)
Definition only_lib (w w' : W) : Prop := w' = upd_lib w (lib w').

(** The blobs behind [ps] are live and well formed and have the shapes
    of [bs]. *)
Definition shaped (l : Lib Internal) (ps : list ptr) (bs : list Blob) : Prop :=
  Forall2 (fun p b0 => exists b, blob_at l p b /\ blob_wf b /\ same_shape b b0)
          ps bs.

(** A message that is neither of the two about the channel ids. *)
Definition other_message (msg : string) : Prop :=
  msg <> "The channel ids must be greater than zero!" /\
  msg <> "Channel list must not be empty.".

End Vocabulary.

Section Registry.
Context {Net Internal PRNG : Type} {E : Engine Net Internal PRNG}.
Local Abbreviation handler := (handler Net Internal PRNG).
Local Abbreviation handler_registry := (handler_registry Net Internal PRNG).

(** The entries the dispatch loop can reach: those before the first
    NULL [func]. *)
Fixpoint table_entries (hs : list handler_registry) : list (string * handler) :=
  match hs with
  | [] => []
  | h :: hs' =>
      match func h with
      | None => []
      | Some f => (cmd h, f) :: table_entries hs'
      end
  end.

(** The table ends with a sentinel. *)
Fixpoint terminated (hs : list handler_registry) : bool :=
  match hs with
  | [] => false
  | h :: hs' => match func h with None => true | Some _ => terminated hs' end
  end.

Definition registered : list (string * handler) := table_entries handlers.

Definition command_names : list string := map fst registered.

(** The command a call names, when its first argument is a string. *)
Definition command_of (prhs : list mxArray) : option string :=
  head prhs ≫= mxArrayToString.

Definition is_command (name : string) (prhs : list mxArray) : bool :=
  match command_of prhs with
  | Some c => String.eqb c name
  | None => false
  end.

(** *** Histories of calls

    A call is [nlhs] with the argument list.  [run] plays a sequence of
    calls for as long as the process survives them and maintains a
    history variable: the key generated by the last [init] that returned
    since the last [reset], if there is one. *)
Definition call : Type := Z * list mxArray.

(** The key an [init] entered in world [w] generates: the next value of
    [random()], stored in an [int]. *)
Definition generated_key (w : World Net Internal PRNG) : Z :=
  wrap_int (fst (random (prng w))).

Definition track (w : World Net Internal PRNG) (c : call)
    (o : outcome (World Net Internal PRNG) (option mxArray))
    (g : option Z) : option Z :=
  if is_command "reset" (snd c) then None
  else if is_command "init" (snd c) then
    match o with Ret _ _ => Some (generated_key w) | _ => g end
  else g.

Fixpoint run (cs : list call) (w : World Net Internal PRNG) (g : option Z)
    : option (World Net Internal PRNG * option Z) :=
  match cs with
  | [] => Some (w, g)
  | c :: cs' =>
      let o := mexFunction (fst c) (snd c) w in
      match survives o with
      | Some w' => run cs' w' (track w c o g)
      | None => None
      end
  end.

(** The statics as their initializers leave them. *)
Definition initial (w : World Net Internal PRNG) : Prop :=
  net_ w = None /\ init_key w = -2.

End Registry.

(** ** Vocabulary of the properties of the single commands *)

Section Commands.
Context {Net Internal PRNG : Type} {E : Engine Net Internal PRNG}.
Local Abbreviation W := (World Net Internal PRNG).

(** The commands that only read the state. *)
Definition read_only_commands : list string :=
  ["is_initialized"; "get_init_key"; "get_weights"; "get_blobs"; "read_mean"].

(** The commands that set the mode or the phase of the [Caffe]
    singleton. *)
Definition setter_commands : list string :=
  ["set_mode_cpu"; "set_mode_gpu"; "set_phase_train"; "set_phase_test"].

(** The number of arguments after the command name that the commands
    checking it insist on. *)
Definition argument_counts : list (string * Z) :=
  [("forward", 1); ("backward", 1); ("get_gradients", 3);
   ("get_features", 2); ("init", 2); ("set_device", 1); ("read_mean", 1)].

(** The message a command raises over a wrong number of arguments. *)
Definition wrong_count_message (c : string) : string :=
  if String.eqb c "read_mean"
  then "Usage: caffe('read_mean', 'path_to_binary_mean_file'"
  else "Wrong number of arguments".

(** Two library states that differ at most in mode and phase. *)
Definition same_but_mode (l l' : Lib Internal) : Prop :=
  blob_heap l' = blob_heap l /\ internal l' = internal l.

(** A piece of bridge code ends the process: a failed [CHECK] of the
    bridge or of the library. *)
Definition aborts {A} (o : outcome W A) : Prop := exists msg, o = Fatal msg.

(** The generator is as it was; the whole state is as it was. *)
Definition same_prng (w w' : W) : Prop := prng w' = prng w.
Definition unchanged (w w' : W) : Prop := w' = w.

(** The struct element [get_blobs] builds for the blob at [p]. *)
Definition blob_entry (l : Lib Internal) (p : ptr) (name : string)
    : list (string * option mxArray) :=
  [("diff", host_array diff <$> blob_heap l !! p);
   ("data", host_array data <$> blob_heap l !! p);
   ("blob_names", Some (mxChar name))].


(** Truncation toward zero. *)
Definition Qtruncate (q : Q) : Z :=
  if Qle_bool 0 q then Qfloor q else Qceiling q.

(** The keys [init] hands out, when [random()] keeps to its range. *)
Definition key_in_range (g : option Z) : Prop :=
  forall k, g = Some k -> 0 <= k <= INT_MAX.

(** The messages of the MATLAB errors each command raises itself. *)
Definition wrong_count : string := "Wrong number of arguments".
Definition no_net : string :=
  "Initialize caffe first by calling matcaffe_init.".
Definition input_messages : list string :=
  ["The input has to be a cell array usually containing a single height x width x channels x batch size image!";
   "The height of the input images is wrong!";
   "The width of the input images is wrong!";
   "The channel size of the input images is wrong!";
   "The batch size of the input images is wrong!";
   "Error while calculating. Probably a layer with that name does not exist."].

Definition messages : list (string * list string) :=
  [("forward", [wrong_count]);
   ("backward", [wrong_count]);
   ("get_gradients",
    wrong_count :: no_net
      :: "The channel ids must be greater than zero!"
      :: "Channel list must not be empty." :: input_messages);
   ("get_features", wrong_count :: no_net :: input_messages);
   ("init", [wrong_count]);
   ("set_device", [wrong_count]);
   ("read_mean", ["Usage: caffe('read_mean', 'path_to_binary_mean_file'";
                  "Couldn't read the file"])].

Fixpoint listed (c : string) (table : list (string * list string))
    : list string :=
  match table with
  | [] => []
  | (name, msgs) :: table' =>
      if String.eqb name c then msgs else listed c table'
  end.

Definition messages_of (c : string) : list string := listed c messages.

Definition may_raise (c : string) (msg : string) : Prop :=
  msg ∈ messages_of c.

End Commands.

(** The toy engine with a gradient pass that hands over one blob,
    whatever the number of channels, and reports a failure for every
    layer but "ip". *)
Module Stingy.

Definition one_blob (name : string) (ids : list Z) (n : Toy.net)
    (l : Lib unit) : option (Z * list ptr * Toy.net * Lib unit) :=
  Some (if String.eqb name "ip" then 0 else 1, [100%N], n,
        Toy.with_heap l (<[100%N := Toy.grad_blob 0]> (blob_heap l))).

Definition engine : Engine Toy.net unit Z := {|
  Net_new := Toy.new;
  Net_delete := Toy.delete_net;
  Net_CopyTrainedLayersFrom := Toy.copy_trained;
  Net_input_blobs := Toy.inputs;
  Net_output_blobs := Toy.outputs;
  Net_top_vecs := Toy.tops;
  Net_blobs := Toy.all_blobs;
  Net_blob_names := Toy.names;
  Net_layers := Toy.layer_blobs;
  Net_layer_names := Toy.layer_names;
  Net_ForwardPrefilled := Toy.forward_prefilled;
  Net_Backward := Toy.backward_all;
  Net_CalcGradientsPrefilled := one_blob;
  Net_GetFeaturesPrefilled := Toy.get_features_prefilled;
  Caffe_SetDevice := Toy.set_device;
  Blob_read_proto := Toy.read_proto;
  random := Toy.lcg
|}.

(** The library state once the image is in the input blob and the one
    gradient blob is allocated. *)
Definition lib_one_blob : Lib unit :=
  Toy.with_heap Toy.lib_filled
    (<[100%N := Toy.grad_blob 0]> (blob_heap Toy.lib_filled)).

End Stingy.

(** ** Control-flow lemmas *)

Section Steps.
Context {Net Internal PRNG : Type} {E : Engine Net Internal PRNG}.
Local Abbreviation W := (World Net Internal PRNG).
Local Abbreviation handler := (handler Net Internal PRNG).
Variable T : W -> W -> Prop.
Variable P : string -> Prop.
Hypothesis T_refl : forall w, T w w.
Hypothesis T_trans : forall w1 w2 w3, T w1 w2 -> T w2 w3 -> T w1 w3.

Lemma steps_ret {A} (a : A) : steps T P (ret a).
Proof. intros w. apply T_refl. Qed.

Lemma steps_bind {A B} (m : M W A) (f : A -> M W B) :
  steps T P m -> (forall a, steps T P (f a)) -> steps T P (bind m f).
Proof.
  intros Hm Hf w. unfold bind. specialize (Hm w).
  destruct (m w) as [a w'|msg w'|msg|]; auto.
  specialize (Hf a w'). destruct (f a w') as [b w''|msg w''|msg|]; auto.
  - eapply T_trans; eauto.
  - destruct Hf. split; [eapply T_trans; eauto | done].
Qed.

Lemma steps_mexErrMsgTxt {A} msg : P msg -> steps T P (mexErrMsgTxt msg : M W A).
Proof. intros HP w. split; [apply T_refl | done]. Qed.

Lemma steps_LOG_FATAL {A} msg : steps T P (LOG_FATAL msg : M W A).
Proof. intros w. exact I. Qed.

Lemma steps_undefined {A} : steps T P (undefined : M W A).
Proof. intros w. exact I. Qed.

Lemma steps_defined {A} (o : option A) : steps T P (defined o : M W A).
Proof. destruct o; [apply steps_ret | apply steps_undefined]. Qed.

Lemma steps_CHECK c msg : steps T P (CHECK c msg : M W unit).
Proof. destruct c; [apply steps_ret | apply steps_LOG_FATAL]. Qed.

Lemma steps_when_ c (m : M W unit) : steps T P m -> steps T P (when_ c m).
Proof. intros Hm. destruct c; [done | apply steps_ret]. Qed.

Lemma steps_for_each {A} (body : nat -> A -> M W unit) :
  (forall i x, steps T P (body i x)) ->
  forall v i, steps T P (for_each body i v).
Proof.
  intros Hb v. induction v as [|x v IH]; intros i; simpl.
  - apply steps_ret.
  - apply steps_bind; [apply Hb | intros _; apply IH].
Qed.

Lemma steps_for_fold {A S} (body : nat -> A -> S -> M W S) :
  (forall i x s, steps T P (body i x s)) ->
  forall v i s, steps T P (for_fold body i v s).
Proof.
  intros Hb v. induction v as [|x v IH]; intros i s; simpl.
  - apply steps_ret.
  - apply steps_bind; [apply Hb | intros s'; apply IH].
Qed.

(** *** The primitives *)

Hypothesis T_lib : forall w l, T w (upd_lib w l).
Hypothesis T_prng :
  forall w g, T w (mkWorld (net_ w) (init_key w) (lib w) g (deleted w)).
Hypothesis T_net_some :
  forall w n n', net_ w = Some n ->
    T w (mkWorld (Some n') (init_key w) (lib w) (prng w) (deleted w)).
Hypothesis T_delete :
  forall w l p, T w (mkWorld (net_ w) (init_key w) l (prng w) (p :: deleted w)).
Hypothesis T_key :
  forall w k, T w (mkWorld (net_ w) k (lib w) (prng w) (deleted w)).
Hypothesis T_net :
  forall w o, T w (mkWorld o (init_key w) (lib w) (prng w) (deleted w)).

Lemma steps_get_net_ : steps T P (get_net_ : M W _).
Proof. intros w. apply T_refl. Qed.

Lemma steps_get_init_key_ : steps T P (get_init_key_ : M W _).
Proof. intros w. apply T_refl. Qed.

Lemma steps_get_lib : steps T P (get_lib : M W _).
Proof. intros w. apply T_refl. Qed.

Lemma steps_set_lib l : steps T P (set_lib l : M W _).
Proof. intros w. apply T_lib. Qed.

Lemma steps_call_random : steps T P (call_random : M W _).
Proof. intros w. unfold call_random. destruct (random (prng w)). apply T_prng. Qed.

Lemma steps_set_init_key k : steps T P (set_init_key k : M W _).
Proof. intros w. apply T_key. Qed.

Lemma steps_set_net_ o : steps T P (set_net_ o : M W _).
Proof. intros w. apply T_net. Qed.

Lemma steps_delete_blob p : steps T P (delete_blob p : M W _).
Proof. intros w. unfold delete_blob. destruct (_ !! _); [apply T_delete | done]. Qed.

Lemma steps_the_net : steps T P (the_net : M W _).
Proof. apply steps_bind; [apply steps_get_net_ | intros; apply steps_defined]. Qed.

Lemma steps_net_call {A}
    (f : Net -> Lib Internal -> option (A * Net * Lib Internal)) :
  steps T P (net_call f).
Proof.
  intros w. unfold net_call, the_net, bind, get_net_, get_lib, defined, ret.
  destruct (net_ w) as [n|] eqn:Hn; [|done]. unfold undefined.
  destruct (f n (lib w)) as [[[a n'] l']|]; [|done]. simpl.
  eapply T_trans; [eapply T_net_some; eassumption|].
  exact (T_lib (mkWorld (Some n') (init_key w) (lib w) (prng w) (deleted w)) l').
Qed.

End Steps.

(** Applies the control-flow lemmas along the structure of a bridge
    function.  [side] proves the facts about the transition relation and
    about the messages raised. *)
Ltac steps_auto side :=
  repeat first
    [ assumption
    | solve [side]
    | apply steps_net_call
    | apply steps_the_net
    | apply steps_get_net_
    | apply steps_get_init_key_
    | apply steps_get_lib
    | apply steps_set_lib
    | apply steps_call_random
    | apply steps_set_init_key
    | apply steps_set_net_
    | apply steps_delete_blob
    | apply steps_ret
    | apply steps_mexErrMsgTxt
    | apply steps_LOG_FATAL
    | apply steps_undefined
    | apply steps_defined
    | apply steps_CHECK
    | apply steps_when_
    | apply steps_for_each
    | apply steps_for_fold
    | match goal with
      | |- steps _ _ (match ?x with _ => _ end) => destruct x
      end
    | apply steps_bind
    | match goal with |- forall _, _ => intro end ].

Ltac unfold_workers :=
  unfold do_forward, do_backward, fill_input_blobs, fill_output_diffs,
    do_get_gradients, do_get_features,
    do_get_blobs, do_get_weights, copy_checked_inputs, check_and_copy_cell,
    copy_input_cell,
    read_channel_ids,
    read_channel,
    copy_gradients, remove_temp_blobs, gradients_step, count_weight_layers,
    copy_weight_layers, count_weight_step, copy_weight_step,
    fill_layer_cells, cell_of_blobs, mx_blob_of, copy_to_blob_data,
    copy_to_blob_diff, net_reset, expect_nrhs, deref, store_blob,
    Caffe_mode, Caffe_set_mode, Caffe_set_phase.

Ltac unfold_handlers :=
  unfold forward, backward, get_gradients, get_features, init,
    is_initialized, set_mode_cpu, set_mode_gpu, set_phase_train,
    set_phase_test, set_device, get_weights, get_blobs, get_init_key,
    reset, read_mean.

(** ** What the handlers raise, delete and keep *)

Section Handlers.
Context {Net Internal PRNG : Type} {E : Engine Net Internal PRNG}.
Local Abbreviation W := (World Net Internal PRNG).
Local Abbreviation handler := (handler Net Internal PRNG).


End Handlers.

(** ** Independence of [init_key] *)

Section KeyBlind.
Context {Net Internal PRNG : Type} {E : Engine Net Internal PRNG}.
Local Abbreviation W := (World Net Internal PRNG).
Local Abbreviation handler := (handler Net Internal PRNG).

Lemma same_but_key_refl (w : W) : same_but_key w w.
Proof. by repeat split. Qed.

Lemma same_outcome_refl {A} (o : outcome W A) : same_outcome o o.
Proof. destruct o; simpl; auto using same_but_key_refl. Qed.

Lemma key_blind_ret {A} (a : A) : key_blind (ret a : M W A).
Proof. intros w1 w2 H. by split. Qed.

Lemma key_blind_bind {A B} (m : M W A) (f : A -> M W B) :
  key_blind m -> (forall a, key_blind (f a)) -> key_blind (bind m f).
Proof.
  intros Hm Hf w1 w2 H. unfold bind. specialize (Hm w1 w2 H).
  destruct (m w1), (m w2); simpl in Hm; try done.
  destruct Hm as [-> Hw]. by apply Hf.
Qed.

Lemma key_blind_mexErrMsgTxt {A} msg : key_blind (mexErrMsgTxt msg : M W A).
Proof. intros w1 w2 H. by split. Qed.

Lemma key_blind_LOG_FATAL {A} msg : key_blind (LOG_FATAL msg : M W A).
Proof. by intros w1 w2 H. Qed.

Lemma key_blind_undefined {A} : key_blind (undefined : M W A).
Proof. by intros w1 w2 H. Qed.

Lemma key_blind_defined {A} (o : option A) : key_blind (defined o : M W A).
Proof. destruct o; [apply key_blind_ret | apply key_blind_undefined]. Qed.

Lemma key_blind_CHECK c msg : key_blind (CHECK c msg : M W unit).
Proof. destruct c; [apply key_blind_ret | apply key_blind_LOG_FATAL]. Qed.

Lemma key_blind_when_ c (m : M W unit) : key_blind m -> key_blind (when_ c m).
Proof. intros Hm. destruct c; [done | apply key_blind_ret]. Qed.

Lemma key_blind_for_each {A} (body : nat -> A -> M W unit) :
  (forall i x, key_blind (body i x)) ->
  forall v i, key_blind (for_each body i v).
Proof.
  intros Hb v. induction v as [|x v IH]; intros i; simpl.
  - apply key_blind_ret.
  - apply key_blind_bind; [apply Hb | intros _; apply IH].
Qed.

Lemma key_blind_for_fold {A S} (body : nat -> A -> S -> M W S) :
  (forall i x s, key_blind (body i x s)) ->
  forall v i s, key_blind (for_fold body i v s).
Proof.
  intros Hb v. induction v as [|x v IH]; intros i s; simpl.
  - apply key_blind_ret.
  - apply key_blind_bind; [apply Hb | intros s'; apply IH].
Qed.

Lemma key_blind_get_net_ : key_blind (get_net_ : M W _).
Proof. intros w1 w2 H. split; [apply H | done]. Qed.

Lemma key_blind_get_lib : key_blind (get_lib : M W _).
Proof. intros w1 w2 H. split; [apply H | done]. Qed.

Lemma key_blind_set_lib l : key_blind (set_lib l : M W _).
Proof. intros w1 w2 (?&?&?&?). by repeat split. Qed.

Lemma key_blind_set_net_ o : key_blind (set_net_ o : M W _).
Proof. intros w1 w2 (?&?&?&?). by repeat split. Qed.

Lemma key_blind_set_init_key k : key_blind (set_init_key k : M W _).
Proof. intros w1 w2 (?&?&?&?). by repeat split. Qed.

Lemma key_blind_call_random : key_blind (call_random : M W _).
Proof.
  intros w1 w2 (?&?&Hg&?). unfold call_random. rewrite Hg.
  destruct (random (prng w2)). by repeat split.
Qed.

Lemma key_blind_delete_blob p : key_blind (delete_blob p : M W _).
Proof.
  intros w1 w2 (Hn&Hl&Hg&Hd). unfold delete_blob. rewrite Hl, Hd.
  destruct (_ !! _); [by repeat split | done].
Qed.

(** Once [init_key] has been overwritten, reading it is harmless. *)
Lemma key_blind_after_set {A} k (m : M W A) :
  key_blind (bind (set_init_key k) (fun _ => m)).
Proof.
  intros [n1 k1 l1 g1 d1] [n2 k2 l2 g2 d2] (Hn&Hl&Hg&Hd). simpl in *. subst.
  unfold bind, set_init_key. simpl. apply same_outcome_refl.
Qed.

End KeyBlind.

Ltac key_blind_auto :=
  repeat first
    [ apply key_blind_after_set
    | apply key_blind_get_net_
    | apply key_blind_get_lib
    | apply key_blind_set_lib
    | apply key_blind_set_net_
    | apply key_blind_call_random
    | apply key_blind_delete_blob
    | apply key_blind_ret
    | apply key_blind_mexErrMsgTxt
    | apply key_blind_LOG_FATAL
    | apply key_blind_undefined
    | apply key_blind_defined
    | apply key_blind_CHECK
    | apply key_blind_when_
    | apply key_blind_for_each
    | apply key_blind_for_fold
    | match goal with
      | |- key_blind (match ?x with _ => _ end) => destruct x
      end
    | apply key_blind_bind
    | match goal with |- forall _, _ => intro end ].

Section KeyBlindHandlers.
Context {Net Internal PRNG : Type} {E : Engine Net Internal PRNG}.
Local Abbreviation W := (World Net Internal PRNG).
Local Abbreviation handler := (handler Net Internal PRNG).

Lemma handler_key_blind name (f : handler) nlhs args :
  (name, f) ∈ registered -> name <> "get_init_key" ->
  key_blind (f nlhs args).
Proof.
  unfold registered, handlers. simpl. intros Hin Hne.
  repeat (apply elem_of_cons in Hin as [Hin|Hin];
          [injection Hin as -> ->; try done;
           unfold_handlers; unfold_workers; unfold net_call, the_net;
           key_blind_auto |]).
  by apply elem_of_nil in Hin.
Qed.

End KeyBlindHandlers.

(** ** The dispatcher *)

Section Dispatch.
Context {Net Internal PRNG : Type} {E : Engine Net Internal PRNG}.
Local Abbreviation W := (World Net Internal PRNG).
Local Abbreviation handler := (handler Net Internal PRNG).

Lemma dispatch_found (hs : list (handler_registry Net Internal PRNG)) command
    (f : handler) nlhs args :
  NoDup (map fst (table_entries hs)) ->
  (command, f) ∈ table_entries hs ->
  dispatch hs command nlhs args = bind (f nlhs args) (fun r => ret (true, r)).
Proof.
  induction hs as [|h hs IH]; simpl; intros Hnd Hin.
  - by apply elem_of_nil in Hin.
  - destruct (func h) as [g|]; [|by apply elem_of_nil in Hin].
    simpl in Hnd. apply NoDup_cons in Hnd as [Hfresh Hnd].
    destruct (String.eqb_spec (cmd h) command) as [Heq|Hne].
    + apply elem_of_cons in Hin as [Hin|Hin]; [by injection Hin as _ ->|].
      exfalso. apply Hfresh. rewrite Heq.
      apply list_elem_of_fmap. by exists (command, f).
    + apply elem_of_cons in Hin as [Hin|Hin]; [by injection Hin as -> _|].
      by apply IH.
Qed.

Lemma dispatch_not_found (hs : list (handler_registry Net Internal PRNG))
    command nlhs args :
  terminated hs = true ->
  command ∉ map fst (table_entries hs) ->
  dispatch hs command nlhs args = ret (false, None).
Proof.
  induction hs as [|h hs IH]; simpl; intros Ht Hnin; [done|].
  destruct (func h) as [g|]; [|done]. simpl in Hnin.
  apply not_elem_of_cons in Hnin as [Hne Hnin].
  destruct (String.eqb_spec (cmd h) command) as [Heq|_]; [done|].
  by apply IH.
Qed.

Lemma command_names_NoDup : NoDup (command_names (E:=E)).
Proof.
  unfold command_names, registered, handlers. simpl.
  apply (bool_decide_unpack _). by vm_compute.
Qed.

Lemma NoDup_fst_functional {A B} (l : list (A * B)) x y1 y2 :
  NoDup (map fst l) -> (x, y1) ∈ l -> (x, y2) ∈ l -> y1 = y2.
Proof.
  induction l as [|[a b] l IH]; simpl; intros Hnd H1 H2.
  - by apply elem_of_nil in H1.
  - apply NoDup_cons in Hnd as [Hfresh Hnd].
    apply elem_of_cons in H1 as [H1|H1], H2 as [H2|H2].
    + congruence.
    + injection H1 as -> ->. exfalso. apply Hfresh.
      apply list_elem_of_fmap. by exists (a, y2).
    + injection H2 as -> ->. exfalso. apply Hfresh.
      apply list_elem_of_fmap. by exists (a, y1).
    + by apply IH.
Qed.

Lemma registered_functional command (f g : handler) :
  (command, f) ∈ registered -> (command, g) ∈ registered -> f = g.
Proof. apply NoDup_fst_functional, command_names_NoDup. Qed.

Lemma registered_lookup command :
  command ∈ command_names (E:=E) ->
  exists f : handler, (command, f) ∈ registered.
Proof.
  unfold command_names. intros Hin.
  apply list_elem_of_fmap in Hin as [[c f] [-> Hin]]. by exists f.
Qed.

Lemma mexFunction_command nlhs command args (w : W) :
  mexFunction nlhs (mxChar command :: args) w =
  bind (dispatch handlers command nlhs args)
       (fun r => bind (when_ (negb (fst r))
                             (mexErrMsgTxt "API command not recognized"))
                      (fun _ => ret (snd r))) w.
Proof.
  unfold mexFunction, nrhs. cbn [length]. rewrite Nat2Z.inj_succ.
  destruct (Z.eqb_spec (Z.succ (Z.of_nat (length args))) 0) as [Hz|_]; [lia|].
  reflexivity.
Qed.

(** A registered command is answered by its handler, called with the
    remaining arguments. *)
Lemma mexFunction_registered nlhs command args (f : handler) (w : W) :
  (command, f) ∈ registered ->
  mexFunction nlhs (mxChar command :: args) w = f nlhs args w.
Proof.
  intros Hin. rewrite mexFunction_command.
  rewrite (dispatch_found _ _ f); [|apply command_names_NoDup | exact Hin].
  unfold bind. by destruct (f nlhs args w).
Qed.


End Dispatch.

(** ** Deletions and the handle *)

Section Frames.
Context {Net Internal PRNG : Type} {E : Engine Net Internal PRNG}.
Local Abbreviation W := (World Net Internal PRNG).
Local Abbreviation handler := (handler Net Internal PRNG).

Lemma handler_no_delete name (f : handler) nlhs args :
  (name, f) ∈ registered -> name <> "get_gradients" ->
  steps (no_delete : W -> W -> Prop) (fun _ => True) (f nlhs args).
Proof.
  unfold registered, handlers. simpl. intros Hin Hne.
  repeat (apply elem_of_cons in Hin as [Hin|Hin];
          [injection Hin as -> ->; try done;
           unfold_handlers; unfold_workers;
           steps_auto ltac:(intros; unfold no_delete in *; simpl;
                            first [exact I | congruence]) |]).
  by apply elem_of_nil in Hin.
Qed.

Lemma handler_keeps_handle name (f : handler) nlhs args :
  (name, f) ∈ registered -> name <> "init" -> name <> "reset" ->
  steps (keeps_handle : W -> W -> Prop) (fun _ => True) (f nlhs args).
Proof.
  unfold registered, handlers. simpl. intros Hin Hne1 Hne2.
  repeat (apply elem_of_cons in Hin as [Hin|Hin];
          [injection Hin as -> ->; try done;
           unfold_handlers; unfold_workers;
           steps_auto ltac:(intros; unfold keeps_handle in *; simpl;
                            repeat match goal with
                                   | H : net_ _ = Some _ |- _ => rewrite H
                                   end; first [exact I | intuition congruence]) |]).
  by apply elem_of_nil in Hin.
Qed.

End Frames.

(** ** From the handlers to the entry point *)

Section EntryPoint.
Context {Net Internal PRNG : Type} {E : Engine Net Internal PRNG}.
Local Abbreviation W := (World Net Internal PRNG).
Local Abbreviation handler := (handler Net Internal PRNG).

(** Every call is of one of four kinds, decided by its arguments. *)
Lemma mexFunction_cases nlhs prhs :
  (prhs = [] /\
   forall w : W, mexFunction nlhs prhs w = MexErr "An API command is requires" w) \/
  (command_of prhs = None /\ prhs <> [] /\
   forall w : W, mexFunction nlhs prhs w = Undef) \/
  (exists c, command_of prhs = Some c /\ (c ∉ command_names (E:=E)) /\
     forall w : W,
       mexFunction nlhs prhs w = MexErr "API command not recognized" w) \/
  (exists c (f : handler), command_of prhs = Some c /\ (c, f) ∈ registered /\
     forall w : W, mexFunction nlhs prhs w = f nlhs (tail prhs) w).
Proof.
  destruct prhs as [|a args]; [by left|]. right.
  destruct a as [d pr|d pr|c|d cs|d fn es];
    try (left; split; [done|]; split; [done|]; intros w;
         unfold mexFunction, nrhs; cbn [length];
         rewrite Nat2Z.inj_succ;
         destruct (Z.eqb_spec (Z.succ (Z.of_nat (length args))) 0); [lia|done]).
  right.
  destruct (decide (c ∈ command_names (E:=E))) as [Hin|Hnin].
  - right. apply registered_lookup in Hin as [f Hin].
    exists c, f. repeat split; [done|]. intros w.
    by apply mexFunction_registered.
  - left. exists c. repeat split; [done|]. intros w.
    rewrite mexFunction_command. by rewrite dispatch_not_found.
Qed.

Lemma steps_mexFunction (T : W -> W -> Prop) (Q : string -> Prop) nlhs prhs :
  (forall w, T w w) ->
  (forall c (f : handler), (c, f) ∈ registered -> Q c ->
     steps T (fun _ => True) (f nlhs (tail prhs))) ->
  (forall c, command_of prhs = Some c -> Q c) ->
  steps T (fun _ => True) (mexFunction nlhs prhs).
Proof.
  intros Hrefl Hh HQ w.
  destruct (mexFunction_cases nlhs prhs)
    as [[_ He]|[(_ & _ & He)|[(c & _ & _ & He)|(c & f & Hc & Hin & He)]]];
    rewrite He; try done.
  apply Hh with c; auto.
Qed.

End EntryPoint.

(** ** The trace of the deletion loop *)

Section DeletionTrace.
Context {Net Internal PRNG : Type} {E : Engine Net Internal PRNG}.
Local Abbreviation W := (World Net Internal PRNG).

Lemma remove_temp_blobs_deleted outs (w : W) :
  match remove_temp_blobs outs w with
  | Ret _ w' => deleted w' = rev (non_null outs) ++ deleted w
  | MexErr _ _ => False
  | Fatal _ | Undef => True
  end.
Proof.
  unfold remove_temp_blobs. generalize 0%nat.
  revert w. induction outs as [|p outs IH]; intros w i; simpl; [done|].
  unfold bind at 1. unfold non_null.
  destruct (decide (p = NULL)) as [->|Hp].
  - rewrite filter_cons_False by (by intros []). simpl. apply IH.
  - rewrite filter_cons_True by done.
    rewrite (proj2 (N.eqb_neq p NULL) Hp). simpl.
    unfold delete_blob. destruct (_ !! _); [|done].
    match goal with |- match for_each _ _ _ ?w1 with _ => _ end =>
      specialize (IH w1 (S i)); destruct (for_each _ _ _ w1); try done end.
    rewrite IH. simpl. by rewrite <- app_assoc.
Qed.

End DeletionTrace.

(** ** C8: the handle and the key along every history *)

Section Handle.
Context {Net Internal PRNG : Type} {E : Engine Net Internal PRNG}.
Local Abbreviation W := (World Net Internal PRNG).
Local Abbreviation handler := (handler Net Internal PRNG).

(** An [init] that returns has set the handle and stored the key it
    generated; an [init] that raises an error has changed nothing. *)
Lemma init_spec nlhs args (w : W) :
  match init nlhs args w with
  | Ret _ w' => is_set (net_ w') = true /\ init_key w' = generated_key w
  | MexErr _ w' => w' = w
  | Fatal _ | Undef => True
  end.
Proof.
  unfold init, expect_nrhs, when_, generated_key.
  destruct (negb (nrhs args =? 2)); [done|].
  unfold bind at 1. simpl.
  unfold bind at 1. destruct (args !! 0%nat) as [a0|]; [|done]. simpl.
  unfold bind at 1. destruct (args !! 1%nat) as [a1|]; [|done]. simpl.
  unfold bind at 1. destruct (mxArrayToString a0) as [pf|]; [|done]. simpl.
  unfold bind at 1. simpl.
  destruct (Net_new pf (lib w)) as [[n l]|]; [|done].
  unfold net_reset, net_call, the_net, call_random, bind, set_lib, get_net_,
    set_net_, get_lib, defined, ret, set_init_key, get_init_key_, undefined.
  simpl.
  destruct (net_ w) as [old|]; simpl;
    (destruct (mxArrayToString a1) as [mf|]; [|done]); simpl;
    match goal with |- context [Net_CopyTrainedLayersFrom ?x ?y ?z] =>
      destruct (Net_CopyTrainedLayersFrom x y z) as [[n' l']|]; [|done]
    end;
    simpl; destruct (random (prng w)) as [r g']; simpl;
    by destruct (nlhs =? 1).
Qed.

Lemma reset_spec nlhs args (w : W) :
  exists w', reset nlhs args w = Ret None w' /\ net_ w' = None /\
             (init_key w' = -2 \/ net_ w = None /\ init_key w' = init_key w).
Proof.
  unfold reset, net_reset, bind, get_net_, set_net_, get_lib, set_lib,
    set_init_key, ret.
  destruct w as [[old|] k l g d]; simpl.
  - eexists. split; [reflexivity|]. simpl. by split; [|left].
  - eexists. split; [reflexivity|]. split; [done|]. by right.
Qed.

Lemma registered_init : ("init", init : handler) ∈ registered.
Proof.
  unfold registered, handlers. simpl.
  repeat (apply elem_of_cons; first [left; reflexivity | right]).
Qed.

Lemma registered_reset : ("reset", reset : handler) ∈ registered.
Proof.
  unfold registered, handlers. simpl.
  repeat (apply elem_of_cons; first [left; reflexivity | right]).
Qed.

Lemma handle_inv_step nlhs prhs (w w' : W) g :
  handle_inv w g ->
  survives (mexFunction nlhs prhs w) = Some w' ->
  handle_inv w' (track w (nlhs, prhs) (mexFunction nlhs prhs w) g).
Proof.
  intros [Hset Hkey] Hs. unfold track, is_command. simpl.
  destruct (mexFunction_cases nlhs prhs)
    as [[-> He]|[(Hc & _ & He)|[(c & Hc & Hnin & He)|(c & f & Hc & Hin & He)]]];
    rewrite He in Hs |- *; simpl in Hs; try done.
  - by injection Hs as <-.
  - injection Hs as <-. rewrite Hc.
    destruct (String.eqb_spec c "reset") as [->|_].
    { exfalso. apply Hnin. apply list_elem_of_fmap.
      exists ("reset", reset : handler). split; [done|apply registered_reset]. }
    destruct (String.eqb_spec c "init") as [->|_]; [|done].
    exfalso. apply Hnin. apply list_elem_of_fmap.
    exists ("init", init : handler). split; [done|apply registered_init].
  - rewrite Hc.
    destruct (String.eqb_spec c "reset") as [->|Hnr].
    { assert (f = reset) as ->
        by (apply (registered_functional "reset");
            [exact Hin | apply registered_reset]).
      destruct (reset_spec nlhs (tail prhs) w) as (w1 & Hr & Hnone & Hk).
      rewrite Hr in Hs. injection Hs as <-. split; simpl.
      - by rewrite Hnone.
      - destruct Hk as [Hk|[Hn Hk]]; [done|].
        rewrite Hk, Hkey. rewrite Hn in Hset. by destruct g. }
    destruct (String.eqb_spec c "init") as [->|Hni].
    { assert (f = init) as ->
        by (apply (registered_functional "init");
            [exact Hin | apply registered_init]).
      pose proof (init_spec nlhs (tail prhs) w) as Hi.
      destruct (init nlhs (tail prhs) w) as [r w1|msg w1|msg|];
        simpl in Hs; try done; injection Hs as <-.
      - destruct Hi as [Hi1 Hi2]. by split.
      - subst w1. by split. }
    pose proof (handler_keeps_handle c f nlhs (tail prhs) Hin Hni Hnr w) as Hk.
    destruct (f nlhs (tail prhs) w) as [r w1|msg w1|msg|];
      simpl in Hs; try done; injection Hs as <-.
    + destruct Hk as [Hk1 Hk2]. split; congruence.
    + destruct Hk as [[Hk1 Hk2] _]. split; congruence.
Qed.

Lemma handle_inv_run cs : forall (w w' : W) g g',
  handle_inv w g -> run cs w g = Some (w', g') -> handle_inv w' g'.
Proof.
  induction cs as [|[nlhs prhs] cs IH]; simpl; intros w w' g g' Hinv Hrun.
  - by injection Hrun as <- <-.
  - destruct (survives (mexFunction nlhs prhs w)) as [w1|] eqn:Hs; [|done].
    eapply IH; [|exact Hrun]. by apply handle_inv_step.
Qed.

(** C8.  After any sequence of calls from the initial state, with [g] the
    key generated by the last [init] that returned since the last
    [reset] (if any): the handle is set exactly when there is such an
    [init]; [is_initialized] answers 1 when the handle is set and 0
    otherwise; [get_init_key] answers -2 when the handle is not set and
    the key of that [init] otherwise. *)
Theorem C8_handle_and_key cs (w0 w : W) (g : option Z) :
  initial w0 ->
  run cs w0 None = Some (w, g) ->
  is_set (net_ w) = is_set g /\
  (forall nlhs args,
     is_initialized nlhs args w =
     Ret (Some (mxCreateDoubleScalar
                  (double_of_int (if is_set (net_ w) then 1 else 0)))) w) /\
  (net_ w = None ->
   forall nlhs args,
     get_init_key nlhs args w =
     Ret (Some (mxCreateDoubleScalar (double_of_int (-2)))) w) /\
  (forall k, g = Some k ->
   forall nlhs args,
     get_init_key nlhs args w =
     Ret (Some (mxCreateDoubleScalar (double_of_int k))) w).
Proof.
  intros [Hn0 Hk0] Hrun.
  assert (Hinv : handle_inv w g).
  { eapply handle_inv_run; [|exact Hrun]. split; [by rewrite Hn0 | done]. }
  destruct Hinv as [Hset Hkey]. split; [done|]. split; [|split].
  - intros nlhs args. unfold is_initialized, bind, get_net_, ret.
    by destruct (net_ w).
  - intros Hnone nlhs args. unfold get_init_key, bind, get_init_key_, ret.
    rewrite Hkey. rewrite Hnone in Hset. by destruct g.
  - intros k -> nlhs args. unfold get_init_key, bind, get_init_key_, ret.
    by rewrite Hkey.
Qed.

End Handle.

(** C8 on a concrete history: [init], a [forward], then a failing
    [init] with too few arguments leave the key of the first [init]. *)
Lemma C8_witness :
  get_init_key 1 [] Toy.w1 =
  Ret (Some (mxCreateDoubleScalar (double_of_int 1103527590))) Toy.w1.
Proof.
  assert (Hrun : run [(1, [mxChar "init"; mxChar "net.prototxt";
                           mxChar "net.caffemodel"]);
                      (0, [mxChar "is_initialized"]);
                      (1, [mxChar "init"])] Toy.w0 None
                 = Some (Toy.w1, Some 1103527590)) by (vm_compute; reflexivity).
  assert (Hinit : initial Toy.w0) by (split; reflexivity).
  exact (proj2 (proj2 (proj2 (C8_handle_and_key _ Toy.w0 Toy.w1 _ Hinit Hrun)))
           1103527590 eq_refl 1 []).
Defined.

(** ** C6: which results depend on bridge-local state *)

Section Key.
Context {Net Internal PRNG : Type} {E : Engine Net Internal PRNG}.
Local Abbreviation W := (World Net Internal PRNG).
Local Abbreviation handler := (handler Net Internal PRNG).

Lemma same_outcome_observe (o1 o2 : outcome W (option mxArray)) :
  same_outcome o1 o2 -> observe o1 = observe o2.
Proof.
  destruct o1, o2; simpl; try done; try (by intros [-> _]). by intros ->.
Qed.

(** C6, as amended.  Two worlds that differ at most in [init_key] give
    every call of a command other than [get_init_key] the same
    observable result, and the worlds after the call again differ at
    most in [init_key]. *)
Theorem C6_only_get_init_key_reads_key nlhs prhs (w1 w2 : W) :
  same_but_key w1 w2 ->
  is_command "get_init_key" prhs = false ->
  observe (mexFunction nlhs prhs w1) = observe (mexFunction nlhs prhs w2) /\
  same_outcome (mexFunction nlhs prhs w1) (mexFunction nlhs prhs w2).
Proof.
  intros Hw Hcmd.
  assert (Hsame : same_outcome (mexFunction nlhs prhs w1)
                               (mexFunction nlhs prhs w2)).
  { destruct (mexFunction_cases nlhs prhs)
      as [[-> He]|[(Hc & _ & He)|[(c & Hc & Hnin & He)|(c & f & Hc & Hin & He)]]];
      rewrite !He; try done; try (by split).
    apply (handler_key_blind c f); [done| |done].
    intros ->. unfold is_command in Hcmd. rewrite Hc in Hcmd.
    by rewrite String.eqb_refl in Hcmd. }
  split; [by apply same_outcome_observe | done].
Qed.

End Key.

(** C6 as stated fails: two worlds that hold the same network, the same
    library state and the same generator state, and differ only in the
    key an earlier [init] recorded, answer [get_init_key] differently. *)
Lemma C6_get_init_key_reads_recorded_state :
  let w2 := mkWorld (net_ Toy.w1) 7 (lib Toy.w1) (prng Toy.w1) (deleted Toy.w1) in
  same_but_key Toy.w1 w2 /\
  observe (mexFunction 1 [mxChar "get_init_key"] Toy.w1) <>
  observe (mexFunction 1 [mxChar "get_init_key"] w2).
Proof. split; [by repeat split | by vm_compute]. Qed.

Lemma C6_witness :
  let w2 := mkWorld (net_ Toy.w1) 7 (lib Toy.w1) (prng Toy.w1) (deleted Toy.w1) in
  observe (mexFunction 1 [mxChar "get_weights"] Toy.w1) =
  observe (mexFunction 1 [mxChar "get_weights"] w2).
Proof.
  intros w2.
  assert (Hw : same_but_key Toy.w1 w2) by (repeat split; reflexivity).
  exact (proj1 (C6_only_get_init_key_reads_key 1 [mxChar "get_weights"]
                  Toy.w1 w2 Hw eq_refl)).
Defined.

(** ** Moving elements: blobs and host arrays *)

Section Transfers.
Context {Net Internal PRNG : Type} {E : Engine Net Internal PRNG}.
Local Abbreviation W := (World Net Internal PRNG).

Lemma mwSize_of_int_small x : 0 <= x <= INT_MAX -> mwSize_of_int x = x.
Proof.
  intros H. unfold mwSize_of_int. apply Z.mod_small.
  unfold INT_MAX in H. lia.
Qed.

Lemma caffe_copy_all n src dst :
  Z.of_nat (length dst) = n -> n <= Z.of_nat (length src) ->
  caffe_copy n src dst = Some (take (Z.to_nat n) src).
Proof.
  intros Hd Hs. unfold caffe_copy.
  assert (0 <= n) by lia.
  destruct (Z.leb_spec 0 n); [|lia].
  destruct (Z.leb_spec n (Z.of_nat (length src))); [|lia].
  destruct (Z.leb_spec n (Z.of_nat (length dst))); [|lia].
  simpl. rewrite drop_ge by lia. by rewrite app_nil_r.
Qed.

Lemma blob_dims_wf b :
  blob_wf b -> blob_dims b = [width b; height b; channels b; num b].
Proof.
  intros (Hn & Hc & Hh & Hw & _). unfold blob_dims.
  by rewrite !mwSize_of_int_small.
Qed.

Lemma dims_product_blob b :
  dims_product [width b; height b; channels b; num b] = count b.
Proof. unfold dims_product, count. simpl. ring. Qed.

Lemma count_nonneg b : blob_wf b -> 0 <= count b.
Proof. intros (_ & _ & _ & _ & _ & H & _). lia. Qed.

Lemma deref_at (w : W) p b : blob_at (lib w) p b -> deref p w = Ret b w.
Proof.
  intros [Hp Hb]. unfold deref, bind, get_lib.
  rewrite (proj2 (N.eqb_neq p NULL) Hp). by rewrite Hb.
Qed.

Lemma Caffe_mode_eq (w : W) : Caffe_mode w = Ret (caffe_mode (lib w)) w.
Proof. reflexivity. Qed.

Lemma bind_Ret {A B} (m : M W A) (f : A -> M W B) w a w' :
  m w = Ret a w' -> bind m f w = f a w'.
Proof. intros H. unfold bind. by rewrite H. Qed.

(** Blob to host: the fresh array has the blob's dimensions in the
    order width, height, channels, num and holds the buffer as it is. *)
Lemma mx_blob_of_at (sel : Blob -> list float) (w : W) p b :
  blob_at (lib w) p b -> blob_wf b ->
  Z.of_nat (length (sel b)) = count b ->
  mx_blob_of sel p w = Ret (host_array sel b) w.
Proof.
  intros Hat Hwf Hlen. unfold mx_blob_of.
  rewrite (bind_Ret _ _ _ _ _ (deref_at w p b Hat)).
  rewrite (bind_Ret _ _ _ _ _ (Caffe_mode_eq w)).
  assert (Hcopy : copy_to_mx (count b) (sel b)
                    (mxCreateNumericArray (blob_dims b)) 0
                  = Some (host_array sel b)).
  { unfold copy_to_mx, mxCreateNumericArray. rewrite blob_dims_wf by done.
    rewrite dims_product_blob. simpl. rewrite drop_0.
    rewrite caffe_copy_all.
    - unfold host_array. do 2 f_equal. apply take_ge. lia.
    - rewrite length_replicate. pose proof (count_nonneg b Hwf). lia.
    - lia. }
  destruct (caffe_mode (lib w)); by rewrite Hcopy.
Qed.

(** Host to blob: the blob's buffer becomes the first [count] elements
    of the host buffer, in the same order. *)
Lemma copy_to_blob_data_at (w : W) p b src :
  blob_at (lib w) p b -> blob_wf b -> count b <= Z.of_nat (length src) ->
  copy_to_blob_data p src w =
  Ret tt (upd_lib w (with_blob (lib w) p
                       (set_data b (take (Z.to_nat (count b)) src)))).
Proof.
  intros Hat Hwf Hlen. unfold copy_to_blob_data.
  rewrite (bind_Ret _ _ _ _ _ (deref_at w p b Hat)).
  rewrite (bind_Ret _ _ _ _ _ (Caffe_mode_eq w)).
  destruct Hwf as (_ & _ & _ & _ & _ & Hd & _).
  destruct (caffe_mode (lib w)); by rewrite caffe_copy_all.
Qed.




End Transfers.

(** ** C3: forward and backward return the engine's buffers *)

Section ForwardBackward.
Context {Net Internal PRNG : Type} {E : Engine Net Internal PRNG}.
Local Abbreviation W := (World Net Internal PRNG).

Lemma cell_of_blobs_from (sel : Blob -> list float) (w : W) d :
  (forall b, blob_wf b -> Z.of_nat (length (sel b)) = count b) ->
  forall rest done,
    blobs_ok (lib w) rest ->
    for_fold (fun i p mx_out =>
                bind (mx_blob_of sel p)
                     (fun mx_blob => defined (mxSetCell mx_out i mx_blob)))
             (length done) rest
             (mxCell d (done ++ replicate (length rest) None)) w
    = Ret (mxCell d (done ++ cells_of sel (lib w) rest)) w.
Proof.
  intros Hsel rest. induction rest as [|p rest IH]; intros done Hok; simpl.
  - done.
  - apply Forall_cons in Hok as [(b & Hat & Hwf) Hok].
    unfold bind at 1. unfold bind at 1.
    rewrite (mx_blob_of_at sel w p b Hat Hwf (Hsel b Hwf)).
    unfold mxSetCell. rewrite bool_decide_eq_true_2
      by (rewrite length_app; simpl; lia).
    simpl.
    replace (<[length done:=Some (host_array sel b)]>
               (done ++ None :: replicate (length rest) None))
      with ((done ++ [Some (host_array sel b)])
              ++ replicate (length rest) None).
    + replace (S (length done))
        with (length (done ++ [Some (host_array sel b)]))
        by (rewrite length_app; simpl; lia).
      rewrite IH by done. destruct Hat as [_ Hb]. rewrite Hb. simpl.
      by rewrite <- app_assoc.
    + rewrite <- app_assoc. simpl.
      rewrite insert_app_r_alt by lia. by rewrite Nat.sub_diag.
Qed.

Lemma cell_of_blobs_ok (sel : Blob -> list float) (w : W) ps :
  (forall b, blob_wf b -> Z.of_nat (length (sel b)) = count b) ->
  blobs_ok (lib w) ps ->
  cell_of_blobs sel ps w
  = Ret (mxCell [Z.of_nat (length ps); 1] (cells_of sel (lib w) ps)) w.
Proof.
  intros Hsel Hok. unfold cell_of_blobs, mxCreateCellMatrix.
  rewrite Z.mul_1_r, Nat2Z.id.
  exact (cell_of_blobs_from sel w _ Hsel ps [] Hok).
Qed.

Lemma data_length b : blob_wf b -> Z.of_nat (length (data b)) = count b.
Proof. by intros (_ & _ & _ & _ & _ & H & _). Qed.

Lemma diff_length b : blob_wf b -> Z.of_nat (length (diff b)) = count b.
Proof. by intros (_ & _ & _ & _ & _ & _ & H). Qed.

Lemma only_lib_fill_input_blobs bottom :
  steps only_lib (fun _ => True) (fill_input_blobs bottom).
Proof.
  unfold fill_input_blobs. unfold_workers.
  steps_auto ltac:(intros; unfold only_lib, upd_lib in *; simpl;
                   first [exact I
                         | repeat match goal with
                                  | w : World _ _ _ |- _ => destruct w
                                  end; simpl in *; congruence]).
Qed.

Lemma only_lib_fill_output_diffs top_diff :
  steps only_lib (fun _ => True) (fill_output_diffs top_diff).
Proof.
  unfold fill_output_diffs. unfold_workers.
  steps_auto ltac:(intros; unfold only_lib, upd_lib in *; simpl;
                   first [exact I
                         | repeat match goal with
                                  | w : World _ _ _ |- _ => destruct w
                                  end; simpl in *; congruence]).
Qed.

(** What [net_call] does when the library call returns. *)
Lemma net_call_Some {A}
    (f : Net -> Lib Internal -> option (A * Net * Lib Internal))
    (w : W) n a n' l' :
  net_ w = Some n -> f n (lib w) = Some (a, n', l') ->
  net_call f w = Ret a (mkWorld (Some n') (init_key w) l' (prng w) (deleted w)).
Proof.
  intros Hn Hf.
  unfold net_call, the_net, bind, get_net_, get_lib, defined, ret.
  rewrite Hn. by rewrite Hf.
Qed.

(** C3.  On an initialized net whose input stage completes, if the
    engine's [ForwardPrefilled] returns the output blobs [outs], then
    [forward] returns the cell array whose cell [i] is the 4-D single
    array of dimensions [width, height, channels, num] of output blob
    [i] holding exactly that blob's data as the engine left it; and if
    [Backward] returns, [backward] returns for every input blob [i] the
    array holding exactly its diff. *)
Theorem C3_results_are_engine_buffers
    (w w1 : W) (n n2 : Net) (l2 : Lib Internal) (arg : mxArray) :
  net_ w = Some n ->
  (forall outs,
     fill_input_blobs arg w = Ret tt w1 ->
     Net_ForwardPrefilled n (lib w1) = Some (outs, n2, l2) ->
     blobs_ok l2 outs ->
     do_forward arg w =
     Ret (mxCell [Z.of_nat (length outs); 1] (cells_of data l2 outs))
         (mkWorld (Some n2) (init_key w) l2 (prng w) (deleted w))) /\
  (fill_output_diffs arg w = Ret tt w1 ->
   Net_Backward n (lib w1) = Some (n2, l2) ->
   blobs_ok l2 (Net_input_blobs n2) ->
   do_backward arg w =
   Ret (mxCell [Z.of_nat (length (Net_input_blobs n2)); 1]
               (cells_of diff l2 (Net_input_blobs n2)))
       (mkWorld (Some n2) (init_key w) l2 (prng w) (deleted w))).
Proof.
  intros Hn. split.
  - intros outs Hfill Hfwd Hok.
    pose proof (only_lib_fill_input_blobs arg w) as Hw1.
    rewrite Hfill in Hw1. unfold only_lib in Hw1.
    unfold do_forward. rewrite (bind_Ret _ _ _ _ _ Hfill).
    rewrite (bind_Ret _ _ _ _ _
               (net_call_Some Net_ForwardPrefilled w1 n outs n2 l2
                  ltac:(by rewrite Hw1) Hfwd)).
    rewrite cell_of_blobs_ok; [|apply data_length|done].
    simpl. by rewrite Hw1.
  - intros Hfill Hbwd Hok.
    pose proof (only_lib_fill_output_diffs arg w) as Hw1.
    rewrite Hfill in Hw1. unfold only_lib in Hw1.
    unfold do_backward. rewrite (bind_Ret _ _ _ _ _ Hfill).
    erewrite bind_Ret; cycle 1.
    { apply (net_call_Some _ w1 n tt n2 l2); [by rewrite Hw1|].
      by rewrite Hbwd. }
    unfold the_net. unfold bind at 1 2. simpl.
    rewrite cell_of_blobs_ok; [|apply diff_length|done].
    simpl. by rewrite Hw1.
Qed.

End ForwardBackward.

(** The blobs of the toy engine are well formed. *)
Lemma toy_blob3_wf d g :
  length d = 6%nat -> length g = 6%nat -> blob_wf (Toy.blob3 d g).
Proof.
  intros Hd Hg. unfold blob_wf, count, INT_MAX. simpl. rewrite Hd, Hg. lia.
Qed.

(** C3 on the toy network, whose forward pass hands the input data to
    the output blob: [forward] returns the image it was given. *)
Lemma C3_witness :
  do_forward Toy.bottom Toy.w1 =
  Ret (mxCell [1; 1] [Some Toy.image]) Toy.w1_forwarded.
Proof.
  assert (Hfill : fill_input_blobs Toy.bottom Toy.w1 = Ret tt Toy.w1_filled)
    by (vm_compute; reflexivity).
  assert (Hfwd : Net_ForwardPrefilled Toy.std_net (lib Toy.w1_filled)
                 = Some ([2%N], Toy.std_net, Toy.lib_forwarded))
    by (vm_compute; reflexivity).
  assert (Hok : blobs_ok Toy.lib_forwarded [2%N]).
  { apply Forall_cons. split; [|by apply Forall_nil].
    exists (Toy.blob3 (map Toy.fl [1; 2; 3; 4; 5; 6]) (Toy.zeros 6)).
    split; [split; [discriminate | vm_compute; reflexivity]|].
    apply toy_blob3_wf; reflexivity. }
  exact (proj1 (C3_results_are_engine_buffers Toy.w1 Toy.w1_filled
                  Toy.std_net Toy.std_net Toy.lib_forwarded Toy.bottom
                  eq_refl) [2%N] Hfill Hfwd Hok).
Defined.



(** ** Reading the channel ids *)

Section ChannelIds.
Context {Net Internal PRNG : Type} {E : Engine Net Internal PRNG}.
Local Abbreviation W := (World Net Internal PRNG).

Lemma read_channel_at (w : W) (pr : list double) i d acc :
  pr !! i = Some d ->
  read_channel (Some pr) i acc w
  = if strictly_negative d
    then MexErr "The channel ids must be greater than zero!" w
    else Ret (acc ++ [convert_channel d]) w.
Proof.
  intros Hd. unfold read_channel, bind, strictly_negative.
  change (Some pr ≫= (.!! i)) with (pr !! i). rewrite Hd.
  unfold defined, ret, when_, mexErrMsgTxt.
  by destruct (double_ltb d (double_of_int 0)).
Qed.

Lemma read_loop (w : W) (pr : list double) :
  forall rest j seen acc,
    take (length seen + length rest) pr = seen ++ rest ->
    for_fold (fun (_ : nat) i selected_channels_i =>
                read_channel (Some pr) i selected_channels_i)
             j (seq (length seen) (length rest)) acc w
    = if existsb strictly_negative rest
      then MexErr "The channel ids must be greater than zero!" w
      else Ret (acc ++ map convert_channel rest) w.
Proof.
  induction rest as [|d rest IH]; intros j seen acc Htake.
  - simpl. by rewrite app_nil_r.
  - assert (Hd : pr !! length seen = Some d).
    { apply (f_equal (fun l => l !! length seen)) in Htake.
      rewrite list_lookup_middle in Htake by reflexivity.
      rewrite lookup_take_lt in Htake by (simpl; lia). exact Htake. }
    cbn [length seq for_fold existsb map]. unfold bind at 1.
    rewrite (read_channel_at w pr _ d acc Hd).
    destruct (strictly_negative d); [reflexivity|]. cbn [orb].
    specialize (IH (S j) (seen ++ [d]) (acc ++ [convert_channel d])).
    rewrite length_app in IH. cbn [length] in IH.
    replace (length seen + 1)%nat with (S (length seen)) in IH by lia.
    rewrite IH.
    + destruct (existsb strictly_negative rest); [reflexivity|].
      by rewrite <- app_assoc.
    + rewrite <- app_assoc. cbn [app]. rewrite <- Htake. f_equal.
      cbn [length]. lia.
Qed.

(** The ids are converted in order; the first strictly negative one
    raises the error. *)
Lemma read_channel_ids_spec channel_ids (w : W) :
  is_id_array channel_ids ->
  read_channel_ids channel_ids w
  = if existsb strictly_negative (supplied_ids channel_ids)
    then MexErr "The channel ids must be greater than zero!" w
    else Ret (map convert_channel (supplied_ids channel_ids)) w.
Proof.
  destruct channel_ids as [d pr|d pr|c|d cs|d fn es]; try done.
  destruct d as [|d0 [|d1 d]]; try done. cbn [is_id_array supplied_ids].
  intros Hlen. unfold read_channel_ids.
  cbn [mxGetDimensions mxGetPr_double].
  unfold bind at 1. cbn [lookup list_lookup defined ret].
  unfold bind at 1. cbn [lookup list_lookup defined ret].
  set (n := Z.to_nat ((d0 * d1) mod 2 ^ 64)).
  pose proof (read_loop w pr (take n pr) 0%nat [] []) as H.
  assert (Hn : length (take n pr) = n) by (rewrite length_take; lia).
  cbn [length app] in H. rewrite Hn in H. apply H.
  by rewrite Nat.add_0_l.
Qed.

End ChannelIds.

(** ** The gradient loop *)

Section GradientLoop.
Context {Net Internal PRNG : Type} {E : Engine Net Internal PRNG}.
Local Abbreviation W := (World Net Internal PRNG).

Lemma wrap_int_small z : INT_MIN <= z <= INT_MAX -> wrap_int z = z.
Proof.
  unfold INT_MIN, INT_MAX, wrap_int. intros H.
  rewrite Z.mod_small by lia. lia.
Qed.

Lemma int_mul_small a b : 0 <= a * b <= INT_MAX -> int_mul a b = a * b.
Proof.
  intros H. unfold int_mul. apply wrap_int_small. unfold INT_MIN. lia.
Qed.

Lemma final_left_zero B bs :
  0 <= B <= INT_MAX ->
  forall left, 0 <= left <= INT_MAX ->
  left <= Z.of_nat (length bs) * B -> final_left B bs left = 0.
Proof.
  intros HB. induction bs as [|b bs IH]; intros left Hl Hle.
  - simpl in *. lia.
  - cbn [final_left]. unfold int_sub.
    rewrite wrap_int_small by (unfold INT_MIN, INT_MAX in *; lia).
    apply IH; [lia|]. cbn [length] in Hle. lia.
Qed.

(** The shape shared by the per-batch blobs and the sizes at hand:
    [k] channels asked for, batches of [B] images, [P0] elements per
    channel. *)
Variables (k B W0 H0 C0 : Z).
Let P0 : Z := W0 * H0 * C0.
Hypothesis Hk : 1 <= k <= INT_MAX.
Hypothesis HWH : 0 <= W0 * H0 <= INT_MAX.
Hypothesis HP : 0 <= P0.
Hypothesis HPk : P0 * k <= INT_MAX.

Definition per_batch (b : Blob) : Prop :=
  blob_wf b /\ num b = B /\ channels b = C0 /\ height b = H0 /\ width b = W0.

(** The loop variables once the channels before [left] are copied:
    [pre] holds them, zeros follow. *)
Definition copied_state (pre : list float) (left : Z) : grad_state :=
  mkGrad (Some (mxSingle [W0; H0; C0; k]
                  (pre ++ replicate (Z.to_nat (P0 * left)) float_zero)))
         (P0 * (k - left)) (P0 * (k - left)) left.

Lemma P0_small : 0 <= P0 <= INT_MAX.
Proof. split; [done|]. nia. Qed.

Lemma num_to_copy_per_batch b left :
  per_batch b -> 0 <= left <= k ->
  num_to_copy b left = P0 * Z.min B left.
Proof.
  intros (Hwf & Hn & Hc & Hh & Hw) Hl. unfold num_to_copy, count.
  rewrite Hn, Hc, Hh, Hw.
  rewrite (int_mul_small W0 H0) by done.
  rewrite (int_mul_small (W0 * H0) C0) by apply P0_small.
  rewrite (int_mul_small (W0 * H0 * C0) left) by (fold P0; nia).
  fold P0. destruct Hwf as ([HB _] & _). rewrite Hn in HB.
  destruct (Z.min_spec B left) as [[? ->]|[? ->]]; nia.
Qed.

Lemma next_left left :
  0 <= B <= INT_MAX -> 0 <= left <= k ->
  Z.max 0 (int_sub left B) = left - Z.min B left.
Proof.
  intros HB Hl. unfold int_sub. rewrite wrap_int_small; [lia|].
  unfold INT_MIN, INT_MAX in *. lia.
Qed.

Lemma gradients_step_copied (w : W) i p b st pre left :
  blob_at (lib w) p b -> per_batch b -> 0 <= left <= k ->
  Z.of_nat (length pre) = P0 * (k - left) ->
  match i with
  | O => mkGrad (Some (mxCreateNumericArray
                         [mwSize_of_int (width b); mwSize_of_int (height b);
                          mwSize_of_int (channels b);
                          mwSize_of_int (wrap_int k)]))
                0 (data_copied st) (channels_left st)
  | _ => st
  end = copied_state pre left ->
  gradients_step k B i p st w
  = Ret (copied_state (pre ++ take (Z.to_nat (num_to_copy b left)) (diff b))
                      (Z.max 0 (int_sub left B))) w.
Proof.
  intros Hat Hpb Hl Hpre Hst. unfold gradients_step.
  rewrite (bind_Ret _ _ _ _ _ (deref_at w p b Hat)).
  cbv zeta. rewrite Hst.
  rewrite (bind_Ret _ _ _ _ _ (Caffe_mode_eq w)).
  pose proof Hpb as (Hwf & Hn & Hc & Hh & Hw).
  assert (HB : 0 <= B <= INT_MAX) by (destruct Hwf as (HB & _); by rewrite <- Hn).
  pose proof (num_to_copy_per_batch b left Hpb Hl) as Hnum.
  pose proof (next_left left HB Hl) as Hnext.
  pose proof (diff_length b Hwf) as Hdiff.
  assert (Hcount : count b = B * P0).
  { unfold count, P0. rewrite Hn, Hc, Hh, Hw. ring. }
  set (n := num_to_copy b left) in *.
  assert (Hn0 : 0 <= n <= P0 * left).
  { rewrite Hnum. destruct (Z.min_spec B left) as [[? ->]|[? ->]]; nia. }
  assert (Hnd : n <= count b).
  { rewrite Hnum, Hcount. destruct (Z.min_spec B left) as [[? ->]|[? ->]]; nia. }
  assert (Hcopy :
    copy_to_mx n (diff b)
      (mxSingle [W0; H0; C0; k]
         (pre ++ replicate (Z.to_nat (P0 * left)) float_zero))
      (P0 * (k - left))
    = Some (mxSingle [W0; H0; C0; k]
              ((pre ++ take (Z.to_nat n) (diff b))
               ++ replicate (Z.to_nat (P0 * Z.max 0 (int_sub left B)))
                            float_zero))).
  { unfold copy_to_mx.
    destruct (Z.leb_spec 0 (P0 * (k - left))); [|nia].
    rewrite <- Hpre, Nat2Z.id.
    rewrite drop_app_length, take_app_length.
    unfold caffe_copy.
    destruct (Z.leb_spec 0 n); [|lia].
    destruct (Z.leb_spec n (Z.of_nat (length (diff b)))); [|lia].
    destruct (Z.leb_spec n (Z.of_nat
                (length (replicate (Z.to_nat (P0 * left)) float_zero))));
      [|rewrite length_replicate in *; lia].
    cbn [andb]. rewrite drop_replicate. rewrite <- app_assoc.
    rewrite <- Z2Nat.inj_sub by lia.
    replace (P0 * left - n) with (P0 * Z.max 0 (int_sub left B))
      by (rewrite Hnext, Hnum; ring).
    reflexivity. }
  assert (Hres :
    Ret (mkGrad (Some (mxSingle [W0; H0; C0; k]
                   ((pre ++ take (Z.to_nat n) (diff b))
                    ++ replicate (Z.to_nat (P0 * Z.max 0 (int_sub left B)))
                                 float_zero)))
                (P0 * (k - left) + n) (int_add (P0 * (k - left)) n)
                (Z.max 0 (int_sub left B))) w
    = Ret (copied_state (pre ++ take (Z.to_nat n) (diff b))
                        (Z.max 0 (int_sub left B))) w).
  { unfold copied_state. f_equal. f_equal.
    - rewrite Hnext, Hnum. ring.
    - unfold int_add. rewrite wrap_int_small.
      + rewrite Hnext, Hnum. ring.
      + rewrite Hnum.
        assert (Hm : 0 <= Z.min B left <= left) by lia.
        replace (P0 * (k - left) + P0 * Z.min B left)
          with (P0 * (k - left + Z.min B left)) by ring.
        assert (P0 * (k - left + Z.min B left) <= P0 * k)
          by (apply Z.mul_le_mono_nonneg_l; lia).
        assert (0 <= P0 * (k - left + Z.min B left))
          by (apply Z.mul_nonneg_nonneg; lia).
        unfold INT_MIN. lia. }
  rewrite <- Hres. unfold copied_state.
  cbn [mx_out data_ptr data_copied channels_left defined]. fold n.
  unfold bind at 1. unfold ret at 1. cbv beta iota. unfold bind at 1.
  destruct (caffe_mode (lib w)); rewrite Hcopy; reflexivity.
Qed.

Lemma per_batch_B b : per_batch b -> 0 <= B <= INT_MAX.
Proof. intros ((HB & _) & Hn & _). by rewrite <- Hn. Qed.

Lemma chunk_length b left :
  per_batch b -> 0 <= left <= k ->
  Z.of_nat (length (take (Z.to_nat (num_to_copy b left)) (diff b)))
  = P0 * Z.min B left.
Proof.
  intros Hpb Hl. pose proof (num_to_copy_per_batch b left Hpb Hl) as Hnum.
  pose proof (per_batch_B b Hpb) as HB.
  destruct Hpb as (Hwf & Hn & Hc & Hh & Hw).
  pose proof (diff_length b Hwf) as Hdiff.
  assert (Hcount : count b = B * P0).
  { unfold count, P0. rewrite Hn, Hc, Hh, Hw. ring. }
  rewrite length_take, Hnum.
  assert (0 <= P0 * Z.min B left) by (apply Z.mul_nonneg_nonneg; lia).
  assert (P0 * Z.min B left <= B * P0)
    by (rewrite (Z.mul_comm B P0); apply Z.mul_le_mono_nonneg_l; lia).
  lia.
Qed.

Lemma gradients_loop (w : W) :
  forall ps bs i pre left,
    i <> 0%nat ->
    Forall2 (blob_at (lib w)) ps bs -> Forall per_batch bs ->
    0 <= left <= k -> Z.of_nat (length pre) = P0 * (k - left) ->
    for_fold (gradients_step k B) i ps (copied_state pre left) w
    = Ret (copied_state (pre ++ gradient_chunks B bs left)
                        (final_left B bs left)) w.
Proof.
  intros ps bs i pre left Hi Hat. revert i pre left Hi.
  induction Hat as [|p b ps bs Hp Hat IH]; intros i pre left Hi Hpb Hl Hpre.
  - cbn [for_fold gradient_chunks final_left]. by rewrite app_nil_r.
  - apply Forall_cons in Hpb as [Hb Hpb].
    cbn [for_fold gradient_chunks final_left].
    rewrite (bind_Ret _ _ _ _ _
               (gradients_step_copied w i p b _ pre left Hp Hb Hl Hpre
                  ltac:(by destruct i))).
    pose proof (per_batch_B b Hb) as HB.
    pose proof (next_left left HB Hl) as Hnext.
    rewrite IH.
    + by rewrite <- app_assoc.
    + done.
    + done.
    + lia.
    + rewrite length_app, Nat2Z.inj_add, Hpre, chunk_length by done.
      rewrite Hnext. ring.
Qed.

Lemma gradients_loop_first (w : W) p b ps bs :
  Forall2 (blob_at (lib w)) (p :: ps) (b :: bs) ->
  Forall per_batch (b :: bs) ->
  for_fold (gradients_step k B) 0%nat (p :: ps)
           (mkGrad None 0 0 (wrap_int k)) w
  = Ret (copied_state (gradient_chunks B (b :: bs) k)
                      (final_left B (b :: bs) k)) w.
Proof.
  intros Hat Hpb. apply Forall2_cons in Hat as [Hp Hat].
  pose proof Hpb as [Hb Hpb']%Forall_cons.
  cbn [for_fold gradient_chunks final_left].
  pose proof (per_batch_B b Hb) as HB.
  assert (Hl : 0 <= k <= k) by lia.
  pose proof (next_left k HB Hl) as Hnext.
  assert (Hst :
    mkGrad (Some (mxCreateNumericArray
                    [mwSize_of_int (width b); mwSize_of_int (height b);
                     mwSize_of_int (channels b); mwSize_of_int (wrap_int k)]))
           0 (data_copied (mkGrad None 0 0 (wrap_int k)))
           (channels_left (mkGrad None 0 0 (wrap_int k)))
    = copied_state [] k).
  { cbn [data_copied channels_left]. unfold copied_state.
    destruct Hb as (Hwf & Hn & Hc & Hh & Hw).
    destruct Hwf as (_ & HC & HH & HW & _).
    rewrite !mwSize_of_int_small, Hc, Hh, Hw by (try done; try congruence).
    rewrite wrap_int_small by (unfold INT_MIN; lia).
    rewrite (mwSize_of_int_small k) by lia.
    unfold mxCreateNumericArray.
    replace (dims_product [W0; H0; C0; k]) with (P0 * k)
      by (unfold dims_product, P0; simpl; ring).
    rewrite Z.sub_diag, Z.mul_0_r. reflexivity. }
  rewrite (bind_Ret _ _ _ _ _
             (gradients_step_copied w 0%nat p b _ [] k Hp Hb Hl
                ltac:(simpl; lia) Hst)).
  rewrite (gradients_loop w ps bs); [done|done|done|done|lia|].
  rewrite app_nil_l, chunk_length by done. rewrite Hnext. ring.
Qed.

Lemma gradient_chunks_length bs :
  Forall per_batch bs ->
  forall left, 0 <= left <= k ->
  Z.of_nat (length (gradient_chunks B bs left))
  = P0 * (left - final_left B bs left).
Proof.
  induction 1 as [|b bs Hb Hpb IH]; intros left Hl.
  - cbn [gradient_chunks final_left length]. lia.
  - cbn [gradient_chunks final_left].
    pose proof (per_batch_B b Hb) as HB.
    pose proof (next_left left HB Hl) as Hnext.
    rewrite length_app, Nat2Z.inj_add, chunk_length, IH by (try done; lia).
    rewrite Hnext. ring.
Qed.

(** The copy loop and its two checks, when the blobs cover all [k]
    channels. *)
Lemma copy_gradients_spec (w : W) p b ps bs :
  Forall2 (blob_at (lib w)) (p :: ps) (b :: bs) ->
  Forall per_batch (b :: bs) ->
  k <= Z.of_nat (length (b :: bs)) * B ->
  copy_gradients k B (p :: ps) w
  = Ret (copied_state (gradient_chunks B (b :: bs) k) 0) w.
Proof.
  intros Hat Hpb Hcover. unfold copy_gradients.
  rewrite (bind_Ret _ _ _ _ _ (gradients_loop_first w p b ps bs Hat Hpb)).
  pose proof Hpb as [Hb _]%Forall_cons.
  pose proof Hat as [Hp _]%Forall2_cons.
  rewrite (final_left_zero B (b :: bs) (per_batch_B b Hb) k) by (try done; lia).
  cbn [lookup list_lookup defined]. unfold bind at 1. unfold ret at 1.
  rewrite (bind_Ret _ _ _ _ _ (deref_at w p b Hp)).
  assert (Hexp : expected_elements b k = P0 * k).
  { unfold expected_elements. destruct Hb as (Hwf & Hn & Hc & Hh & Hw).
    rewrite Hc, Hh, Hw. rewrite (int_mul_small W0 H0) by done.
    rewrite (int_mul_small (W0 * H0) C0) by apply P0_small.
    fold P0. rewrite mwSize_of_int_small by apply P0_small.
    apply Z.mod_small. unfold INT_MAX in *. nia. }
  rewrite Hexp. unfold copied_state. cbn [data_copied data_ptr].
  rewrite Z.sub_0_r.
  rewrite mwSize_of_int_small by nia.
  rewrite Z.eqb_refl. unfold CHECK. unfold bind, ret. reflexivity.
Qed.

End GradientLoop.

(** ** C5: the array [get_gradients] returns *)

Section Gradients.
Context {Net Internal PRNG : Type} {E : Engine Net Internal PRNG}.
Local Abbreviation W := (World Net Internal PRNG).

Lemma remove_temp_blobs_spec ps : forall (w : W),
  NoDup ps ->
  Forall (fun p => p <> NULL /\ is_Some (blob_heap (lib w) !! p)) ps ->
  remove_temp_blobs ps w
  = Ret tt (mkWorld (net_ w) (init_key w)
              (mkLib (caffe_mode (lib w)) (caffe_phase (lib w))
                     (delete_all ps (blob_heap (lib w))) (internal (lib w)))
              (prng w) (rev ps ++ deleted w)).
Proof.
  unfold remove_temp_blobs. generalize 0%nat.
  induction ps as [|p ps IH]; intros i w Hnd Hok.
  - cbn [for_each delete_all foldl rev app]. by destruct w as [? ? [] ? ?].
  - apply NoDup_cons in Hnd as [Hfresh Hnd].
    apply Forall_cons in Hok as [[Hp [b Hb]] Hok].
    cbn [for_each]. unfold bind at 1.
    rewrite (proj2 (N.eqb_neq p NULL) Hp). cbn [negb when_].
    unfold delete_blob. rewrite Hb.
    rewrite IH; [| done |].
    + cbn [net_ init_key lib prng deleted caffe_mode caffe_phase blob_heap
           internal delete_all foldl rev].
      by rewrite <- app_assoc.
    + cbn [lib blob_heap]. apply Forall_forall. intros q Hq.
      destruct (proj1 (Forall_forall _ _) Hok q Hq) as [Hq0 Hsome].
      split; [done|].
      rewrite lookup_delete_ne; [done|]. intros ->. by apply Hfresh.
Qed.

Lemma only_lib_copy_checked_inputs bottom :
  steps only_lib (fun _ => True) (copy_checked_inputs bottom).
Proof.
  unfold copy_checked_inputs. unfold_workers.
  steps_auto ltac:(intros; unfold only_lib, upd_lib in *; simpl;
                   first [exact I
                         | repeat match goal with
                                  | w : World _ _ _ |- _ => destruct w
                                  end; simpl in *; congruence]).
Qed.

(** C5.  On an initialized net, with a layer name the engine accepts
    and a list of [k >= 1] channel ids none of which is negative: if
    [CalcGradientsPrefilled] returns one blob per batch, each with the
    batch size as [num] and with the width, height and channels of the
    first, and enough of them for the [k] channels, then
    [get_gradients] returns one 4-D single array of dimensions
    [width, height, channels, k] that holds, appended in batch order,
    the first [min(count, width*height*channels*channels_left)]
    elements of each blob's diff, [width*height*channels*k] elements in
    all. *)
Theorem C5_gradient_array
    (w w1 : W) (n n2 : Net) (l2 : Lib Internal)
    (bottom layername channel_ids : mxArray) (name : string)
    (top : ptr) (top_blob b0 : Blob) (p0 : ptr) (ps : list ptr)
    (bs : list Blob) :
  let ids := supplied_ids channel_ids in
  let k := Z.of_nat (length ids) in
  let B := num top_blob in
  net_ w = Some n ->
  is_id_array channel_ids ->
  existsb strictly_negative ids = false ->
  1 <= k <= INT_MAX ->
  copy_checked_inputs bottom w = Ret tt w1 ->
  mxArrayToString layername = Some name ->
  Net_top_vecs n !! 0%nat ≫= (.!! 0%nat) = Some top ->
  blob_at (lib w1) top top_blob ->
  Net_CalcGradientsPrefilled name (map convert_channel ids) n (lib w1)
    = Some (0, p0 :: ps, n2, l2) ->
  Forall2 (blob_at l2) (p0 :: ps) (b0 :: bs) ->
  NoDup (p0 :: ps) ->
  Forall (fun b => blob_wf b /\ num b = B /\ channels b = channels b0 /\
                   height b = height b0 /\ width b = width b0) (b0 :: bs) ->
  k <= Z.of_nat (length (b0 :: bs)) * B ->
  width b0 * height b0 <= INT_MAX ->
  width b0 * height b0 * channels b0 * k <= INT_MAX ->
  do_get_gradients bottom layername channel_ids w
  = Ret (mxSingle [width b0; height b0; channels b0; k]
                  (gradient_chunks B (b0 :: bs) k))
        (mkWorld (Some n2) (init_key w)
           (mkLib (caffe_mode l2) (caffe_phase l2)
                  (delete_all (p0 :: ps) (blob_heap l2)) (internal l2))
           (prng w) (rev (p0 :: ps) ++ deleted w)) /\
  Z.of_nat (length (gradient_chunks B (b0 :: bs) k))
  = width b0 * height b0 * channels b0 * k.
Proof.
  intros ids k B Hn Hids Hneg Hk Hin Hname Htop Htopb Hcalc Hat Hnd Hpb
         Hcover HWH HPk.
  pose proof (proj1 (Forall_cons _ _ _) Hpb) as [Hpb0 _].
  pose proof Hpb0 as (Hwf0 & HnB & _).
  assert (HWH0 : 0 <= width b0 * height b0 <= INT_MAX).
  { destruct Hwf0 as (_ & _ & HH & HW & _). split; [nia|done]. }
  assert (HP : 0 <= width b0 * height b0 * channels b0).
  { destruct Hwf0 as (_ & HC & _). nia. }
  assert (HB : 0 <= B <= INT_MAX).
  { destruct Hwf0 as (HN & _). by rewrite <- HnB. }
  pose proof (only_lib_copy_checked_inputs bottom w) as Hw1.
  rewrite Hin in Hw1. unfold only_lib in Hw1.
  assert (Hn1 : net_ w1 = Some n) by (by rewrite Hw1).
  set (w2 := mkWorld (Some n2) (init_key w1) l2 (prng w1) (deleted w1)).
  pose proof (copy_gradients_spec k B (width b0) (height b0) (channels b0)
                Hk HWH0 HP HPk w2 p0 b0 ps bs Hat Hpb Hcover) as Hcopy.
  pose proof (gradient_chunks_length k B (width b0) (height b0) (channels b0)
                Hk HWH0 HP HPk (b0 :: bs) Hpb k ltac:(lia)) as Hlen.
  rewrite (final_left_zero B (b0 :: bs) HB k) in Hlen by (try done; lia).
  split; [|rewrite Hlen; ring].
  unfold do_get_gradients.
  unfold bind at 1. unfold get_net_ at 1. rewrite Hn. cbn [is_set negb when_].
  unfold bind at 1. unfold ret at 1.
  unfold bind at 1. rewrite read_channel_ids_spec by done.
  fold ids. rewrite Hneg. rewrite length_map. fold k.
  destruct (Z.ltb_spec k 1); [lia|]. cbn [when_].
  unfold bind at 1. unfold ret at 1.
  rewrite (bind_Ret _ _ _ _ _ Hin).
  unfold the_net at 1. unfold bind at 1 2. unfold get_net_ at 1.
  rewrite Hn1. cbn [defined]. unfold ret at 1.
  rewrite Htop. cbn [defined]. unfold bind at 1. unfold ret at 1.
  rewrite (bind_Ret _ _ _ _ _ (deref_at w1 top top_blob Htopb)).
  rewrite Hname. cbn [defined]. unfold bind at 1. unfold ret at 1.
  rewrite (bind_Ret _ _ _ _ _
             (net_call_Some _ w1 n (0, p0 :: ps) n2 l2 Hn1 Hcalc)).
  cbn [fst snd Z.eqb negb]. fold B. fold w2.
  rewrite (bind_Ret _ _ _ _ _ Hcopy).
  rewrite (bind_Ret _ _ _ _ _
             (remove_temp_blobs_spec (p0 :: ps) w2 Hnd
                ltac:(eapply Forall2_Forall_l; [exact Hat|];
                      apply Forall_forall; intros b _ q [Hq Hb];
                      split; [done | by exists b]))).
  unfold copied_state. cbn [mx_out defined]. unfold ret.
  rewrite Z.mul_0_r. cbn [Z.to_nat replicate]. rewrite app_nil_r.
  subst w2. cbn [net_ init_key lib prng deleted].
  rewrite Hw1. reflexivity.
Qed.

End Gradients.

(** C5 on the toy network (batches of two images, three elements per
    channel) for the three channels 0, 1, 2: the first blob contributes
    its six elements, the second the three of the one channel left. *)
Lemma C5_witness :
  do_get_gradients Toy.bottom (mxChar "ip") Toy.ids_array Toy.w1
  = Ret (mxSingle [3; 1; 1; 3]
           (gradient_chunks 2 [Toy.grad_blob 0; Toy.grad_blob 1] 3))
        (mkWorld (Some Toy.std_net) (init_key Toy.w1)
           (mkLib CPU TEST
              (delete_all [100%N; 101%N] (blob_heap Toy.lib_gradients)) tt)
           (prng Toy.w1) [101%N; 100%N]) /\
  Z.of_nat (length (gradient_chunks 2 [Toy.grad_blob 0; Toy.grad_blob 1] 3))
  = 3 * 1 * 1 * 3.
Proof.
  assert (Hin : copy_checked_inputs Toy.bottom Toy.w1 = Ret tt Toy.w1_filled)
    by (vm_compute; reflexivity).
  assert (Htopb : blob_at (lib Toy.w1_filled) 2%N
                    (Toy.blob3 (Toy.zeros 6) (Toy.zeros 6)))
    by (split; [discriminate | vm_compute; reflexivity]).
  assert (Hcalc : Net_CalcGradientsPrefilled "ip"
                    (map convert_channel (supplied_ids Toy.ids_array))
                    Toy.std_net (lib Toy.w1_filled)
                  = Some (0, [100%N; 101%N], Toy.std_net, Toy.lib_gradients))
    by (vm_compute; reflexivity).
  assert (Hat : Forall2 (blob_at Toy.lib_gradients) [100%N; 101%N]
                  [Toy.grad_blob 0; Toy.grad_blob 1]).
  { repeat apply Forall2_cons_2; try apply Forall2_nil_2;
      (split; [discriminate | vm_compute; reflexivity]). }
  assert (Hnd : NoDup [100%N; 101%N])
    by (apply (bool_decide_unpack _); vm_compute; reflexivity).
  assert (Hpb : Forall (fun b => blob_wf b /\
                          num b = num (Toy.blob3 (Toy.zeros 6) (Toy.zeros 6)) /\
                          channels b = channels (Toy.grad_blob 0) /\
                          height b = height (Toy.grad_blob 0) /\
                          width b = width (Toy.grad_blob 0))
                  [Toy.grad_blob 0; Toy.grad_blob 1]).
  { repeat (apply Forall_cons; split); try (by apply Forall_nil);
      (split; [unfold Toy.grad_blob; apply toy_blob3_wf; reflexivity
              | repeat split; reflexivity]). }
  exact (C5_gradient_array Toy.w1 Toy.w1_filled Toy.std_net Toy.std_net
           Toy.lib_gradients Toy.bottom (mxChar "ip") Toy.ids_array "ip"
           2%N (Toy.blob3 (Toy.zeros 6) (Toy.zeros 6)) (Toy.grad_blob 0)
           100%N [101%N] [Toy.grad_blob 1]
           eq_refl ltac:(vm_compute; discriminate) eq_refl
           ltac:(vm_compute; split; discriminate) Hin eq_refl eq_refl Htopb
           Hcalc Hat Hnd Hpb ltac:(vm_compute; discriminate)
           ltac:(vm_compute; discriminate) ltac:(vm_compute; discriminate)).
Defined.

(** ** C10: the checks on the input cells *)

Section Inputs.
Context {Net Internal PRNG : Type} {E : Engine Net Internal PRNG}.
Local Abbreviation W := (World Net Internal PRNG).

Lemma dimension_error_shape dims b b' :
  same_shape b b' -> dimension_error dims b = dimension_error dims b'.
Proof.
  intros (Hn & Hc & Hh & Hw). unfold dimension_error.
  by rewrite Hn, Hc, Hh, Hw.
Qed.

Lemma dimension_error_None dims b :
  length dims = 4%nat ->
  dimension_error dims b = None <->
  dims = [width b; height b; channels b; num b].
Proof.
  intros Hlen. destruct dims as [|e0 [|e1 [|e2 [|e3 [|? ?]]]]]; try done.
  unfold dimension_error.
  destruct (Z.eqb_spec e0 (width b)), (Z.eqb_spec e1 (height b)),
    (Z.eqb_spec e2 (channels b)), (Z.eqb_spec e3 (num b));
    simpl; split; intros H; try done; congruence.
Qed.

Lemma dimension_error_message dims b msg :
  dimension_error dims b = Some msg -> msg ∈ dimension_messages.
Proof.
  destruct dims as [|e0 [|e1 [|e2 [|e3 ?]]]]; try done.
  unfold dimension_error, dimension_messages.
  repeat case_match; intros ?; simplify_eq; set_solver.
Qed.

Lemma first_dimension_error_message cells bs msg :
  first_dimension_error cells bs = Some msg -> msg ∈ dimension_messages.
Proof.
  revert bs. induction cells as [|c cells IH]; intros [|b bs]; try done.
  simpl. destruct (dimension_error c.1 b) eqn:Hd.
  - intros [= <-]. by eapply dimension_error_message.
  - apply IH.
Qed.

(** There is an error exactly when some cell's four entries are not
    the width, height, channels and num of its blob. *)
Lemma first_dimension_error_iff cells bs :
  length cells = length bs -> Forall is_4d cells ->
  first_dimension_error cells bs <> None <->
  exists i c b, cells !! i = Some c /\ bs !! i = Some b /\
                fst c <> [width b; height b; channels b; num b].
Proof.
  revert bs. induction cells as [|c cells IH]; intros [|b bs] Hlen H4;
    try done.
  - split; [done|]. by intros (i & c & b & Hc & _).
  - apply Forall_cons in H4 as [[Hc4 _] H4]. simpl.
    destruct (dimension_error c.1 b) eqn:Hd.
    + split; [|done]. intros _. exists 0%nat, c, b.
      repeat split; [done..|]. intros Heq.
      apply (dimension_error_None _ b Hc4) in Heq. congruence.
    + rewrite IH by (try done; simpl in Hlen; lia).
      apply (dimension_error_None _ b Hc4) in Hd.
      split.
      * intros (i & c' & b' & ? & ? & ?). by exists (S i), c', b'.
      * intros ([|i] & c' & b' & Hc & Hb & Hne); simpl in *.
        { simplify_eq. }
        by exists i, c', b'.
Qed.

Lemma check_and_copy_cell_spec (w : W) bottom i p b c :
  mxGetCell bottom i = Some (mxSingle (fst c) (snd c)) -> is_4d c ->
  blob_at (lib w) p b -> blob_wf b ->
  check_and_copy_cell bottom i p w
  = match dimension_error (fst c) b with
    | Some msg => MexErr msg w
    | None =>
        Ret tt (upd_lib w (with_blob (lib w) p
                             (set_data b (take (Z.to_nat (count b)) (snd c)))))
    end.
Proof.
  intros Hcell [H4 Hpr] Hat Hwf. destruct c as [dims pr]. simpl in *.
  destruct dims as [|e0 [|e1 [|e2 [|e3 [|? ?]]]]]; try done.
  unfold check_and_copy_cell. rewrite Hcell. cbn [defined].
  unfold bind at 1. unfold ret at 1.
  rewrite (bind_Ret _ _ _ _ _ (deref_at w p b Hat)).
  pose proof Hwf as (HN & HC & HH & HW & _).
  rewrite !mwSize_of_int_small by done.
  cbn [mxGetDimensions lookup list_lookup defined mxGetPr_float].
  unfold dimension_error.
  unfold bind at 1. unfold ret at 1.
  destruct (Z.eqb_spec e0 (width b)) as [->|]; cbn [negb when_];
    [|reflexivity].
  unfold bind at 1. unfold ret at 1. unfold bind at 1. unfold ret at 1.
  destruct (Z.eqb_spec e1 (height b)) as [->|]; cbn [negb when_];
    [|reflexivity].
  unfold bind at 1. unfold ret at 1. unfold bind at 1. unfold ret at 1.
  destruct (Z.eqb_spec e2 (channels b)) as [->|]; cbn [negb when_];
    [|reflexivity].
  unfold bind at 1. unfold ret at 1. unfold bind at 1. unfold ret at 1.
  destruct (Z.eqb_spec e3 (num b)) as [->|]; cbn [negb when_];
    [|reflexivity].
  unfold bind at 1. unfold ret at 1. unfold bind at 1. unfold ret at 1.
  apply copy_to_blob_data_at; [done..|].
  rewrite Hpr, dims_product_blob. lia.
Qed.

Lemma shaped_store (l : Lib Internal) p b d ps bs :
  blob_at l p b -> blob_wf b -> Z.of_nat (length d) = count b ->
  shaped l ps bs -> shaped (with_blob l p (set_data b d)) ps bs.
Proof.
  intros [_ Hb] Hwf Hd Hsh. eapply Forall2_impl; [exact Hsh|].
  intros q b0 (b' & [Hq Hb'] & Hwf' & Hs).
  destruct (decide (q = p)) as [->|Hne].
  - exists (set_data b d). rewrite Hb in Hb'. simplify_eq.
    split; [split; [done|]; simpl; by rewrite lookup_insert_eq|].
    split; [|done].
    unfold blob_wf, count in *. simpl. intuition lia.
  - exists b'. split; [split; [done|]; simpl; by rewrite lookup_insert_ne|].
    done.
Qed.

Lemma copy_loop bottom : forall ps cells bs j (w : W),
  (forall idx c, cells !! idx = Some c ->
     mxGetCell bottom (j + idx) = Some (mxSingle (fst c) (snd c))) ->
  length cells = length ps -> Forall is_4d cells ->
  shaped (lib w) ps bs ->
  exists l', for_each (check_and_copy_cell bottom) j ps w
             = match first_dimension_error cells bs with
               | Some msg => MexErr msg (upd_lib w l')
               | None => Ret tt (upd_lib w l')
               end.
Proof.
  induction ps as [|p ps IH]; intros cells bs j w Hcells Hlen H4 Hsh.
  - destruct cells; [|done]. exists (lib w). simpl. by destruct w.
  - destruct cells as [|c cells]; [done|].
    apply Forall2_cons_inv_l in Hsh as (b0 & bs' & (b & Hat & Hwf & Hs) & Hsh & ->).
    apply Forall_cons in H4 as [Hc4 H4].
    cbn [for_each first_dimension_error].
    unfold bind at 1.
    rewrite (check_and_copy_cell_spec w bottom j p b c); try done.
    2:{ specialize (Hcells 0%nat c eq_refl). by rewrite Nat.add_0_r in Hcells. }
    rewrite <- (dimension_error_shape _ b b0 Hs).
    destruct (dimension_error c.1 b) eqn:Hd.
    + exists (lib w). by destruct w.
    + apply (dimension_error_None _ b (proj1 Hc4)) in Hd.
      set (l1 := with_blob (lib w) p
                   (set_data b (take (Z.to_nat (count b)) c.2))).
      destruct (IH cells bs' (S j) (upd_lib w l1)) as [l' Hl'].
      * intros idx c' Hc'. specialize (Hcells (S idx) c' Hc').
        by rewrite Nat.add_succ_r in Hcells.
      * simpl in Hlen. lia.
      * done.
      * cbn [upd_lib lib]. apply shaped_store; try done.
        destruct Hc4 as [_ Hpr]. rewrite Hd, dims_product_blob in Hpr.
        rewrite length_take. pose proof (count_nonneg b Hwf). lia.
      * exists l'. rewrite Hl'. reflexivity.
Qed.

Lemma get_cell_array d cells idx c :
  cells !! idx = Some c ->
  mxGetCell (cell_array d cells) idx = Some (mxSingle (fst c) (snd c)).
Proof.
  intros Hc. unfold mxGetCell, cell_array.
  rewrite list_lookup_fmap, Hc. reflexivity.
Qed.

(** The input stage on a cell array with as many 4-D single cells as
    the net has input blobs. *)
Lemma copy_checked_inputs_spec (w : W) n d d0 cells bs :
  net_ w = Some n ->
  d !! 0%nat = Some d0 ->
  static_cast_unsigned_int d0 = Z.of_nat (length (Net_input_blobs n)) ->
  length cells = length (Net_input_blobs n) ->
  Forall is_4d cells ->
  shaped (lib w) (Net_input_blobs n) bs ->
  exists l', copy_checked_inputs (cell_array d cells) w
             = match first_dimension_error cells bs with
               | Some msg => MexErr msg (upd_lib w l')
               | None => Ret tt (upd_lib w l')
               end.
Proof.
  intros Hn Hd0 Hcast Hlen H4 Hsh. unfold copy_checked_inputs.
  unfold the_net. unfold bind at 1 2. unfold get_net_ at 1. rewrite Hn.
  cbn [defined]. unfold ret at 1.
  cbn [cell_array mxGetDimensions]. rewrite Hd0. cbn [defined].
  unfold bind at 1. unfold ret at 1. rewrite Hcast, Z.eqb_refl.
  cbn [negb when_]. unfold bind at 1. unfold ret at 1.
  apply (copy_loop (cell_array d cells) _ cells bs 0%nat w); try done.
  intros idx c Hc. by apply get_cell_array.
Qed.

End Inputs.

Section InputErrors.
Context {Net Internal PRNG : Type} {E : Engine Net Internal PRNG}.
Local Abbreviation W := (World Net Internal PRNG).

Lemma raised_none_of_steps {A} (m : M W A) w :
  steps any_step not_dimension_message m ->
  raised_dimension_error (m w) = None.
Proof.
  intros Hm. specialize (Hm w). destruct (m w); try done.
  destruct Hm as [_ Hm]. unfold raised_dimension_error.
  by rewrite bool_decide_eq_false_2.
Qed.

Lemma raised_dimension_message msg (w : W) {A} :
  msg ∈ dimension_messages ->
  raised_dimension_error (MexErr msg w : outcome W A) = Some msg.
Proof. intros H. unfold raised_dimension_error. by rewrite bool_decide_eq_true_2. Qed.

Ltac not_a_dimension_message :=
  intros; first [exact I
                | apply (bool_decide_unpack _); vm_compute; exact I].

(** Whatever follows the input stage raises no dimension error. *)
Lemma raised_after_inputs {A} bottom (rest : unit -> M W A) (w : W) fde l' :
  copy_checked_inputs bottom w
  = match fde with
    | Some msg => MexErr msg (upd_lib w l')
    | None => Ret tt (upd_lib w l')
    end ->
  (forall msg, fde = Some msg -> msg ∈ dimension_messages) ->
  steps any_step not_dimension_message (rest tt) ->
  raised_dimension_error (bind (copy_checked_inputs bottom) rest w) = fde.
Proof.
  intros Hin Hmsg Hrest. unfold bind. rewrite Hin.
  destruct fde as [msg|].
  - apply raised_dimension_message. by apply Hmsg.
  - by apply raised_none_of_steps.
Qed.

Lemma shaped_of_blobs (l : Lib Internal) ps bs :
  Forall2 (blob_at l) ps bs -> Forall blob_wf bs -> shaped l ps bs.
Proof.
  intros Hat. induction Hat as [|p b ps bs Hp Hat IH]; intros Hwf.
  - apply Forall2_nil_2.
  - apply Forall_cons in Hwf as [Hb Hwf]. apply Forall2_cons_2; [|by apply IH].
    exists b. split; [done|]. split; [done|]. by repeat split.
Qed.

(** C10, as amended.  Uninitialized, [get_features] and [get_gradients]
    raise "Initialize caffe first by calling matcaffe_init." and leave
    the world as it was.  Initialized, once the earlier checks have
    passed (the cell array has as many cells as the net has input
    blobs, every cell is a single array with four dimension entries,
    and for [get_gradients] the channel list is not empty and holds no
    negative id), the dimension error they end with is that of the
    first check failed by the first cell failing one; there is one if
    and only if some cell's entries are not the width, height, channels
    and num of its blob.  The first entry is compared with the width
    under a message about the height, the second with the height under
    a message about the width. *)
Theorem C10_input_checks (w : W) (n : Net) (d : list Z) (d0 : Z)
    (cells : list (list Z * list float)) (bs : list Blob)
    (layername channel_ids : mxArray) :
  (forall bottom, net_ w = None ->
     do_get_features bottom layername w
       = MexErr "Initialize caffe first by calling matcaffe_init." w /\
     do_get_gradients bottom layername channel_ids w
       = MexErr "Initialize caffe first by calling matcaffe_init." w) /\
  (net_ w = Some n ->
   d !! 0%nat = Some d0 ->
   static_cast_unsigned_int d0 = Z.of_nat (length (Net_input_blobs n)) ->
   length cells = length (Net_input_blobs n) ->
   Forall is_4d cells ->
   Forall2 (blob_at (lib w)) (Net_input_blobs n) bs ->
   Forall blob_wf bs ->
   raised_dimension_error (do_get_features (cell_array d cells) layername w)
     = first_dimension_error cells bs /\
   (is_id_array channel_ids ->
    existsb strictly_negative (supplied_ids channel_ids) = false ->
    supplied_ids channel_ids <> [] ->
    raised_dimension_error
      (do_get_gradients (cell_array d cells) layername channel_ids w)
      = first_dimension_error cells bs) /\
   (first_dimension_error cells bs <> None <->
    exists i c b, cells !! i = Some c /\ bs !! i = Some b /\
                  fst c <> [width b; height b; channels b; num b]) /\
   (forall e0 e1 e2 e3 b,
      e0 <> width b ->
      dimension_error [e0; e1; e2; e3] b
        = Some "The height of the input images is wrong!") /\
   (forall e1 e2 e3 b,
      e1 <> height b ->
      dimension_error [width b; e1; e2; e3] b
        = Some "The width of the input images is wrong!")).
Proof.
  split.
  - intros bottom Hn. split.
    + unfold do_get_features, bind, get_net_. by rewrite Hn.
    + unfold do_get_gradients, bind, get_net_. by rewrite Hn.
  - intros Hn Hd0 Hcast Hlen H4 Hat Hwf.
    pose proof (shaped_of_blobs _ _ _ Hat Hwf) as Hsh.
    destruct (copy_checked_inputs_spec w n d d0 cells bs Hn Hd0 Hcast Hlen
                H4 Hsh) as [l' Hin].
    assert (Hmsg : forall msg, first_dimension_error cells bs = Some msg ->
                               msg ∈ dimension_messages)
      by (intros msg; apply first_dimension_error_message).
    split; [|split; [|split; [|split]]].
    + unfold do_get_features.
      unfold bind at 1. unfold get_net_ at 1. rewrite Hn.
      cbn [is_set negb when_]. unfold bind at 1. unfold ret at 1.
      apply (raised_after_inputs _ _ w _ l' Hin Hmsg).
      unfold_workers. steps_auto not_a_dimension_message.
    + intros Hids Hneg Hne. unfold do_get_gradients.
      unfold bind at 1. unfold get_net_ at 1. rewrite Hn.
      cbn [is_set negb when_]. unfold bind at 1. unfold ret at 1.
      unfold bind at 1. rewrite read_channel_ids_spec by done.
      rewrite Hneg. rewrite length_map.
      destruct (Z.ltb_spec (Z.of_nat (length (supplied_ids channel_ids))) 1)
        as [Hlt|_].
      { destruct (supplied_ids channel_ids); [done|simpl in Hlt; lia]. }
      cbn [when_]. unfold bind at 1. unfold ret at 1.
      apply (raised_after_inputs _ _ w _ l' Hin Hmsg).
      unfold_workers. steps_auto not_a_dimension_message.
    + apply first_dimension_error_iff; [|done].
      rewrite Hlen. by apply Forall2_length in Hat.
    + intros e0 e1 e2 e3 b Hne. unfold dimension_error.
      by destruct (Z.eqb_spec e0 (width b)).
    + intros e1 e2 e3 b Hne. unfold dimension_error.
      rewrite Z.eqb_refl. by destruct (Z.eqb_spec e1 (height b)).
Qed.

End InputErrors.

(** C10 as stated fails on an initialized net: a cell of width 5
    against a blob of width 3 raises no dimension error when an earlier
    check fails, the check of the channel list in [get_gradients] or
    the check of the number of cells. *)
Lemma C10_earlier_checks_come_first :
  let bad := mxSingle [5; 1; 1; 2] (Toy.zeros 10) in
  is_set (net_ Toy.w1) = true /\
  width <$> blob_heap (lib Toy.w1) !! 1%N = Some 3 /\
  do_get_gradients (mxCell [1; 1] [Some bad]) (mxChar "ip")
                   (mxDouble [0; 0] []) Toy.w1
    = MexErr "Channel list must not be empty." Toy.w1 /\
  do_get_features (mxCell [2; 1] [Some bad; Some bad]) (mxChar "ip") Toy.w1
    = MexErr "The input has to be a cell array usually containing a single height x width x channels x batch size image!" Toy.w1 /\
  raised_dimension_error
    (do_get_gradients (mxCell [1; 1] [Some bad]) (mxChar "ip")
                      (mxDouble [0; 0] []) Toy.w1) = None /\
  raised_dimension_error
    (do_get_features (mxCell [2; 1] [Some bad; Some bad]) (mxChar "ip")
                     Toy.w1) = None.
Proof. repeat split; vm_compute; reflexivity. Qed.

(** C10 on the toy network: a single cell of width 5 against the input
    blob of width 3 raises the error worded for the height. *)
Lemma C10_witness :
  raised_dimension_error
    (do_get_features (cell_array [1; 1] [([5; 1; 1; 2], Toy.zeros 10)])
                     (mxChar "ip") Toy.w1)
  = Some "The height of the input images is wrong!".
Proof.
  assert (Hat : Forall2 (blob_at (lib Toy.w1)) (Net_input_blobs Toy.std_net)
                  [Toy.blob3 (Toy.zeros 6) (Toy.zeros 6)]).
  { apply Forall2_cons_2; [|apply Forall2_nil_2].
    split; [discriminate | vm_compute; reflexivity]. }
  assert (Hwf : Forall blob_wf [Toy.blob3 (Toy.zeros 6) (Toy.zeros 6)]).
  { apply Forall_cons. split; [|by apply Forall_nil].
    apply toy_blob3_wf; reflexivity. }
  assert (H4 : Forall is_4d [([5; 1; 1; 2], Toy.zeros 10)]).
  { apply Forall_cons. split; [|by apply Forall_nil]. split; reflexivity. }
  exact (proj1 (proj2 (C10_input_checks Toy.w1 Toy.std_net [1; 1] 1
                         [([5; 1; 1; 2], Toy.zeros 10)]
                         [Toy.blob3 (Toy.zeros 6) (Toy.zeros 6)]
                         (mxChar "ip") Toy.ids_array)
                  eq_refl eq_refl eq_refl eq_refl H4 Hat Hwf)).
Defined.

(** ** C9: the conversion and the checks of the channel ids *)

Section Conversion.

Lemma double_trunc_floor d q :
  double_value d = Some q -> (0 <= q)%Q ->
  double_trunc d = Some (Qfloor q).
Proof.
  destruct d as [s|s| |s m e]; try done.
  - intros [= <-] _. reflexivity.
  - unfold double_value, double_trunc.
    destruct s.
    + (* a negative double has a negative value *)
      destruct e as [|p|p]; intros [= <-] Hq; exfalso;
        unfold Qle in Hq; simpl in Hq; lia.
    + destruct e as [|p|p]; intros [= <-] _; cbn [cond_Zopp].
      * by rewrite Qfloor_Z.
      * by rewrite Qfloor_Z.
      * unfold Qfloor. by rewrite Pos2Z.inj_pow.
Qed.

(** Where the sum [d + 0.5] is exact, the conversion rounds a
    non-negative [d] to the nearest integer, halves upwards. *)
Lemma convert_channel_exact d q r :
  double_value d = Some q ->
  double_value (double_add d double_half) = Some r ->
  (r == q + (1 # 2))%Q ->
  (0 <= q)%Q ->
  round_half_up q <= INT_MAX ->
  convert_channel d = round_half_up q.
Proof.
  intros Hq Hr Hexact Hpos Hmax. unfold convert_channel, int_of_double.
  assert (Hr0 : (0 <= r)%Q).
  { rewrite Hexact. apply Qle_trans with q; [done|].
    rewrite <- (Qplus_0_r q) at 1. by apply Qplus_le_r. }
  rewrite (double_trunc_floor _ r Hr Hr0).
  unfold round_half_up in *. rewrite (Qfloor_comp _ _ Hexact).
  assert (Hfl : 0 <= Qfloor (q + (1 # 2))%Q).
  { rewrite <- (Qfloor_comp _ _ Hexact).
    change 0 with (Qfloor (inject_Z 0)). by apply Qfloor_resp_le. }
  destruct (Z.leb_spec INT_MIN (Qfloor (q + (1 # 2))%Q));
    [|unfold INT_MIN in *; lia].
  destruct (Z.leb_spec (Qfloor (q + (1 # 2))%Q) INT_MAX); [done|lia].
Qed.

(** Where the sum is exact and its integer part is no [int], the cast
    is out of range. *)
Lemma convert_channel_out_of_range d q r :
  double_value d = Some q ->
  double_value (double_add d double_half) = Some r ->
  (r == q + (1 # 2))%Q ->
  (0 <= q)%Q ->
  INT_MAX < round_half_up q ->
  convert_channel d = INT_MIN.
Proof.
  intros Hq Hr Hexact Hpos Hmax. unfold convert_channel, int_of_double.
  assert (Hr0 : (0 <= r)%Q).
  { rewrite Hexact. apply Qle_trans with q; [done|].
    rewrite <- (Qplus_0_r q) at 1. by apply Qplus_le_r. }
  rewrite (double_trunc_floor _ r Hr Hr0).
  unfold round_half_up in *. rewrite (Qfloor_comp _ _ Hexact).
  destruct (Z.leb_spec (Qfloor (q + (1 # 2))%Q) INT_MAX); [lia|].
  by rewrite andb_false_r.
Qed.

(** Strictly negative are the negative finite doubles and minus
    infinity; both zeros and NaN are not. *)
Lemma strictly_negative_spec d :
  strictly_negative d = true <->
  match d with
  | S754_finite true _ _ | S754_infinity true => True
  | _ => False
  end.
Proof. by destruct d as [[]|[]| |[] m e]. Qed.

End Conversion.

Section ChannelChecks.
Context {Net Internal PRNG : Type} {E : Engine Net Internal PRNG}.
Local Abbreviation W := (World Net Internal PRNG).

(** The three ways [get_gradients] goes on after it has found the net
    initialized. *)
Lemma do_get_gradients_ids (w : W) n bottom layername channel_ids :
  net_ w = Some n -> is_id_array channel_ids ->
  let ids := supplied_ids channel_ids in
  (existsb strictly_negative ids = true /\
   do_get_gradients bottom layername channel_ids w
   = MexErr "The channel ids must be greater than zero!" w) \/
  (existsb strictly_negative ids = false /\ ids = [] /\
   do_get_gradients bottom layername channel_ids w
   = MexErr "Channel list must not be empty." w) \/
  (existsb strictly_negative ids = false /\ ids <> [] /\
   forall msg, raises (do_get_gradients bottom layername channel_ids w) msg ->
               other_message msg).
Proof.
  intros Hn Hids ids.
  assert (Hstart : forall rest : list Z -> M W mxArray,
    bind get_net_ (fun o =>
      bind (when_ (negb (is_set o))
              (mexErrMsgTxt "Initialize caffe first by calling matcaffe_init."))
           (fun _ => bind (read_channel_ids channel_ids) rest)) w
    = if existsb strictly_negative ids
      then MexErr "The channel ids must be greater than zero!" w
      else rest (map convert_channel ids) w).
  { intros rest. unfold bind at 1. unfold get_net_ at 1. rewrite Hn.
    cbn [is_set negb when_]. unfold bind at 1. unfold ret at 1.
    unfold bind at 1. rewrite read_channel_ids_spec by done. fold ids.
    by destruct (existsb strictly_negative ids). }
  unfold do_get_gradients. rewrite Hstart.
  destruct (existsb strictly_negative ids) eqn:Hneg; [by left|]. right.
  rewrite length_map.
  destruct ids as [|d ds] eqn:Hds.
  - left. by repeat split.
  - right. split; [done|split; [done|]].
    cbn [length]. rewrite Nat2Z.inj_succ.
    destruct (Z.ltb_spec (Z.succ (Z.of_nat (length ds))) 1); [lia|].
    cbn [when_]. unfold bind at 1. unfold ret at 1.
    intros msg [w' Hraise].
    match type of Hraise with ?m w = _ =>
      assert (Hsteps : steps any_step other_message m)
    end.
    { unfold_workers.
      steps_auto ltac:(intros; first [exact I | by split]). }
    specialize (Hsteps w). rewrite Hraise in Hsteps. by destruct Hsteps.
Qed.

(** C9, as amended.  On an initialized net, for a double array
    [channel_ids] that owns the elements its first two dimensions
    announce, the channel ids [get_gradients] reads are the first
    [dims[0]*dims[1]] elements of the array, and no others.  It
    converts them in order, each [d] to [(int)(d + 0.5)] with the sum
    taken in double arithmetic; for a non-negative [d] whose sum
    [d + 0.5] is exact this is rounding to the nearest integer, halves
    upwards, as long as the rounded value is at most [INT_MAX], and is
    [INT_MIN] beyond.  It raises "The channel ids must be greater than
    zero!" if and only if one of these ids is strictly negative (a zero
    of either sign is not), and "Channel list must not be empty." if
    and only if there is none.  On an uninitialized net it raises
    "Initialize caffe first by calling matcaffe_init." before it looks
    at the ids. *)
Theorem C9_channel_ids (w : W) (n : Net)
    (bottom layername channel_ids : mxArray) :
  net_ w = Some n -> is_id_array channel_ids ->
  let ids := supplied_ids channel_ids in
  (existsb strictly_negative ids = false ->
   read_channel_ids channel_ids w
   = Ret (map (fun d => int_of_double (double_add d double_half)) ids) w) /\
  (forall d q r,
     double_value d = Some q ->
     double_value (double_add d double_half) = Some r ->
     (r == q + (1 # 2))%Q -> (0 <= q)%Q -> round_half_up q <= INT_MAX ->
     int_of_double (double_add d double_half) = round_half_up q) /\
  (forall d q r,
     double_value d = Some q ->
     double_value (double_add d double_half) = Some r ->
     (r == q + (1 # 2))%Q -> (0 <= q)%Q -> INT_MAX < round_half_up q ->
     int_of_double (double_add d double_half) = INT_MIN) /\
  (forall s, strictly_negative (S754_zero s) = false) /\
  (raises (do_get_gradients bottom layername channel_ids w)
          "The channel ids must be greater than zero!"
   <-> exists d, d ∈ ids /\ strictly_negative d = true) /\
  (raises (do_get_gradients bottom layername channel_ids w)
          "Channel list must not be empty."
   <-> ids = []) /\
  (forall w0 : W,
     net_ w0 = None ->
     do_get_gradients bottom layername channel_ids w0
     = MexErr "Initialize caffe first by calling matcaffe_init." w0).
Proof.
  intros Hn Hids ids.
  split; [|split; [|split; [|split; [|split; [|split]]]]].
  - intros Hneg. rewrite read_channel_ids_spec by done. fold ids.
    by rewrite Hneg.
  - intros d q r. apply convert_channel_exact.
  - intros d q r. apply convert_channel_out_of_range.
  - by intros [].
  - destruct (do_get_gradients_ids w n bottom layername channel_ids Hn Hids)
      as [[Hneg He]|[(Hneg & Hnil & He)|(Hneg & Hne & Hother)]];
      fold ids in Hneg.
    + split; [|intros _; by exists w].
      intros _. apply existsb_exists in Hneg as (d & Hin & Hd).
      exists d. split; [by apply list_elem_of_In|done].
    + split.
      * intros [w' Hr]. rewrite He in Hr. discriminate Hr.
      * intros (d & Hin & Hd). exfalso.
        assert (existsb strictly_negative ids = true); [|congruence].
        apply existsb_exists. exists d. split; [by apply list_elem_of_In|done].
    + split.
      * intros Hr. by destruct (Hother _ Hr) as [? _].
      * intros (d & Hin & Hd). exfalso.
        assert (existsb strictly_negative ids = true); [|congruence].
        apply existsb_exists. exists d. split; [by apply list_elem_of_In|done].
  - destruct (do_get_gradients_ids w n bottom layername channel_ids Hn Hids)
      as [[Hneg He]|[(Hneg & Hnil & He)|(Hneg & Hne & Hother)]];
      fold ids in Hneg.
    + split.
      * intros [w' Hr]. rewrite He in Hr. discriminate Hr.
      * intros Hnil. fold ids in Hnil. rewrite Hnil in Hneg. discriminate Hneg.
    + split; [done|]. intros _. by exists w.
    + split; [|done]. intros Hr. by destruct (Hother _ Hr) as [_ ?].
  - intros w0 Hnone. unfold do_get_gradients.
    unfold bind at 1. unfold get_net_ at 1. by rewrite Hnone.
Qed.

End ChannelChecks.

(** The largest double below one half is converted to 1: the sum
    [d + 0.5] is rounded to 1.0 before the cast, while rounding [d]
    itself, halves upwards, gives 0.  At [d = 2^31] the sum is exact,
    but its integer part is no [int].  The third element of a
    1 x 1 x 3 array is not among the ids read, negative or not.  And
    on an uninitialized net a negative channel id is never looked
    at. *)
Lemma C9_sum_is_rounded_before_the_cast :
  let q := ((2 ^ 53 - 1) # (2 ^ 54))%Q in
  let big := Toy.dbl (2 ^ 31) in
  let q_big := ((2 ^ 52) # (2 ^ 21))%Q in
  let r_big := ((2 ^ 52 + 2 ^ 20) # (2 ^ 21))%Q in
  (double_value below_half = Some q /\
   (0 <= q)%Q /\
   round_half_up q = 0 /\
   int_of_double (double_add below_half double_half) = 1 /\
   read_channel_ids (mxDouble [1; 1] [below_half]) Toy.w1 = Ret [1] Toy.w1) /\
  (double_value big = Some q_big /\
   double_value (double_add big double_half) = Some r_big /\
   (r_big == q_big + (1 # 2))%Q /\
   round_half_up q_big = 2 ^ 31 /\
   int_of_double (double_add big double_half) = INT_MIN) /\
  (strictly_negative (Toy.dbl (-6)) = true /\
   read_channel_ids
     (mxDouble [1; 1; 3] [Toy.dbl 0; Toy.dbl 1; Toy.dbl (-6)]) Toy.w1
   = Ret [0] Toy.w1) /\
  (strictly_negative (Toy.dbl (-1)) = true /\
   do_get_gradients Toy.bottom (mxChar "ip") (mxDouble [1; 1] [Toy.dbl (-1)])
                    Toy.w0
   = MexErr "Initialize caffe first by calling matcaffe_init." Toy.w0).
Proof. repeat split; vm_compute; first [reflexivity | discriminate]. Qed.

Lemma C9_witness :
  let two_and_a_half := binary_normalize 53 1024 5 (-1) false in
  net_ Toy.w1 = Some Toy.std_net /\
  is_id_array Toy.ids_array /\
  read_channel_ids Toy.ids_array Toy.w1 = Ret [0; 1; 2] Toy.w1 /\
  int_of_double (double_add two_and_a_half double_half) = 3 /\
  ~ raises (do_get_gradients Toy.bottom (mxChar "ip") Toy.ids_array Toy.w1)
           "Channel list must not be empty.".
Proof.
  intros d.
  assert (Hids : is_id_array Toy.ids_array) by (vm_compute; discriminate).
  destruct (C9_channel_ids Toy.w1 Toy.std_net Toy.bottom (mxChar "ip")
              Toy.ids_array eq_refl Hids) as (Hread & Hround & _ & _ & _ & Hempty & _).
  split; [reflexivity|]. split; [exact Hids|]. split; [|split].
  - rewrite Hread; reflexivity.
  - rewrite (Hround d _ _ eq_refl eq_refl);
      [reflexivity | reflexivity | vm_compute; discriminate
      | vm_compute; discriminate].
  - intros Hr. apply Hempty in Hr. discriminate Hr.
Defined.

(** ** C4: consecutive layers that share a name *)

(** C4.  [Toy.dup_net] has the layers "data" (no blobs), "conv" (one
    blob) and "conv" (one blob), and
    [caffe('init', 'dup.prototxt', 'net.caffemodel')] leads to
    [Toy.w_dup].  There step 1 of [get_weights] counts one entry for the
    run of the two "conv" layers.  In step 3 the second "conv" layer
    finds its name equal to [prev_layer_name], so [mx_layer_cells]
    keeps the NULL it was initialized with, and
    [mxSetCell(mx_layer_cells, 0, mx_weights)] is called on it:
    [get_weights] does not return. *)
Theorem C4_get_weights_same_name_run :
  observe (mexFunction 0 [mxChar "init"; mxChar "dup.prototxt";
                          mxChar "net.caffemodel"] Toy.w0)
  = observe (Ret None Toy.w_dup) /\
  count_weight_layers (Net_layers Toy.dup_net) (Net_layer_names Toy.dup_net)
                      Toy.w_dup
  = Ret 1 Toy.w_dup /\
  fill_layer_cells None [4%N] Toy.w_dup = Undef /\
  do_get_weights Toy.w_dup = Undef /\
  mexFunction 1 [mxChar "get_weights"] Toy.w_dup = Undef.
Proof. repeat split; vm_compute; reflexivity. Qed.

(** ** [get_weights] on layers whose names do not repeat *)

Section Weights.
Context {Net Internal PRNG : Type} {E : Engine Net Internal PRNG}.
Local Abbreviation W := (World Net Internal PRNG).

Lemma mxSetField_at d fn (seen : list (list (string * option mxArray)))
    e rest f v :
  f ∈ fn ->
  mxSetField (mxStruct d fn (seen ++ e :: rest)) (length seen) f v
  = Some (mxStruct d fn (seen ++ set_field f v e :: rest)).
Proof.
  intros Hf. unfold mxSetField.
  rewrite lookup_app_r by lia. rewrite Nat.sub_diag. cbn [lookup list_lookup].
  assert (Hex : existsb (String.eqb f) fn = true).
  { apply existsb_exists. exists f. split; [by apply list_elem_of_In|].
    apply String.eqb_refl. }
  rewrite Hex. rewrite insert_app_r_alt by lia. by rewrite Nat.sub_diag.
Qed.

Lemma fill_layer_cells_from (w : W) d : forall rest seen,
  blobs_ok (lib w) rest ->
  for_fold (fun j p (cells : option mxArray) =>
              bind (mx_blob_of data p) (fun mx_weights =>
              bind (defined cells) (fun c =>
              bind (defined (mxSetCell c j mx_weights)) (fun c' =>
              ret (Some c')))))
           (length seen) rest
           (Some (mxCell d (seen ++ replicate (length rest) None))) w
  = Ret (Some (mxCell d (seen ++ cells_of data (lib w) rest))) w.
Proof.
  induction rest as [|p rest IH]; intros seen Hok; simpl.
  - done.
  - apply Forall_cons in Hok as [(b & Hat & Hwf) Hok].
    unfold bind at 1. unfold bind at 1.
    rewrite (mx_blob_of_at data w p b Hat Hwf (data_length b Hwf)).
    cbn [defined]. unfold bind at 1. unfold ret at 1.
    unfold mxSetCell. rewrite bool_decide_eq_true_2
      by (rewrite length_app; simpl; lia).
    cbn [defined]. unfold bind at 1. unfold ret at 1. unfold ret at 1.
    replace (<[length seen:=Some (host_array data b)]>
               (seen ++ None :: replicate (length rest) None))
      with ((seen ++ [Some (host_array data b)])
              ++ replicate (length rest) None).
    + replace (S (length seen))
        with (length (seen ++ [Some (host_array data b)]))
        by (rewrite length_app; simpl; lia).
      rewrite IH by done. destruct Hat as [_ Hb]. rewrite Hb. simpl.
      by rewrite <- app_assoc.
    + rewrite <- app_assoc. simpl.
      rewrite insert_app_r_alt by lia. by rewrite Nat.sub_diag.
Qed.

Lemma fill_layer_cells_ok (w : W) ps :
  blobs_ok (lib w) ps ->
  fill_layer_cells (Some (mxCreateCellMatrix (Z.of_nat (length ps)) 1)) ps w
  = Ret (Some (mxCell [Z.of_nat (length ps); 1] (cells_of data (lib w) ps))) w.
Proof.
  intros Hok. unfold fill_layer_cells, mxCreateCellMatrix.
  rewrite Z.mul_1_r, Nat2Z.id.
  exact (fill_layer_cells_from w _ ps [] Hok).
Qed.

(** Without a cell array the first blob already ends the call. *)
Lemma fill_layer_cells_NULL (w : W) p ps :
  blobs_ok (lib w) (p :: ps) ->
  fill_layer_cells None (p :: ps) w = Undef.
Proof.
  intros Hok. apply Forall_cons in Hok as [(b & Hat & Hwf) _].
  unfold fill_layer_cells. cbn [for_fold].
  unfold bind at 1. unfold bind at 1.
  by rewrite (mx_blob_of_at data w p b Hat Hwf (data_length b Hwf)).
Qed.

Local Abbreviation fnames := ["weights"; "layer_names"].
Local Abbreviation unset := [("weights", None); ("layer_names", None)].

Lemma count_runs_length prev names :
  repeats prev names = false -> count_runs prev names = length names.
Proof.
  revert prev. induction names as [|name ns IH]; intros prev; simpl; [done|].
  destruct (String.eqb name prev); [done|]. simpl. intros H. by rewrite IH.
Qed.

(** Step 1 counts the runs. *)
Lemma count_loop : forall layers pre names prev acc (w : W),
  length names = length layers ->
  let wl := weight_layers layers names in
  0 <= acc -> acc + Z.of_nat (count_runs prev (map fst wl)) <= INT_MAX ->
  exists prev',
    for_fold (count_weight_step (pre ++ names)) (length pre) layers
             (prev, acc) w
    = Ret (prev', acc + Z.of_nat (count_runs prev (map fst wl))) w.
Proof.
  induction layers as [|blobs ls IH]; intros pre names prev acc w Hlen wl H0 Hmax.
  - exists prev. subst wl. simpl. unfold ret. do 2 f_equal. simpl. lia.
  - destruct names as [|name ns]; [done|]. simpl in Hlen.
    cbn [for_fold]. unfold bind at 1. unfold count_weight_step at 1.
    subst wl. cbn [weight_layers] in *.
    assert (Hnext : forall prev0 acc0,
              0 <= acc0 ->
              acc0 + Z.of_nat (count_runs prev0 (map fst (weight_layers ls ns)))
                <= INT_MAX ->
              exists prev',
                for_fold (count_weight_step (pre ++ name :: ns))
                         (S (length pre)) ls (prev0, acc0) w
                = Ret (prev', acc0 + Z.of_nat
                         (count_runs prev0 (map fst (weight_layers ls ns)))) w).
    { intros prev0 acc0 ? ?.
      destruct (IH (pre ++ [name]) ns prev0 acc0 w) as [prev' Hp]; [lia|done..|].
      exists prev'. rewrite <- Hp. rewrite <- app_assoc. simpl.
      by rewrite length_app, Nat.add_1_r. }
    destruct (length blobs =? 0)%nat.
    + unfold ret at 1. by apply Hnext.
    + rewrite list_lookup_middle by done. cbn [defined].
      unfold bind at 1. unfold ret at 1.
      cbn [map fst count_runs] in *.
      destruct (String.eqb_spec name prev) as [->|_]; cbn [negb];
        unfold ret at 1.
      * destruct (Hnext prev acc) as [prev' Hp]; [done|simpl in Hmax; lia|].
        exists prev'. rewrite Hp. reflexivity.
      * assert (Hadd : int_add acc 1 = acc + 1).
        { unfold int_add. apply wrap_int_small. unfold INT_MIN, INT_MAX in *.
          lia. }
        rewrite Hadd.
        destruct (Hnext name (acc + 1)) as [prev' Hp]; [lia|lia|].
        exists prev'. rewrite Hp. do 2 f_equal. lia.
Qed.

(** Step 3 fills one entry per layer until a name repeats. *)
Lemma copy_weights_loop d : forall layers pre names prev seen k (w : W),
  length names = length layers ->
  let wl := weight_layers layers names in
  Forall (fun x => blobs_ok (lib w) (snd x)) wl ->
  (count_runs prev (map fst wl) <= k)%nat ->
  exists prev',
    for_fold (copy_weight_step (pre ++ names)) (length pre) layers
             (prev, length seen, mxStruct d fnames (seen ++ replicate k unset))
             w
    = if repeats prev (map fst wl) then Undef
      else Ret (prev', (length seen + length wl)%nat,
                mxStruct d fnames
                  (seen ++ map (weight_entry (lib w)) wl
                        ++ replicate (k - length wl) unset)) w.
Proof.
  induction layers as [|blobs ls IH];
    intros pre names prev seen k w Hlen wl Hok Hk.
  - exists prev. subst wl. simpl. unfold ret.
    by rewrite Nat.add_0_r, Nat.sub_0_r.
  - destruct names as [|name ns]; [done|]. simpl in Hlen.
    cbn [for_fold]. unfold bind at 1. unfold copy_weight_step at 1.
    subst wl. cbn [weight_layers] in *.
    assert (Hnext : forall prev0 seen0 k0,
              Forall (fun x => blobs_ok (lib w) (snd x)) (weight_layers ls ns) ->
              (count_runs prev0 (map fst (weight_layers ls ns)) <= k0)%nat ->
              exists prev',
                for_fold (copy_weight_step (pre ++ name :: ns))
                         (S (length pre)) ls
                         (prev0, length seen0,
                          mxStruct d fnames (seen0 ++ replicate k0 unset)) w
                = if repeats prev0 (map fst (weight_layers ls ns)) then Undef
                  else Ret (prev',
                            (length seen0 + length (weight_layers ls ns))%nat,
                            mxStruct d fnames
                              (seen0 ++ map (weight_entry (lib w))
                                            (weight_layers ls ns)
                                     ++ replicate
                                          (k0 - length (weight_layers ls ns))
                                          unset)) w).
    { intros prev0 seen0 k0 ? ?.
      destruct (IH (pre ++ [name]) ns prev0 seen0 k0 w) as [prev' Hp];
        [lia|done..|].
      exists prev'. rewrite <- Hp. rewrite <- app_assoc. simpl.
      by rewrite length_app, Nat.add_1_r. }
    destruct (length blobs =? 0)%nat eqn:Hempty.
    + unfold ret at 1. by apply Hnext.
    + apply Forall_cons in Hok as [Hblobs Hok]. cbn [snd] in Hblobs.
      rewrite list_lookup_middle by done. cbn [defined].
      unfold bind at 1. unfold ret at 1.
      cbn [map fst count_runs repeats length] in *.
      destruct (String.eqb name prev); cbn [negb orb].
      * (* the name of the layer before: no cell array to fill *)
        exists prev. destruct blobs as [|p ps]; [done|].
        unfold bind at 1. by rewrite fill_layer_cells_NULL.
      * destruct k as [|k]; [simpl in Hk; lia|]. cbn [replicate].
        rewrite (mxSetField_at d fnames seen) by set_solver.
        cbn [defined]. unfold bind at 1. unfold ret at 1.
        rewrite (mxSetField_at d fnames seen) by set_solver.
        cbn [defined]. unfold bind at 1. unfold ret at 1.
        unfold bind at 1. rewrite fill_layer_cells_ok by done.
        cbn [defined]. unfold bind at 1. unfold ret at 1.
        rewrite (mxSetField_at d fnames seen) by set_solver.
        cbn [defined]. unfold bind at 1. unfold ret at 1. unfold ret at 1.
        set (entry := set_field "weights" _ (set_field "layer_names" _ _)).
        assert (Hentry : entry = weight_entry (lib w) (name, blobs))
          by reflexivity.
        rewrite Hentry.
        destruct (Hnext name (seen ++ [weight_entry (lib w) (name, blobs)]) k)
          as [prev' Hp]; [done|simpl in Hk; lia|].
        exists prev'.
        rewrite length_app, Nat.add_1_r in Hp.
        rewrite <- app_assoc in Hp. simpl in Hp. rewrite Hp.
        destruct (repeats name (map fst (weight_layers ls ns))); [done|].
        do 3 f_equal; [lia|]. by rewrite <- app_assoc.
Qed.

Lemma count_runs_le prev names : (count_runs prev names <= length names)%nat.
Proof.
  revert prev. induction names as [|name ns IH]; intros prev; simpl; [done|].
  specialize (IH name). destruct (String.eqb name prev); simpl; lia.
Qed.

(** [get_weights] on an initialized net whose layers all have a name
    and whose parameter blobs are live and well formed.  Step 1 counts
    the maximal runs of consecutive blob-bearing layers of one name
    (the first run continuing the empty name).  If every run is a
    single layer, the call returns the struct array with the fields
    "weights" and "layer_names" that has one entry per blob-bearing
    layer: the cell array of the 4-D single arrays of dimensions
    [width, height, channels, num] holding the data of its blobs, and
    its name.  If some run has a second layer, the call ends at that
    layer's first blob in [mxSetCell] on a NULL cell array. *)
Theorem get_weights_runs (w : W) (n : Net) :
  net_ w = Some n ->
  length (Net_layer_names n) = length (Net_layers n) ->
  let wl := weight_layers (Net_layers n) (Net_layer_names n) in
  Forall (fun x => blobs_ok (lib w) (snd x)) wl ->
  Z.of_nat (length wl) <= INT_MAX ->
  (exists prev,
     for_fold (count_weight_step (Net_layer_names n)) 0%nat (Net_layers n)
              ("", 0) w
     = Ret (prev, Z.of_nat (count_runs "" (map fst wl))) w) /\
  do_get_weights w
  = if repeats "" (map fst wl) then Undef
    else Ret (weight_struct (lib w) wl) w.
Proof.
  intros Hn Hlen wl Hok Hmax.
  pose proof (count_runs_le "" (map fst wl)) as Hle.
  rewrite length_map in Hle.
  destruct (count_loop (Net_layers n) [] (Net_layer_names n) "" 0 w Hlen)
    as [prev Hcount]; [done|fold wl; lia|].
  fold wl in Hcount. cbn [app length] in Hcount. rewrite Z.add_0_l in Hcount.
  split; [by exists prev|].
  unfold do_get_weights, the_net.
  unfold bind at 1 2. unfold get_net_ at 1. rewrite Hn. cbn [defined].
  unfold ret at 1. unfold count_weight_layers.
  unfold bind at 1 2. rewrite Hcount. unfold ret at 1. cbn [snd].
  set (k := count_runs "" (map fst wl)) in *.
  assert (Hdims : mxCreateStructArray [mwSize_of_int (Z.of_nat k); 1] fnames
                  = mxStruct [Z.of_nat k; 1] fnames ([] ++ replicate k unset)).
  { unfold mxCreateStructArray. rewrite mwSize_of_int_small by lia.
    cbn [dims_product foldr app map]. by rewrite !Z.mul_1_r, Nat2Z.id. }
  rewrite Hdims. unfold copy_weight_layers. unfold bind at 1.
  destruct (copy_weights_loop [Z.of_nat k; 1] (Net_layers n) []
              (Net_layer_names n) "" [] k w Hlen Hok) as [prev' Hcopy];
    [done|].
  fold wl in Hcopy. cbn [app length] in Hcopy. cbn [app length].
  rewrite Hcopy.
  destruct (repeats "" (map fst wl)) eqn:Hrep; [done|].
  unfold ret. cbn [snd]. unfold weight_struct.
  assert (Hk : k = length wl).
  { unfold k. rewrite count_runs_length by done. apply length_map. }
  rewrite Hk, Nat.sub_diag. cbn [replicate]. by rewrite app_nil_r.
Qed.

End Weights.

(** On the toy network, whose one blob-bearing layer "ip" owns a weight
    and a bias blob, [get_weights] returns one entry with two cells. *)
Lemma get_weights_runs_witness :
  do_get_weights Toy.w1
  = Ret (mxStruct [1; 1] ["weights"; "layer_names"]
           [[("weights",
              Some (mxCell [2; 1]
                      [Some (mxSingle [2; 2; 1; 1] (map Toy.fl [1; 2; 3; 4]));
                       Some (mxSingle [2; 1; 1; 1] (map Toy.fl [5; 6]))]));
             ("layer_names", Some (mxChar "ip"))]])
        Toy.w1.
Proof.
  assert (Hok : Forall (fun x => blobs_ok (lib Toy.w1) (snd x))
                  (weight_layers (Net_layers Toy.std_net)
                                 (Net_layer_names Toy.std_net))).
  { apply Forall_cons. split; [|by apply Forall_nil].
    apply Forall_cons. split; [|apply Forall_cons; split; [|by apply Forall_nil]].
    - exists (mkBlob 1 1 2 2 (map Toy.fl [1; 2; 3; 4]) (Toy.zeros 4)).
      split; [split; [discriminate | vm_compute; reflexivity]|].
      unfold blob_wf, count, INT_MAX. simpl. lia.
    - exists (mkBlob 1 1 1 2 (map Toy.fl [5; 6]) (Toy.zeros 2)).
      split; [split; [discriminate | vm_compute; reflexivity]|].
      unfold blob_wf, count, INT_MAX. simpl. lia. }
  assert (Hmax : Z.of_nat (length (weight_layers (Net_layers Toy.std_net)
                                     (Net_layer_names Toy.std_net)))
                 <= INT_MAX) by (vm_compute; discriminate).
  assert (Hlen : length (Net_layer_names Toy.std_net)
                 = length (Net_layers Toy.std_net)) by reflexivity.
  rewrite (proj2 (get_weights_runs Toy.w1 Toy.std_net eq_refl Hlen
                    Hok Hmax)).
  vm_compute. reflexivity.
Defined.

(** ** The input stage of [forward] *)

Section ForwardInputs.
Context {Net Internal PRNG : Type} {E : Engine Net Internal PRNG}.
Local Abbreviation W := (World Net Internal PRNG).

Lemma copy_input_cell_spec (w : W) bottom i p b c :
  mxGetCell bottom i = Some (mxSingle (fst c) (snd c)) -> fits c b ->
  blob_at (lib w) p b -> blob_wf b ->
  copy_input_cell bottom i p w
  = Ret tt (upd_lib w (with_blob (lib w) p (set_data b (snd c)))).
Proof.
  intros Hcell [Hdims Hpr] Hat Hwf. unfold copy_input_cell.
  rewrite Hcell. cbn [defined]. unfold bind at 1. unfold ret at 1.
  cbn [mxIsSingle CHECK]. unfold bind at 1. unfold ret at 1.
  rewrite (bind_Ret _ _ _ _ _ (deref_at w p b Hat)).
  pose proof (count_nonneg b Hwf) as Hc0.
  pose proof Hwf as (_ & _ & _ & _ & Hmax & _).
  rewrite mwSize_of_int_small by lia.
  unfold mxGetNumberOfElements. cbn [mxGetDimensions].
  rewrite Hdims, Z.eqb_refl. cbn [CHECK].
  unfold bind at 1. unfold ret at 1. cbn [mxGetPr_float defined].
  unfold bind at 1. unfold ret at 1.
  rewrite (copy_to_blob_data_at w p b (snd c)) by (try done; lia).
  rewrite firstn_all2 by lia. reflexivity.
Qed.

Lemma blob_at_other (l : Lib Internal) p b ps bs :
  Forall2 (blob_at l) ps bs -> p ∉ ps ->
  Forall2 (blob_at (with_blob l p b)) ps bs.
Proof.
  induction 1 as [|q b' ps bs [Hq Hb'] _ IH]; intros Hp; [constructor|].
  apply not_elem_of_cons in Hp as [Hne Hp].
  apply Forall2_cons. split; [|by apply IH].
  split; [done|]. simpl. by rewrite lookup_insert_ne.
Qed.

Lemma fill_loop bottom : forall ps cells bs j (w : W),
  (forall idx c, cells !! idx = Some c ->
     mxGetCell bottom (j + idx) = Some (mxSingle (fst c) (snd c))) ->
  Forall2 (blob_at (lib w)) ps bs -> Forall blob_wf bs -> NoDup ps ->
  Forall2 fits cells bs ->
  exists l',
    for_each (copy_input_cell bottom) j ps w = Ret tt (upd_lib w l') /\
    Forall2 (fun p cb => blob_at l' p (set_data (snd cb) (snd (fst cb))))
            ps (zip cells bs) /\
    (forall q, q ∉ ps -> blob_heap l' !! q = blob_heap (lib w) !! q).
Proof.
  induction ps as [|p ps IH]; intros cells bs j w Hcells Hat Hwf Hnd Hfit.
  - apply Forall2_nil_inv_l in Hat as ->.
    apply Forall2_nil_inv_r in Hfit as ->.
    exists (lib w). simpl. split; [by destruct w|]. split; [constructor|done].
  - apply Forall2_cons_inv_l in Hat as (b & bs' & Hb & Hat & ->).
    apply Forall2_cons_inv_r in Hfit as (c & cells' & Hc & Hfit & ->).
    apply Forall_cons in Hwf as [Hwfb Hwf].
    apply NoDup_cons in Hnd as [Hfresh Hnd].
    cbn [for_each]. unfold bind at 1.
    rewrite (copy_input_cell_spec w bottom j p b c); try done.
    2:{ specialize (Hcells 0%nat c eq_refl). by rewrite Nat.add_0_r in Hcells. }
    set (l1 := with_blob (lib w) p (set_data b (snd c))).
    destruct (IH cells' bs' (S j) (upd_lib w l1)) as (l' & Hrun & Hall & Hframe);
      try done.
    + intros idx c' Hc'. specialize (Hcells (S idx) c' Hc').
      by rewrite Nat.add_succ_r in Hcells.
    + cbn [upd_lib lib]. by apply blob_at_other.
    + exists l'. split; [|split].
      * rewrite Hrun. by destruct w.
      * cbn [zip zip_with]. apply Forall2_cons. split; [|done].
        destruct Hb as [Hp _]. split; [done|]. cbn [fst snd].
        rewrite (Hframe p Hfresh). cbn [upd_lib lib]. simpl.
        by rewrite lookup_insert_eq.
      * intros q Hq. apply not_elem_of_cons in Hq as [Hne Hq].
        rewrite (Hframe q Hq). cbn [upd_lib lib]. simpl.
        by rewrite lookup_insert_ne.
Qed.


End ForwardInputs.


(** ** What the commands leave alone *)

Ltac registered_entry :=
  unfold registered, handlers; simpl;
  repeat (apply elem_of_cons; first [left; reflexivity | right]).

Section CommandFrames.
Context {Net Internal PRNG : Type} {E : Engine Net Internal PRNG}.
Local Abbreviation W := (World Net Internal PRNG).
Local Abbreviation handler := (handler Net Internal PRNG).

Lemma handler_same_prng name (f : handler) nlhs args :
  (name, f) ∈ registered -> name <> "init" ->
  steps same_prng (fun _ => True) (f nlhs args).
Proof.
  unfold registered, handlers. simpl. intros Hin Hne.
  repeat (apply elem_of_cons in Hin as [Hin|Hin];
          [injection Hin as -> ->; try done;
           unfold_handlers; unfold_workers;
           steps_auto ltac:(intros; unfold same_prng in *; simpl;
                            first [exact I | congruence]) |]).
  by apply elem_of_nil in Hin.
Qed.

Lemma handler_unchanged name (f : handler) nlhs args :
  (name, f) ∈ registered -> name ∈ read_only_commands ->
  steps unchanged (fun _ => True) (f nlhs args).
Proof.
  unfold registered, handlers. simpl. intros Hin Hro.
  repeat (apply elem_of_cons in Hin as [Hin|Hin];
          [injection Hin as -> ->;
           first [ exfalso; revert Hro; unfold read_only_commands;
                   rewrite !elem_of_cons, elem_of_nil; intuition discriminate
                 | unfold_handlers; unfold_workers;
                   steps_auto ltac:(intros; unfold unchanged in *; simpl;
                                    first [exact I | congruence]) ] |]).
  by apply elem_of_nil in Hin.
Qed.

Lemma steps_survives {A} (T : W -> W -> Prop) P (m : M W A) (w w' : W) :
  steps T P m -> survives (m w) = Some w' -> T w w'.
Proof.
  intros Hm Hs. specialize (Hm w).
  destruct (m w) as [a w1|msg w1|msg|]; simpl in Hs; try done;
    injection Hs as <-; [done|by destruct Hm].
Qed.

Lemma command_of_cons prhs c :
  command_of prhs = Some c -> exists args, prhs = mxChar c :: args.
Proof.
  destruct prhs as [|a args]; [done|]. unfold command_of. simpl.
  destruct a; try done. intros [= ->]. by exists args.
Qed.

Lemma is_command_false name prhs c :
  is_command name prhs = false -> command_of prhs = Some c -> c <> name.
Proof.
  unfold is_command. intros H Hc. rewrite Hc in H.
  by apply String.eqb_neq.
Qed.

(** What a call leaves alone, whenever the process survives it.  Only
    [init] draws from [random()].  Only [init] and [reset] change
    whether the handle is set, or the key.  The commands
    [is_initialized], [get_init_key], [get_weights], [get_blobs] and
    [read_mean] change nothing at all, whatever their arguments and
    whether they return or raise an error.  The four setters change
    nothing but the mode and the phase of the library. *)
Theorem commands_leave_alone nlhs prhs (w w' : W) :
  survives (mexFunction nlhs prhs w) = Some w' ->
  (is_command "init" prhs = false -> prng w' = prng w) /\
  (is_command "init" prhs = false -> is_command "reset" prhs = false ->
   is_set (net_ w') = is_set (net_ w) /\ init_key w' = init_key w) /\
  (forall c, command_of prhs = Some c -> c ∈ read_only_commands -> w' = w) /\
  (forall c, command_of prhs = Some c -> c ∈ setter_commands ->
     net_ w' = net_ w /\ init_key w' = init_key w /\ prng w' = prng w /\
     deleted w' = deleted w /\ same_but_mode (lib w) (lib w')).
Proof.
  intros Hs. split; [|split; [|split]].
  - intros Hi.
    apply (steps_survives same_prng (fun _ => True) (mexFunction nlhs prhs) w w'); [|done].
    apply (steps_mexFunction _ (fun c => c <> "init")); [done| |].
    + intros c f Hin Hc. by apply (handler_same_prng c).
    + intros c Hc. by apply (is_command_false _ prhs).
  - intros Hi Hr.
    apply (steps_survives keeps_handle (fun _ => True) (mexFunction nlhs prhs) w w'); [|done].
    apply (steps_mexFunction _ (fun c => c <> "init" /\ c <> "reset"));
      [done| |].
    + intros c f Hin [Hc1 Hc2]. by apply (handler_keeps_handle c).
    + intros c Hc. split; by apply (is_command_false _ prhs).
  - intros c Hc Hro.
    apply (steps_survives unchanged (fun _ => True) (mexFunction nlhs prhs) w w'); [|done].
    apply (steps_mexFunction _ (fun c => c ∈ read_only_commands)); [done| |].
    + intros c' f Hin Hc'. by apply (handler_unchanged c').
    + intros c' Hc'. congruence.
  - intros c Hc Hset. apply command_of_cons in Hc as [args ->].
    unfold setter_commands in Hset.
    rewrite !elem_of_cons, elem_of_nil in Hset.
    destruct Hset as [->|[->|[->|[->|[]]]]].
    + rewrite (mexFunction_registered _ _ _ set_mode_cpu) in Hs
        by registered_entry.
      injection Hs as <-. by repeat split.
    + rewrite (mexFunction_registered _ _ _ set_mode_gpu) in Hs
        by registered_entry.
      injection Hs as <-. by repeat split.
    + rewrite (mexFunction_registered _ _ _ set_phase_train) in Hs
        by registered_entry.
      injection Hs as <-. by repeat split.
    + rewrite (mexFunction_registered _ _ _ set_phase_test) in Hs
        by registered_entry.
      injection Hs as <-. by repeat split.
Qed.

End CommandFrames.

(** A [get_weights] on the toy network returns and leaves the world
    as it was. *)
Lemma commands_leave_alone_witness :
  survives (mexFunction 1 [mxChar "get_weights"] Toy.w1) = Some Toy.w1 /\
  prng Toy.w1 = prng Toy.w1.
Proof.
  assert (Hs : survives (mexFunction 1 [mxChar "get_weights"] Toy.w1)
               = Some Toy.w1) by (vm_compute; reflexivity).
  split; [exact Hs|].
  exact (proj1 (commands_leave_alone 1 [mxChar "get_weights"] Toy.w1 Toy.w1 Hs)
               eq_refl).
Defined.

(** ** Argument counts and the missing net *)

Section Arguments.
Context {Net Internal PRNG : Type} {E : Engine Net Internal PRNG}.
Local Abbreviation W := (World Net Internal PRNG).
Local Abbreviation handler := (handler Net Internal PRNG).

Lemma expect_nrhs_wrong {A} args k (rest : M W A) (w : W) :
  nrhs args <> k ->
  bind (expect_nrhs args k) (fun _ => rest) w
  = MexErr "Wrong number of arguments" w.
Proof.
  intros Hne. unfold expect_nrhs, bind.
  by destruct (Z.eqb_spec (nrhs args) k).
Qed.

Lemma expect_nrhs_right {A} args k (rest : M W A) (w : W) :
  nrhs args = k ->
  bind (expect_nrhs args k) (fun _ => rest) w = rest w.
Proof.
  intros He. unfold expect_nrhs, bind. by rewrite He, Z.eqb_refl.
Qed.

(** The commands that check the number of their arguments raise an
    error over any other number, before they look at an argument or at
    the net, and leave the state as it was.  The other commands never
    look at their arguments, nor at [nlhs]. *)
Theorem argument_count_is_checked_first nlhs c args (w : W) :
  (forall k, (c, k) ∈ argument_counts -> nrhs args <> k ->
     mexFunction nlhs (mxChar c :: args) w
     = MexErr (wrong_count_message c) w) /\
  (c ∈ command_names (E:=E) -> c ∉ map fst argument_counts ->
     mexFunction nlhs (mxChar c :: args) w = mexFunction 0 [mxChar c] w).
Proof.
  split.
  - intros k Hin Hne. unfold argument_counts in Hin.
    rewrite !elem_of_cons, elem_of_nil in Hin.
    destruct Hin as [Hin|[Hin|[Hin|[Hin|[Hin|[Hin|[Hin|[]]]]]]]];
      injection Hin as -> ->.
    + rewrite (mexFunction_registered _ _ _ forward) by registered_entry.
      by apply expect_nrhs_wrong.
    + rewrite (mexFunction_registered _ _ _ backward) by registered_entry.
      by apply expect_nrhs_wrong.
    + rewrite (mexFunction_registered _ _ _ get_gradients) by registered_entry.
      by apply expect_nrhs_wrong.
    + rewrite (mexFunction_registered _ _ _ get_features) by registered_entry.
      by apply expect_nrhs_wrong.
    + rewrite (mexFunction_registered _ _ _ init) by registered_entry.
      by apply expect_nrhs_wrong.
    + rewrite (mexFunction_registered _ _ _ set_device) by registered_entry.
      by apply expect_nrhs_wrong.
    + rewrite (mexFunction_registered _ _ _ read_mean) by registered_entry.
      unfold read_mean. by destruct (Z.eqb_spec (nrhs args) 1).
  - intros Hin Hnc.
    apply registered_lookup in Hin as [f Hin].
    rewrite (mexFunction_registered nlhs c args f w Hin).
    rewrite (mexFunction_registered 0 c [] f w Hin).
    revert Hin Hnc. unfold registered, handlers, argument_counts. simpl.
    intros Hin Hnc.
    repeat (apply elem_of_cons in Hin as [Hin|Hin];
            [injection Hin as -> ->;
             first [ exfalso; apply Hnc; set_solver | reflexivity ] |]).
    by apply elem_of_nil in Hin.
Qed.

(** Before [init], and after [reset], the commands [forward],
    [backward], [get_weights] and [get_blobs] do not raise an error:
    they go through the null handle. *)
Theorem unchecked_commands_use_the_null_handle nlhs c args (w : W) :
  net_ w = None ->
  c = "get_weights" \/ c = "get_blobs" \/
  ((c = "forward" \/ c = "backward") /\ length args = 1%nat) ->
  mexFunction nlhs (mxChar c :: args) w = Undef.
Proof.
  intros Hn [->|[->|[[->| ->] Hlen]]].
  - rewrite (mexFunction_registered _ _ _ get_weights) by registered_entry.
    unfold get_weights, do_get_weights, the_net, bind, get_net_.
    by rewrite Hn.
  - rewrite (mexFunction_registered _ _ _ get_blobs) by registered_entry.
    unfold get_blobs, do_get_blobs, the_net, bind, get_net_.
    by rewrite Hn.
  - rewrite (mexFunction_registered _ _ _ forward) by registered_entry.
    destruct args as [|a [|? ?]]; try done.
    unfold forward. rewrite expect_nrhs_right by done.
    unfold do_forward, fill_input_blobs, the_net, bind, get_net_. simpl.
    by rewrite Hn.
  - rewrite (mexFunction_registered _ _ _ backward) by registered_entry.
    destruct args as [|a [|? ?]]; try done.
    unfold backward. rewrite expect_nrhs_right by done.
    unfold do_backward, fill_output_diffs, the_net, bind, get_net_. simpl.
    by rewrite Hn.
Qed.

End Arguments.

Lemma argument_count_is_checked_first_witness :
  mexFunction 1 [mxChar "get_features"; Toy.bottom] Toy.w0
  = MexErr "Wrong number of arguments" Toy.w0 /\
  mexFunction 1 [mxChar "get_blobs"; Toy.bottom] Toy.w1
  = mexFunction 0 [mxChar "get_blobs"] Toy.w1.
Proof.
  split.
  - apply (proj1 (argument_count_is_checked_first 1 "get_features"
                    [Toy.bottom] Toy.w0) 2).
    + unfold argument_counts. set_solver.
    + vm_compute. discriminate.
  - apply (proj2 (argument_count_is_checked_first 1 "get_blobs"
                    [Toy.bottom] Toy.w1)).
    + apply (bool_decide_unpack _). by vm_compute.
    + apply (bool_decide_unpack _). by vm_compute.
Defined.

Lemma unchecked_commands_use_the_null_handle_witness :
  mexFunction 1 [mxChar "forward"; Toy.bottom] Toy.w0 = Undef.
Proof.
  apply unchecked_commands_use_the_null_handle; [reflexivity|].
  right. right. split; [by left|reflexivity].
Defined.

(** ** [get_blobs] *)

Section Blobs.
Context {Net Internal PRNG : Type} {E : Engine Net Internal PRNG}.
Local Abbreviation W := (World Net Internal PRNG).

Local Abbreviation blob_fields := ["diff"; "data"; "blob_names"].
Local Abbreviation no_fields :=
  [("diff", None); ("data", None); ("blob_names", None)].

Lemma blobs_loop d : forall names pre rest seen k (w : W),
  (length names <= length rest)%nat ->
  blobs_ok (lib w) (take (length names) rest) ->
  (length names <= k)%nat ->
  for_fold (fun i name (st : nat * mxArray) =>
              let '(mx_layer_index, mx_layers) := st in
              bind (defined ((pre ++ rest) !! i)) (fun p =>
              bind (mx_blob_of data p) (fun mx_data =>
              bind (mx_blob_of diff p) (fun mx_diff =>
              bind (defined (mxSetField mx_layers mx_layer_index "data" mx_data))
                   (fun l1 =>
              bind (defined (mxSetField l1 mx_layer_index "diff" mx_diff))
                   (fun l2 =>
              bind (defined (mxSetField l2 mx_layer_index "blob_names"
                                        (mxCreateString name)))
                   (fun l3 => ret (S mx_layer_index, l3))))))))
           (length pre) names
           (length seen, mxStruct d blob_fields (seen ++ replicate k no_fields))
           w
  = Ret ((length seen + length names)%nat,
         mxStruct d blob_fields
           (seen ++ zip_with (blob_entry (lib w)) rest names
                 ++ replicate (k - length names) no_fields)) w.
Proof.
  induction names as [|name names IH]; intros pre rest seen k w Hlen Hok Hk.
  - simpl. unfold ret. rewrite Nat.add_0_r, Nat.sub_0_r.
    by destruct rest.
  - destruct rest as [|p rest]; [simpl in Hlen; lia|].
    destruct k as [|k]; [simpl in Hk; lia|].
    cbn [length take] in Hok. apply Forall_cons in Hok as [(b & Hat & Hwf) Hok].
    cbn [for_fold]. unfold bind at 1.
    rewrite list_lookup_middle by done. cbn [defined].
    unfold bind at 1. unfold ret at 1. unfold bind at 1.
    rewrite (mx_blob_of_at data w p b Hat Hwf (data_length b Hwf)).
    unfold bind at 1.
    rewrite (mx_blob_of_at diff w p b Hat Hwf (diff_length b Hwf)).
    cbn [replicate].
    rewrite (mxSetField_at d blob_fields seen) by set_solver.
    cbn [defined]. unfold bind at 1. unfold ret at 1.
    rewrite (mxSetField_at d blob_fields seen) by set_solver.
    cbn [defined]. unfold bind at 1. unfold ret at 1.
    rewrite (mxSetField_at d blob_fields seen) by set_solver.
    cbn [defined]. unfold bind at 1. unfold ret at 1. unfold ret at 1.
    set (entry := set_field "blob_names" _ _).
    assert (Hentry : entry = blob_entry (lib w) p name).
    { unfold entry, blob_entry. destruct Hat as [_ Hb]. rewrite Hb.
      reflexivity. }
    rewrite Hentry.
    pose proof (IH (pre ++ [p]) rest (seen ++ [blob_entry (lib w) p name]) k w)
      as Hnext.
    rewrite !length_app, !Nat.add_1_r in Hnext.
    rewrite <- !app_assoc in Hnext. cbn [app] in Hnext.
    rewrite Hnext; [|simpl in Hlen; lia|done|simpl in Hk; lia].
    cbn [zip_with length]. do 2 f_equal. lia.
Qed.

(** [get_blobs] on an initialized net whose blobs are live and well
    formed and all have a name: the struct array with the fields
    "diff", "data" and "blob_names" that has one entry per blob name,
    in the order of the names; entry [i] holds the diff and the data of
    blob [i] as 4-D single arrays of dimensions
    [width, height, channels, num] and the name [i]. *)
Theorem get_blobs_struct (w : W) (n : Net) :
  net_ w = Some n ->
  (length (Net_blob_names n) <= length (Net_blobs n))%nat ->
  blobs_ok (lib w) (take (length (Net_blob_names n)) (Net_blobs n)) ->
  Z.of_nat (length (Net_blob_names n)) <= INT_MAX ->
  do_get_blobs w
  = Ret (mxStruct [Z.of_nat (length (Net_blob_names n)); 1]
                  ["diff"; "data"; "blob_names"]
                  (zip_with (blob_entry (lib w)) (Net_blobs n)
                            (Net_blob_names n))) w.
Proof.
  intros Hn Hlen Hok Hmax. unfold do_get_blobs, the_net.
  unfold bind at 1 2. unfold get_net_ at 1. rewrite Hn. cbn [defined].
  unfold ret at 1.
  set (k := length (Net_blob_names n)) in *.
  assert (Hdims : mxCreateStructArray
                    [mwSize_of_int (wrap_int (Z.of_nat k)); 1] blob_fields
                  = mxStruct [Z.of_nat k; 1] blob_fields
                             ([] ++ replicate k no_fields)).
  { unfold mxCreateStructArray.
    rewrite wrap_int_small by (unfold INT_MIN; lia).
    rewrite mwSize_of_int_small by lia.
    cbn [dims_product foldr app map]. by rewrite !Z.mul_1_r, Nat2Z.id. }
  rewrite Hdims. unfold bind at 1.
  pose proof (blobs_loop [Z.of_nat k; 1] (Net_blob_names n) [] (Net_blobs n)
                [] k w Hlen Hok ltac:(done)) as Hloop.
  cbn [app length] in Hloop. cbn [app length]. rewrite Hloop.
  unfold ret. cbn [snd]. fold k. rewrite Nat.sub_diag. cbn [replicate].
  by rewrite app_nil_r.
Qed.

End Blobs.

(** The two blobs of the toy network, "data" and "prob". *)
Lemma get_blobs_struct_witness :
  exists entries,
    do_get_blobs Toy.w1
    = Ret (mxStruct [2; 1] ["diff"; "data"; "blob_names"] entries) Toy.w1 /\
    map (fun e => e !! 2%nat) entries
    = [Some ("blob_names", Some (mxChar "data"));
       Some ("blob_names", Some (mxChar "prob"))].
Proof.
  assert (Hok : blobs_ok (lib Toy.w1)
                  (take (length (Net_blob_names Toy.std_net))
                        (Net_blobs Toy.std_net))).
  { apply Forall_cons. split; [|apply Forall_cons; split; [|by apply Forall_nil]].
    - exists (Toy.blob3 (Toy.zeros 6) (Toy.zeros 6)).
      split; [split; [discriminate | vm_compute; reflexivity]|].
      apply toy_blob3_wf; reflexivity.
    - exists (Toy.blob3 (Toy.zeros 6) (Toy.zeros 6)).
      split; [split; [discriminate | vm_compute; reflexivity]|].
      apply toy_blob3_wf; reflexivity. }
  assert (Hlen : (length (Net_blob_names Toy.std_net)
                  <= length (Net_blobs Toy.std_net))%nat)
    by (vm_compute; lia).
  assert (Hmax : Z.of_nat (length (Net_blob_names Toy.std_net)) <= INT_MAX)
    by (vm_compute; discriminate).
  eexists. split.
  - exact (get_blobs_struct Toy.w1 Toy.std_net eq_refl Hlen Hok Hmax).
  - reflexivity.
Defined.

(** ** [get_features] and the engine's verdict in [get_gradients] *)

Section EngineVerdict.
Context {Net Internal PRNG : Type} {E : Engine Net Internal PRNG}.
Local Abbreviation W := (World Net Internal PRNG).

Local Abbreviation failed :=
  "Error while calculating. Probably a layer with that name does not exist.".

(** [get_features], once its input stage has completed and the engine
    has returned from [GetFeaturesPrefilled]: a status other than 0
    raises the error, with the inputs copied and the engine's state as
    the call left it; the status 0 returns the cell array whose cell
    [i] is the 4-D single array of dimensions
    [width, height, channels, num] holding the data of the blob [i] the
    engine handed over.  In neither case does the bridge delete a blob
    it was handed. *)
Theorem get_features_returns_engine_blobs
    (w w1 : W) (n n2 : Net) (l2 : Lib Internal) (bottom layername : mxArray)
    (name : string) (status : Z) (outs : list ptr) :
  net_ w = Some n ->
  copy_checked_inputs bottom w = Ret tt w1 ->
  mxArrayToString layername = Some name ->
  Net_GetFeaturesPrefilled name n (lib w1) = Some (status, outs, n2, l2) ->
  let w2 := mkWorld (Some n2) (init_key w) l2 (prng w) (deleted w) in
  (status <> 0 -> do_get_features bottom layername w = MexErr failed w2) /\
  (status = 0 -> blobs_ok l2 outs ->
   do_get_features bottom layername w
   = Ret (mxCell [Z.of_nat (length outs); 1] (cells_of data l2 outs)) w2).
Proof.
  intros Hn Hin Hname Hcall w2.
  pose proof (only_lib_copy_checked_inputs bottom w) as Hw1.
  rewrite Hin in Hw1. unfold only_lib in Hw1.
  assert (Hn1 : net_ w1 = Some n) by (by rewrite Hw1).
  assert (Hstart : do_get_features bottom layername w
                   = bind (when_ (negb (status =? 0)) (mexErrMsgTxt failed))
                          (fun _ => cell_of_blobs data outs) w2).
  { unfold do_get_features.
    unfold bind at 1. unfold get_net_ at 1. rewrite Hn.
    cbn [is_set negb when_]. unfold bind at 1. unfold ret at 1.
    rewrite (bind_Ret _ _ _ _ _ Hin).
    rewrite Hname. cbn [defined]. unfold bind at 1. unfold ret at 1.
    rewrite (bind_Ret _ _ _ _ _
               (net_call_Some _ w1 n (status, outs) n2 l2 Hn1 Hcall)).
    subst w2. rewrite Hw1. reflexivity. }
  rewrite Hstart. split.
  - intros Hs. unfold bind.
    by destruct (Z.eqb_spec status 0).
  - intros -> Hok. cbn [Z.eqb negb when_]. unfold bind at 1. unfold ret at 1.
    by apply cell_of_blobs_ok; [apply data_length|].
Qed.

(** [get_gradients] up to the engine's answer. *)
Lemma do_get_gradients_engine
    (w w1 : W) (n n2 : Net) (l2 : Lib Internal)
    (bottom layername channel_ids : mxArray) (name : string)
    (top : ptr) (top_blob : Blob) (status : Z) (outs : list ptr) :
  let ids := supplied_ids channel_ids in
  let k := Z.of_nat (length ids) in
  net_ w = Some n ->
  is_id_array channel_ids ->
  existsb strictly_negative ids = false ->
  ids <> [] ->
  copy_checked_inputs bottom w = Ret tt w1 ->
  mxArrayToString layername = Some name ->
  Net_top_vecs n !! 0%nat ≫= (.!! 0%nat) = Some top ->
  blob_at (lib w1) top top_blob ->
  Net_CalcGradientsPrefilled name (map convert_channel ids) n (lib w1)
    = Some (status, outs, n2, l2) ->
  do_get_gradients bottom layername channel_ids w
  = bind (if negb (status =? 0) then mexErrMsgTxt failed
          else copy_gradients k (num top_blob) outs)
         (fun st => bind (remove_temp_blobs outs)
                         (fun _ => defined (mx_out st)))
         (mkWorld (Some n2) (init_key w) l2 (prng w) (deleted w)).
Proof.
  intros ids k Hn Hids Hneg Hne Hin Hname Htop Htopb Hcalc.
  pose proof (only_lib_copy_checked_inputs bottom w) as Hw1.
  rewrite Hin in Hw1. unfold only_lib in Hw1.
  assert (Hn1 : net_ w1 = Some n) by (by rewrite Hw1).
  assert (Hk : 1 <= k) by (subst k; destruct ids; [done|simpl; lia]).
  unfold do_get_gradients.
  unfold bind at 1. unfold get_net_ at 1. rewrite Hn. cbn [is_set negb when_].
  unfold bind at 1. unfold ret at 1.
  unfold bind at 1. rewrite read_channel_ids_spec by done.
  fold ids. rewrite Hneg. rewrite length_map. fold k.
  destruct (Z.ltb_spec k 1); [lia|]. cbn [when_].
  unfold bind at 1. unfold ret at 1.
  rewrite (bind_Ret _ _ _ _ _ Hin).
  unfold the_net at 1. unfold bind at 1 2. unfold get_net_ at 1.
  rewrite Hn1. cbn [defined]. unfold ret at 1.
  rewrite Htop. cbn [defined]. unfold bind at 1. unfold ret at 1.
  rewrite (bind_Ret _ _ _ _ _ (deref_at w1 top top_blob Htopb)).
  rewrite Hname. cbn [defined]. unfold bind at 1. unfold ret at 1.
  rewrite (bind_Ret _ _ _ _ _
             (net_call_Some _ w1 n (status, outs) n2 l2 Hn1 Hcalc)).
  cbn [fst snd]. rewrite Hw1. reflexivity.
Qed.

Lemma final_left_short B bs :
  0 <= B <= INT_MAX ->
  forall left, 0 <= left <= INT_MAX ->
  Z.of_nat (length bs) * B <= left ->
  final_left B bs left = left - Z.of_nat (length bs) * B.
Proof.
  intros HB. induction bs as [|b bs IH]; intros left Hl Hle.
  - simpl. lia.
  - cbn [final_left]. unfold int_sub. cbn [length] in Hle.
    rewrite Nat2Z.inj_succ in Hle.
    rewrite wrap_int_small by (unfold INT_MIN, INT_MAX in *; lia).
    assert (0 <= Z.of_nat (length bs) * B) by (apply Z.mul_nonneg_nonneg; lia).
    rewrite IH by lia. cbn [length]. lia.
Qed.

(** When the engine reports a failure, [get_gradients] raises the error
    and skips the deletion of the blobs the engine handed over: they
    stay in the heap, and the inputs have been overwritten.  When the
    engine reports success but hands over too few blobs for the [k]
    channels asked for, the [CHECK_EQ] on the number of copied elements
    fails and the process is aborted; with no blob at all the call
    reads [output_blobs[0]] of an empty vector. *)
Theorem get_gradients_engine_verdict
    (w w1 : W) (n n2 : Net) (l2 : Lib Internal)
    (bottom layername channel_ids : mxArray) (name : string)
    (top : ptr) (top_blob : Blob) (status : Z) (outs : list ptr)
    (bs : list Blob) :
  let ids := supplied_ids channel_ids in
  let k := Z.of_nat (length ids) in
  let B := num top_blob in
  net_ w = Some n ->
  is_id_array channel_ids ->
  existsb strictly_negative ids = false ->
  ids <> [] ->
  copy_checked_inputs bottom w = Ret tt w1 ->
  mxArrayToString layername = Some name ->
  Net_top_vecs n !! 0%nat ≫= (.!! 0%nat) = Some top ->
  blob_at (lib w1) top top_blob ->
  Net_CalcGradientsPrefilled name (map convert_channel ids) n (lib w1)
    = Some (status, outs, n2, l2) ->
  (status <> 0 ->
   do_get_gradients bottom layername channel_ids w
   = MexErr failed (mkWorld (Some n2) (init_key w) l2 (prng w) (deleted w))) /\
  (status = 0 -> outs = [] ->
   do_get_gradients bottom layername channel_ids w = Undef) /\
  (status = 0 ->
   forall b0 bs',
   bs = b0 :: bs' ->
   Forall2 (blob_at l2) outs bs ->
   Forall (fun b => blob_wf b /\ num b = B /\ channels b = channels b0 /\
                    height b = height b0 /\ width b = width b0) bs ->
   k <= INT_MAX ->
   width b0 * height b0 <= INT_MAX ->
   0 < width b0 * height b0 * channels b0 ->
   width b0 * height b0 * channels b0 * k <= INT_MAX ->
   Z.of_nat (length bs) * B < k ->
   aborts (do_get_gradients bottom layername channel_ids w)).
Proof.
  intros ids k B Hn Hids Hneg Hne Hin Hname Htop Htopb Hcalc.
  rewrite (do_get_gradients_engine w w1 n n2 l2 bottom layername channel_ids
             name top top_blob status outs Hn Hids Hneg Hne Hin Hname Htop
             Htopb Hcalc).
  fold ids k B.
  assert (Hk1 : 1 <= k) by (subst k; destruct ids; [done|simpl; lia]).
  split; [|split].
  - intros Hs. unfold bind. by destruct (Z.eqb_spec status 0).
  - intros -> ->. reflexivity.
  - intros -> b0 bs' -> Hat Hpb Hkmax HWH HP HPk Hshort.
    cbn [Z.eqb negb].
    apply Forall2_cons_inv_r in Hat as (p0 & ps & Hp0 & Hat & ->).
    set (w2 := mkWorld (Some n2) (init_key w) l2 (prng w) (deleted w)).
    assert (Hat2 : Forall2 (blob_at (lib w2)) (p0 :: ps) (b0 :: bs'))
      by (by apply Forall2_cons).
    pose proof (proj1 (Forall_cons _ _ _) Hpb) as [Hpb0 _].
    pose proof Hpb0 as (Hwf0 & HnB & _).
    assert (Hk : 1 <= k <= INT_MAX) by lia.
    assert (HWH0 : 0 <= width b0 * height b0 <= INT_MAX).
    { destruct Hwf0 as (_ & _ & HH & HW & _). split; [nia|done]. }
    assert (HP0 : 0 <= width b0 * height b0 * channels b0) by lia.
    assert (HB : 0 <= B <= INT_MAX).
    { destruct Hwf0 as (HN & _). by rewrite <- HnB. }
    pose proof (gradients_loop_first k B (width b0) (height b0) (channels b0)
                  Hk HWH0 HP0 HPk w2 p0 b0 ps bs' Hat2 Hpb) as Hloop.
    rewrite (final_left_short B (b0 :: bs') HB k) in Hloop by lia.
    unfold bind at 1. unfold copy_gradients.
    rewrite (bind_Ret _ _ _ _ _ Hloop).
    cbn [lookup list_lookup defined]. unfold bind at 1. unfold ret at 1.
    rewrite (bind_Ret _ _ _ _ _ (deref_at w2 p0 b0 (conj (proj1 Hp0) (proj2 Hp0)))).
    pose proof (P0_small k (width b0) (height b0) (channels b0) Hk HP0 HPk)
      as HP0s.
    assert (Hexp : expected_elements b0 k
                   = width b0 * height b0 * channels b0 * k).
    { unfold expected_elements.
      rewrite (int_mul_small (width b0) (height b0)) by done.
      rewrite (int_mul_small (width b0 * height b0) (channels b0)) by done.
      rewrite mwSize_of_int_small by done.
      apply Z.mod_small. unfold INT_MAX in *. nia. }
    rewrite Hexp. unfold copied_state. cbn [data_copied].
    set (m := Z.of_nat (length (b0 :: bs')) * B) in *.
    assert (Hm : 0 <= m) by (apply Z.mul_nonneg_nonneg; lia).
    replace (k - (k - m)) with m by lia.
    assert (Hsmall : 0 <= width b0 * height b0 * channels b0 * m
                     < width b0 * height b0 * channels b0 * k) by nia.
    rewrite mwSize_of_int_small by lia.
    destruct (Z.eqb_spec (width b0 * height b0 * channels b0 * m)
                         (width b0 * height b0 * channels b0 * k)); [lia|].
    by eexists.
Qed.

End EngineVerdict.

(** On the toy network, [get_features] of the layer "ip" returns the
    image, and of a layer the engine does not know raises the error
    with the image already in the input blob. *)
Lemma get_features_returns_engine_blobs_witness :
  do_get_features Toy.bottom (mxChar "ip") Toy.w1
  = Ret (mxCell [1; 1] [Some Toy.image]) Toy.w1_forwarded /\
  do_get_features Toy.bottom (mxChar "fc9") Toy.w1
  = MexErr "Error while calculating. Probably a layer with that name does not exist."
           Toy.w1_filled.
Proof.
  assert (Hin : copy_checked_inputs Toy.bottom Toy.w1 = Ret tt Toy.w1_filled)
    by (vm_compute; reflexivity).
  split.
  - assert (Hcall : Net_GetFeaturesPrefilled "ip" Toy.std_net
                      (lib Toy.w1_filled)
                    = Some (0, [2%N], Toy.std_net, Toy.lib_forwarded))
      by (vm_compute; reflexivity).
    assert (Hok : blobs_ok Toy.lib_forwarded [2%N]).
    { apply Forall_cons. split; [|by apply Forall_nil].
      exists (Toy.blob3 (map Toy.fl [1; 2; 3; 4; 5; 6]) (Toy.zeros 6)).
      split; [split; [discriminate | vm_compute; reflexivity]|].
      apply toy_blob3_wf; reflexivity. }
    exact (proj2 (get_features_returns_engine_blobs Toy.w1 Toy.w1_filled
                    Toy.std_net Toy.std_net Toy.lib_forwarded Toy.bottom
                    (mxChar "ip") "ip" 0 [2%N] eq_refl Hin eq_refl Hcall)
                 eq_refl Hok).
  - assert (Hcall : Net_GetFeaturesPrefilled "fc9" Toy.std_net
                      (lib Toy.w1_filled)
                    = Some (1, [], Toy.std_net, Toy.lib_filled))
      by (vm_compute; reflexivity).
    exact (proj1 (get_features_returns_engine_blobs Toy.w1 Toy.w1_filled
                    Toy.std_net Toy.std_net Toy.lib_filled Toy.bottom
                    (mxChar "fc9") "fc9" 1 [] eq_refl Hin eq_refl Hcall)
                 ltac:(discriminate)).
Defined.

(** With the engine that hands over one blob of two channels: a layer
    it does not know leaves that blob in the heap, undeleted; the three
    channels 0, 1, 2 of the layer "ip" abort the process. *)
Lemma get_gradients_engine_verdict_witness :
  let w2 := mkWorld (Some Toy.std_net) (init_key Toy.w1) Stingy.lib_one_blob
                    (prng Toy.w1) [] in
  do_get_gradients (E:=Stingy.engine) Toy.bottom (mxChar "fc9")
                   Toy.ids_array Toy.w1
  = MexErr "Error while calculating. Probably a layer with that name does not exist."
           w2 /\
  blob_heap (lib w2) !! 100%N = Some (Toy.grad_blob 0) /\
  aborts (do_get_gradients (E:=Stingy.engine) Toy.bottom (mxChar "ip")
                           Toy.ids_array Toy.w1).
Proof.
  intros w2.
  assert (Hin : copy_checked_inputs (E:=Stingy.engine) Toy.bottom Toy.w1
                = Ret tt Toy.w1_filled) by (vm_compute; reflexivity).
  assert (Hids : is_id_array Toy.ids_array) by (vm_compute; discriminate).
  assert (Hneg : existsb strictly_negative (supplied_ids Toy.ids_array) = false)
    by (vm_compute; reflexivity).
  assert (Hne : supplied_ids Toy.ids_array <> []) by (vm_compute; discriminate).
  assert (Htopb : blob_at (lib Toy.w1_filled) 2%N
                    (Toy.blob3 (Toy.zeros 6) (Toy.zeros 6)))
    by (split; [discriminate | vm_compute; reflexivity]).
  split; [|split].
  - assert (Hcalc : Net_CalcGradientsPrefilled (Engine:=Stingy.engine) "fc9"
                      (map convert_channel (supplied_ids Toy.ids_array))
                      Toy.std_net (lib Toy.w1_filled)
                    = Some (1, [100%N], Toy.std_net, Stingy.lib_one_blob))
      by (vm_compute; reflexivity).
    exact (proj1 (get_gradients_engine_verdict (E:=Stingy.engine)
                    Toy.w1 Toy.w1_filled Toy.std_net Toy.std_net
                    Stingy.lib_one_blob Toy.bottom (mxChar "fc9")
                    Toy.ids_array "fc9" 2%N
                    (Toy.blob3 (Toy.zeros 6) (Toy.zeros 6)) 1 [100%N] []
                    eq_refl Hids Hneg Hne Hin eq_refl eq_refl Htopb Hcalc)
                 ltac:(discriminate)).
  - vm_compute. reflexivity.
  - assert (Hcalc : Net_CalcGradientsPrefilled (Engine:=Stingy.engine) "ip"
                      (map convert_channel (supplied_ids Toy.ids_array))
                      Toy.std_net (lib Toy.w1_filled)
                    = Some (0, [100%N], Toy.std_net, Stingy.lib_one_blob))
      by (vm_compute; reflexivity).
    assert (Hat : Forall2 (blob_at Stingy.lib_one_blob) [100%N]
                    [Toy.grad_blob 0]).
    { apply Forall2_cons; split; [|constructor].
      split; [discriminate | vm_compute; reflexivity]. }
    assert (Hpb : Forall (fun b => blob_wf b /\ num b = 2 /\
                                   channels b = 1 /\ height b = 1 /\
                                   width b = 3) [Toy.grad_blob 0]).
    { apply Forall_cons; split; [|by apply Forall_nil].
      split; [apply toy_blob3_wf; reflexivity | by repeat split]. }
    refine (proj2 (proj2 (get_gradients_engine_verdict (E:=Stingy.engine)
                    Toy.w1 Toy.w1_filled Toy.std_net Toy.std_net
                    Stingy.lib_one_blob Toy.bottom (mxChar "ip")
                    Toy.ids_array "ip" 2%N
                    (Toy.blob3 (Toy.zeros 6) (Toy.zeros 6)) 0 [100%N]
                    [Toy.grad_blob 0]
                    eq_refl Hids Hneg Hne Hin eq_refl eq_refl Htopb Hcalc))
                 eq_refl (Toy.grad_blob 0) [] eq_refl Hat Hpb _ _ _ _ _);
      vm_compute; first [reflexivity | discriminate].
Defined.

(** ** The cells [backward] takes and the cells [forward] refuses *)

Section CellChecks.
Context {Net Internal PRNG : Type} {E : Engine Net Internal PRNG}.
Local Abbreviation W := (World Net Internal PRNG).

Lemma for_each_app {A} (body : nat -> A -> M W unit) v1 v2 : forall j (w : W),
  for_each body j (v1 ++ v2) w
  = bind (for_each body j v1)
         (fun _ => for_each body (j + length v1) v2) w.
Proof.
  induction v1 as [|x v1 IH]; intros j w.
  - simpl. unfold bind, ret. by rewrite Nat.add_0_r.
  - cbn [app for_each length]. rewrite Nat.add_succ_r.
    change (S (j + length v1)) with (S j + length v1)%nat.
    unfold bind in *.
    destruct (body j x w) as [[] w1|msg w1|msg|]; first [done | apply IH].
Qed.

(** The body of the first loop of [do_backward]. *)
Local Abbreviation copy_diff_cell top_diff :=
  (fun (i : nat) (p : ptr) =>
     bind (defined (mxGetCell top_diff i)) (fun elem =>
     bind (defined (mxGetPr_float elem)) (fun data_ptr =>
     copy_to_blob_diff p data_ptr))).








Lemma fill_input_blobs_loop (w : W) n d d0 bottom :
  net_ w = Some n ->
  mxGetDimensions bottom = d -> d !! 0%nat = Some d0 ->
  static_cast_unsigned_int d0 = Z.of_nat (length (Net_input_blobs n)) ->
  fill_input_blobs bottom w
  = for_each (copy_input_cell bottom) 0 (Net_input_blobs n) w.
Proof.
  intros Hn Hd Hd0 Hcast. unfold fill_input_blobs.
  unfold the_net. unfold bind at 1 2. unfold get_net_ at 1. rewrite Hn.
  cbn [defined]. unfold ret at 1.
  rewrite Hd, Hd0. cbn [defined].
  unfold bind at 1. unfold ret at 1. rewrite Hcast, Z.eqb_refl.
  cbn [CHECK]. unfold bind at 1. unfold ret at 1. reflexivity.
Qed.

(** What [forward] refuses, it refuses by a failed [CHECK], which ends
    the process with MATLAB in it: a cell array whose first dimension
    is not the number of input blobs; and, the cells before it being
    accepted, a cell that is not a single array or has not exactly as
    many elements as its blob counts. *)
Theorem forward_aborts_on_misfit (w : W) (n : Net) (d : list Z) (d0 : Z)
    (cs : list (option mxArray)) (bs : list Blob) :
  net_ w = Some n ->
  d !! 0%nat = Some d0 ->
  Forall2 (blob_at (lib w)) (Net_input_blobs n) bs ->
  Forall blob_wf bs ->
  NoDup (Net_input_blobs n) ->
  (static_cast_unsigned_int d0 <> Z.of_nat (length (Net_input_blobs n)) ->
   aborts (do_forward (mxCell d cs) w)) /\
  (static_cast_unsigned_int d0 = Z.of_nat (length (Net_input_blobs n)) ->
   forall j a b cells,
     cs !! j = Some (Some a) -> bs !! j = Some b ->
     take j cs = map (fun c => Some (mxSingle (fst c) (snd c))) cells ->
     Forall2 fits cells (take j bs) ->
     (mxIsSingle a = false ->
      do_forward (mxCell d cs) w
      = Fatal "MatCaffe require single-precision float point data") /\
     (mxIsSingle a = true -> mxGetNumberOfElements a <> count b ->
      do_forward (mxCell d cs) w
      = Fatal "MatCaffe input size does not match the input size of the network")).
Proof.
  intros Hn Hd0 Hat Hwf Hnd. split.
  - intros Hne. unfold do_forward, fill_input_blobs, the_net.
    unfold bind at 1 2 3. unfold get_net_ at 1. rewrite Hn. cbn [defined].
    unfold ret at 1. cbn [mxGetDimensions]. rewrite Hd0. cbn [defined].
    unfold bind at 1. unfold ret at 1.
    destruct (Z.eqb_spec (static_cast_unsigned_int d0)
                         (Z.of_nat (length (Net_input_blobs n)))); [done|].
    by eexists.
  - intros Hcast j a b cells Hc Hb Hpre Hfit.
    pose proof (fill_input_blobs_loop w n d d0 (mxCell d cs) Hn eq_refl Hd0
                  Hcast) as Hstart.
    pose proof (Forall2_length _ _ _ Hat) as Hlen.
    pose proof (lookup_lt_Some _ _ _ Hb) as Hj.
    pose proof (lookup_lt_Some _ _ _ Hc) as Hjc.
    destruct (drop j (Net_input_blobs n)) as [|p ps2] eqn:Hdrop.
    { apply (f_equal length) in Hdrop. rewrite length_drop in Hdrop.
      simpl in Hdrop. lia. }
    assert (Hsplit : Net_input_blobs n = take j (Net_input_blobs n) ++ p :: ps2)
      by (by rewrite <- Hdrop, take_drop).
    assert (Hp : Net_input_blobs n !! j = Some p).
    { rewrite <- (Nat.add_0_r j), <- lookup_drop, Hdrop. reflexivity. }
    assert (Hpb : blob_at (lib w) p b).
    { by apply (Forall2_lookup_lr _ _ _ j p b Hat). }
    assert (Hwfb : blob_wf b).
    { by apply (proj1 (Forall_lookup _ _) Hwf j b). }
    pose proof Hnd as Hnd'.
    rewrite Hsplit in Hnd'. apply NoDup_app in Hnd' as (Hnd1 & Hdisj & Hnd2).
    assert (Hfresh : p ∉ take j (Net_input_blobs n)).
    { intros Hin. apply (Hdisj p Hin). by left. }
    assert (Hcells : length cells = j).
    { apply (f_equal length) in Hpre.
      rewrite length_take, length_map in Hpre. lia. }
    destruct (fill_loop (mxCell d cs) (take j (Net_input_blobs n))
                cells (take j bs) 0%nat w)
      as (l' & Hrun & _ & Hframe); try done.
    { intros idx c Hidx. cbn [Nat.add mxGetCell].
      assert (Hlt : (idx < j)%nat)
        by (rewrite <- Hcells; by apply (lookup_lt_Some _ _ c)).
      rewrite <- (lookup_take_lt cs j idx Hlt), Hpre.
      rewrite list_lookup_fmap, Hidx. reflexivity. }
    { by apply Forall2_take. }
    { by apply Forall_take. }
    assert (Hb' : blob_at (lib (upd_lib w l')) p b).
    { destruct Hpb as [Hp0 Hpb]. split; [done|]. cbn [upd_lib lib].
      by rewrite (Hframe p Hfresh). }
    assert (Hbody : forall rest : unit -> M W mxArray,
              bind (fill_input_blobs (mxCell d cs)) rest w
              = bind (copy_input_cell (mxCell d cs) j p)
                     (fun _ => bind (for_each (copy_input_cell (mxCell d cs))
                                              (S j) ps2) rest)
                     (upd_lib w l')).
    { intros rest. unfold bind at 1. rewrite Hstart.
      rewrite Hsplit at 1. rewrite for_each_app.
      unfold bind at 1. rewrite Hrun.
      rewrite length_take, Nat.min_l by lia. cbn [for_each Nat.add].
      unfold bind. by destruct (copy_input_cell _ j p _) as [[] ?|?|?|];
        [destruct (for_each _ _ _ _) as [[] ?|?|?|]|..]. }
    assert (Hcell : mxGetCell (mxCell d cs) j = Some a)
      by (cbn [mxGetCell]; by rewrite Hc).
    unfold do_forward. rewrite Hbody. split.
    + intros Hns.
      assert (Hf : copy_input_cell (mxCell d cs) j p (upd_lib w l')
                   = Fatal "MatCaffe require single-precision float point data").
      { unfold copy_input_cell. rewrite Hcell. cbn [defined].
        unfold bind at 1. unfold ret at 1. by rewrite Hns. }
      unfold bind at 1. by rewrite Hf.
    + intros Hs Hnum.
      assert (Hf : copy_input_cell (mxCell d cs) j p (upd_lib w l')
                   = Fatal "MatCaffe input size does not match the input size of the network").
      { unfold copy_input_cell. rewrite Hcell. cbn [defined].
        unfold bind at 1. unfold ret at 1. rewrite Hs. cbn [CHECK].
        unfold bind at 1. unfold ret at 1.
        rewrite (bind_Ret _ _ _ _ _ (deref_at _ p b Hb')).
        pose proof (count_nonneg b Hwfb) as Hc0.
        pose proof Hwfb as (_ & _ & _ & _ & Hmax & _).
        rewrite mwSize_of_int_small by lia.
        by destruct (Z.eqb_spec (mxGetNumberOfElements a) (count b)). }
      unfold bind at 1. by rewrite Hf.
Qed.

End CellChecks.


(** On the toy network [forward] ends the process over a double array
    and over a single array of four elements. *)
Lemma forward_aborts_on_misfit_witness :
  do_forward (mxCell [1; 1] [Some (mxDouble [3; 1; 1; 2]
                                     (map Toy.dbl [1; 2; 3; 4; 5; 6]))])
             Toy.w1
  = Fatal "MatCaffe require single-precision float point data" /\
  do_forward (mxCell [1; 1] [Some (mxSingle [2; 1; 1; 2]
                                     (map Toy.fl [1; 2; 3; 4]))])
             Toy.w1
  = Fatal "MatCaffe input size does not match the input size of the network".
Proof.
  assert (Hat : Forall2 (blob_at (lib Toy.w1)) (Net_input_blobs Toy.std_net)
                  [Toy.blob3 (Toy.zeros 6) (Toy.zeros 6)]).
  { apply Forall2_cons; split; [|constructor].
    split; [discriminate | vm_compute; reflexivity]. }
  assert (Hwf : Forall blob_wf [Toy.blob3 (Toy.zeros 6) (Toy.zeros 6)]).
  { apply Forall_cons; split; [|by apply Forall_nil].
    apply toy_blob3_wf; reflexivity. }
  assert (Hnd : NoDup (Net_input_blobs Toy.std_net)).
  { apply NoDup_cons; split; [|apply NoDup_nil_2]. apply not_elem_of_nil. }
  assert (Hcast : static_cast_unsigned_int 1
                  = Z.of_nat (length (Net_input_blobs Toy.std_net)))
    by (vm_compute; reflexivity).
  split.
  - apply (proj2 (forward_aborts_on_misfit Toy.w1 Toy.std_net [1; 1] 1
                    [Some (mxDouble [3; 1; 1; 2]
                             (map Toy.dbl [1; 2; 3; 4; 5; 6]))]
                    [Toy.blob3 (Toy.zeros 6) (Toy.zeros 6)]
                    eq_refl eq_refl Hat Hwf Hnd) Hcast
             0%nat (mxDouble [3; 1; 1; 2] (map Toy.dbl [1; 2; 3; 4; 5; 6]))
             (Toy.blob3 (Toy.zeros 6) (Toy.zeros 6)) []
             eq_refl eq_refl eq_refl ltac:(constructor)).
    reflexivity.
  - apply (proj2 (forward_aborts_on_misfit Toy.w1 Toy.std_net [1; 1] 1
                    [Some (mxSingle [2; 1; 1; 2] (map Toy.fl [1; 2; 3; 4]))]
                    [Toy.blob3 (Toy.zeros 6) (Toy.zeros 6)]
                    eq_refl eq_refl Hat Hwf Hnd) Hcast
             0%nat (mxSingle [2; 1; 1; 2] (map Toy.fl [1; 2; 3; 4]))
             (Toy.blob3 (Toy.zeros 6) (Toy.zeros 6)) []
             eq_refl eq_refl eq_refl ltac:(constructor)).
    + reflexivity.
    + vm_compute. discriminate.
Defined.

(** ** [read_mean], [set_device], [init] and [reset] *)

Section SingleCommands.
Context {Net Internal PRNG : Type} {E : Engine Net Internal PRNG}.
Local Abbreviation W := (World Net Internal PRNG).
Local Abbreviation handler := (handler Net Internal PRNG).

(** [read_mean] needs no net and changes nothing: it returns the data
    of the blob read from the file as a 4-D single array of dimensions
    [width, height, channels, num], and raises an error when the file
    cannot be read. *)
Theorem read_mean_returns_the_mean nlhs (file : string) (w : W) :
  (forall b, Blob_read_proto file (lib w) = Some (Some b) -> blob_wf b ->
     mexFunction nlhs [mxChar "read_mean"; mxChar file] w
     = Ret (Some (mxSingle [width b; height b; channels b; num b] (data b)))
           w) /\
  (Blob_read_proto file (lib w) = Some None ->
     mexFunction nlhs [mxChar "read_mean"; mxChar file] w
     = MexErr "Couldn't read the file" w).
Proof.
  rewrite (mexFunction_registered _ _ _ read_mean) by registered_entry.
  assert (Hrm : read_mean nlhs [mxChar file] w
                = (match Blob_read_proto file (lib w) with
                   | None => LOG_FATAL "caffe"
                   | Some None => mexErrMsgTxt "Couldn't read the file"
                   | Some (Some data_mean) =>
                       bind (defined (copy_to_mx (count data_mean)
                                        (data data_mean)
                                        (mxCreateNumericArray
                                           (blob_dims data_mean)) 0))
                            (fun r => ret (Some r))
                   end) w) by reflexivity.
  rewrite Hrm. split.
  - intros b Hread Hwf. rewrite Hread.
    rewrite blob_dims_wf by done.
    assert (Hcopy : copy_to_mx (count b) (data b)
                      (mxCreateNumericArray [width b; height b; channels b; num b])
                      0
                    = Some (mxSingle [width b; height b; channels b; num b]
                                     (data b))).
    { unfold copy_to_mx, mxCreateNumericArray.
      rewrite dims_product_blob.
      change (Z.to_nat 0) with 0%nat. rewrite drop_0, take_0.
      cbn [app Z.leb Z.compare].
      rewrite caffe_copy_all.
      - rewrite (take_ge (data b)) by (pose proof (data_length b Hwf); lia).
        reflexivity.
      - rewrite length_replicate. pose proof (count_nonneg b Hwf). lia.
      - pose proof (data_length b Hwf). lia. }
    rewrite Hcopy. reflexivity.
  - intros Hread. by rewrite Hread.
Qed.

Lemma double_trunc_truncates d q :
  double_value d = Some q -> double_trunc d = Some (Qtruncate q).
Proof.
  destruct d as [s|s| |s m e]; try done.
  - intros [= <-]. reflexivity.
  - unfold double_value, double_trunc, Qtruncate.
    destruct s, e as [|p|p]; intros [= <-]; cbn [cond_Zopp Z.opp].
    + change (inject_Z (Z.neg m)) with (inject_Z (- Z.pos m)).
      by rewrite Qceiling_Z.
    + replace (Qle_bool 0 (inject_Z (- (Z.pos m * 2 ^ Z.pos p)))) with false.
      * by rewrite Qceiling_Z.
      * symmetry. apply not_true_is_false. rewrite Qle_bool_iff.
        unfold Qle. simpl. lia.
    + replace (Qle_bool 0 (Z.neg m # 2 ^ p)) with false by reflexivity.
      unfold Qceiling, Qfloor. cbn [Qopp Qnum Qden Z.opp].
      by rewrite Pos2Z.inj_pow.
    + by rewrite Qfloor_Z.
    + replace (Qle_bool 0 (inject_Z (Z.pos m * 2 ^ Z.pos p))) with true.
      * by rewrite Qfloor_Z.
      * symmetry. rewrite Qle_bool_iff. unfold Qle. simpl. lia.
    + replace (Qle_bool 0 (Z.pos m # 2 ^ p)) with true by reflexivity.
      unfold Qfloor. cbn [Qnum Qden]. by rewrite Pos2Z.inj_pow.
Qed.

(** [set_device] needs no net.  It hands [Caffe::SetDevice] its first
    argument truncated toward zero, and changes nothing but the state
    of the library. *)
Theorem set_device_truncates nlhs dims (d : double) rest (q : Q) (w : W) :
  double_value d = Some q ->
  INT_MIN <= Qtruncate q <= INT_MAX ->
  match Caffe_SetDevice (Qtruncate q) (lib w) with
  | Some l' =>
      mexFunction nlhs [mxChar "set_device"; mxDouble dims (d :: rest)] w
      = Ret None (upd_lib w l')
  | None =>
      aborts (mexFunction nlhs
                [mxChar "set_device"; mxDouble dims (d :: rest)] w)
  end.
Proof.
  intros Hq Hrange.
  rewrite (mexFunction_registered _ _ _ set_device) by registered_entry.
  assert (Hsd : set_device nlhs [mxDouble dims (d :: rest)] w
                = (match Caffe_SetDevice (int_of_double d) (lib w) with
                   | Some l' => bind (set_lib l') (fun _ => ret None)
                   | None => LOG_FATAL "caffe"
                   end) w) by reflexivity.
  rewrite Hsd.
  assert (Hint : int_of_double d = Qtruncate q).
  { unfold int_of_double. rewrite (double_trunc_truncates d q Hq).
    destruct (Z.leb_spec INT_MIN (Qtruncate q)); [|lia].
    destruct (Z.leb_spec (Qtruncate q) INT_MAX); [done|lia]. }
  rewrite Hint.
  destruct (Caffe_SetDevice (Qtruncate q) (lib w)); [reflexivity|by eexists].
Qed.

(** [init] on two strings, when the engine constructs the net and loads
    the weights: the new net is constructed while the old one, if any,
    is still there; then the old one is destroyed; then the weights are
    loaded; then the key is drawn from [random()].  The key is returned
    exactly when one output is asked for. *)
Theorem init_replaces_the_net nlhs (pf mf : string) (w : W)
    (n1 n2 : Net) (l1 l2 : Lib Internal) (r : Z) (g : PRNG) :
  Net_new pf (lib w) = Some (n1, l1) ->
  Net_CopyTrainedLayersFrom mf n1
    (match net_ w with Some old => Net_delete old l1 | None => l1 end)
    = Some (n2, l2) ->
  random (prng w) = (r, g) ->
  mexFunction nlhs [mxChar "init"; mxChar pf; mxChar mf] w
  = Ret (if nlhs =? 1
         then Some (mxCreateDoubleScalar (double_of_int (wrap_int r)))
         else None)
        (mkWorld (Some n2) (wrap_int r) l2 g (deleted w)).
Proof.
  intros Hnew Hcopy Hrand.
  rewrite (mexFunction_registered _ _ _ init) by registered_entry.
  unfold init, expect_nrhs, when_, nrhs, net_reset, net_call, the_net,
    call_random, bind, set_lib, get_net_, set_net_, get_lib, defined, ret,
    set_init_key, get_init_key_, undefined.
  cbn [length lookup list_lookup mxArrayToString].
  change (negb (Z.of_nat 2 =? 2)) with false. cbv beta iota.
  rewrite Hnew. cbv beta iota. cbn [net_ init_key lib prng deleted].
  destruct (net_ w) as [old|]; cbv beta iota;
    cbn [net_ init_key lib prng deleted];
    rewrite Hcopy; cbv beta iota; cbn [net_ init_key lib prng deleted];
    rewrite Hrand; cbv beta iota; cbn [net_ init_key lib prng deleted];
    by destruct (nlhs =? 1).
Qed.

(** [reset] never fails and ignores its arguments.  On a set handle it
    has the library destroy the net and stores the key -2; on an unset
    handle it changes nothing.  A second [reset] changes nothing. *)
Theorem reset_is_idempotent nlhs nlhs' args args' (w : W) :
  let w1 := match net_ w with
            | Some old =>
                mkWorld None (-2) (Net_delete old (lib w)) (prng w) (deleted w)
            | None => w
            end in
  mexFunction nlhs (mxChar "reset" :: args) w = Ret None w1 /\
  mexFunction nlhs' (mxChar "reset" :: args') w1 = Ret None w1.
Proof.
  intros w1.
  rewrite !(mexFunction_registered _ _ _ reset) by registered_entry.
  unfold reset, net_reset, bind, get_net_, set_net_, get_lib, set_lib,
    set_init_key, ret. subst w1.
  destruct w as [[old|] k l g d]; by cbn.
Qed.

Lemma run_key_in_range :
  (forall s : PRNG, 0 <= fst (random s) <= INT_MAX) ->
  forall cs (w w' : W) g g',
    key_in_range g -> run cs w g = Some (w', g') -> key_in_range g'.
Proof.
  intros Hrange cs. induction cs as [|[nlhs prhs] cs IH];
    simpl; intros w w' g g' Hg Hrun.
  - by injection Hrun as <- <-.
  - destruct (survives (mexFunction nlhs prhs w)) as [w1|] eqn:Hs; [|done].
    eapply IH; [|exact Hrun]. unfold track. simpl.
    destruct (is_command "reset" prhs); [by intros k|].
    destruct (is_command "init" prhs); [|done].
    destruct (mexFunction nlhs prhs w); try done.
    intros k [= <-]. unfold generated_key.
    rewrite wrap_int_small; [apply Hrange|].
    specialize (Hrange (prng w)). unfold INT_MIN, INT_MAX in *. lia.
Qed.

(** As long as [random()] returns values from 0 to 2^31 - 1, as the C
    library promises, the key -2 is never the key of a net: after any
    sequence of calls from the initial state, [init_key] is -2 exactly
    when the handle is unset, and not negative otherwise. *)
Theorem key_minus_two_means_no_net cs (w0 w : W) (g : option Z) :
  (forall s : PRNG, 0 <= fst (random s) <= INT_MAX) ->
  initial w0 ->
  run cs w0 None = Some (w, g) ->
  (init_key w = -2 <-> net_ w = None) /\
  (is_set (net_ w) = true -> 0 <= init_key w <= INT_MAX).
Proof.
  intros Hrange [Hn0 Hk0] Hrun.
  assert (Hinv0 : handle_inv w0 None) by (split; [by rewrite Hn0|done]).
  pose proof (handle_inv_run cs w0 w None g Hinv0 Hrun) as [Hset Hkey].
  assert (Hg : key_in_range g).
  { apply (run_key_in_range Hrange cs w0 w None g); [by intros k|done]. }
  destruct g as [k|]; simpl in Hset, Hkey.
  - specialize (Hg k eq_refl). split.
    + split; [lia|]. intros Hn. by rewrite Hn in Hset.
    + intros _. lia.
  - split.
    + split; [|done]. intros _. by destruct (net_ w).
    + intros Hs. congruence.
Qed.

End SingleCommands.

(** [read_mean] on the toy engine, before any [init]. *)
Lemma read_mean_returns_the_mean_witness :
  mexFunction 1 [mxChar "read_mean"; mxChar "mean.binaryproto"] Toy.w0
  = Ret (Some (mxSingle [2; 1; 1; 1] [Toy.fl 7; Toy.fl 8])) Toy.w0 /\
  mexFunction 1 [mxChar "read_mean"; mxChar "nothing"] Toy.w0
  = MexErr "Couldn't read the file" Toy.w0.
Proof.
  assert (Hread : Blob_read_proto "mean.binaryproto" (lib Toy.w0)
                  = Some (Some (mkBlob 1 1 1 2 [Toy.fl 7; Toy.fl 8]
                                       (Toy.zeros 2))))
    by (vm_compute; reflexivity).
  assert (Hnone : Blob_read_proto "nothing" (lib Toy.w0) = Some None)
    by (vm_compute; reflexivity).
  split.
  - apply (proj1 (read_mean_returns_the_mean 1 "mean.binaryproto" Toy.w0)
             (mkBlob 1 1 1 2 [Toy.fl 7; Toy.fl 8] (Toy.zeros 2)) Hread).
    unfold blob_wf, count, INT_MAX. simpl. lia.
  - exact (proj2 (read_mean_returns_the_mean 1 "nothing" Toy.w0) Hnone).
Defined.

(** The device 0.75 is device 0, which the toy engine has; the device
    -1.5 is device -1, which it has not. *)
Lemma set_device_truncates_witness :
  mexFunction 0 [mxChar "set_device";
                 mxDouble [1; 1] [binary_normalize 53 1024 3 (-2) false]]
              Toy.w0
  = Ret None Toy.w0 /\
  aborts (mexFunction 0 [mxChar "set_device";
                         mxDouble [1; 1]
                           [binary_normalize 53 1024 (-3) (-1) false]]
                      Toy.w0).
Proof.
  split.
  - exact (set_device_truncates 0 [1; 1]
             (binary_normalize 53 1024 3 (-2) false) [] _ Toy.w0 eq_refl
             ltac:(vm_compute; split; discriminate)).
  - exact (set_device_truncates 0 [1; 1]
             (binary_normalize 53 1024 (-3) (-1) false) [] _ Toy.w0 eq_refl
             ltac:(vm_compute; split; discriminate)).
Defined.

(** A second [init] on the toy engine: the state after it holds the
    second key. *)
Lemma init_replaces_the_net_witness :
  exists l2,
    mexFunction 1 [mxChar "init"; mxChar "dup.prototxt";
                   mxChar "net.caffemodel"] Toy.w1
    = Ret (Some (mxCreateDoubleScalar (double_of_int 377401575)))
          (mkWorld (Some Toy.dup_net) 377401575 l2 377401575 []).
Proof.
  eexists.
  eapply (init_replaces_the_net 1 "dup.prototxt" "net.caffemodel" Toy.w1
            Toy.dup_net Toy.dup_net _ _ 377401575 377401575);
    vm_compute; reflexivity.
Defined.

Lemma toy_random_in_range (s : Z) : 0 <= fst (random s) <= INT_MAX.
Proof.
  cbn [random Toy.engine Toy.lcg fst]. unfold INT_MAX.
  pose proof (Z.mod_pos_bound (s * 1103515245 + 12345) (2 ^ 31)
                ltac:(reflexivity)). lia.
Qed.

(** After [init], a [forward] and a [reset] on the toy engine the key
    is -2 and the handle is unset. *)
Lemma key_minus_two_means_no_net_witness :
  let history := [(1, [mxChar "init"; mxChar "net.prototxt";
                       mxChar "net.caffemodel"]);
                  (1, [mxChar "forward"; Toy.bottom]);
                  (0, [mxChar "reset"])] in
  exists w, run history Toy.w0 None = Some (w, None) /\
            net_ w = None /\ (init_key w = -2 <-> net_ w = None).
Proof.
  intros history.
  destruct (run history Toy.w0 None) as [[w g]|] eqn:Hrun;
    [|vm_compute in Hrun; discriminate Hrun].
  assert (Hg : g = None)
    by (vm_compute in Hrun; by injection Hrun as _ <-).
  assert (Hn : net_ w = None)
    by (vm_compute in Hrun; by injection Hrun as <- _).
  exists w. rewrite Hg. split; [reflexivity|]. split; [exact Hn|].
  exact (proj1 (key_minus_two_means_no_net history Toy.w0 w g
                  toy_random_in_range (conj eq_refl eq_refl) Hrun)).
Defined.

(** ** What is written into a blob is read back *)

Section RoundTrip.
Context {Net Internal PRNG : Type} {E : Engine Net Internal PRNG}.
Local Abbreviation W := (World Net Internal PRNG).

(** A cell that passes the four dimension checks of [get_features] and
    [get_gradients] is copied into its blob, and the array the bridge
    makes of that blob's data, as [forward], [get_features] and
    [get_blobs] do, is the cell again: the same dimensions and the same
    elements in the same order. *)
Theorem input_cell_is_read_back (w : W) bottom i p b
    (c : list Z * list float) :
  mxGetCell bottom i = Some (mxSingle (fst c) (snd c)) ->
  is_4d c ->
  blob_at (lib w) p b -> blob_wf b ->
  dimension_error (fst c) b = None ->
  exists w1,
    check_and_copy_cell bottom i p w = Ret tt w1 /\
    mx_blob_of data p w1 = Ret (mxSingle (fst c) (snd c)) w1.
Proof.
  intros Hcell H4 Hat Hwf Hdim.
  rewrite (check_and_copy_cell_spec w bottom i p b c Hcell H4 Hat Hwf), Hdim.
  eexists. split; [reflexivity|].
  destruct H4 as [Hlen Hpr].
  apply (dimension_error_None _ b Hlen) in Hdim.
  rewrite Hdim, dims_product_blob in Hpr.
  pose proof (count_nonneg b Hwf) as Hc0.
  rewrite take_ge by lia.
  set (b' := set_data b (snd c)).
  assert (Hwf' : blob_wf b').
  { unfold blob_wf, count in *. subst b'. simpl. intuition lia. }
  assert (Hat' : blob_at (lib (upd_lib w (with_blob (lib w) p b'))) p b').
  { destruct Hat as [Hp _]. split; [done|]. simpl. by rewrite lookup_insert_eq. }
  rewrite (mx_blob_of_at data _ p b' Hat' Hwf' (data_length b' Hwf')).
  unfold host_array. subst b'. simpl. by rewrite Hdim.
Qed.

End RoundTrip.

(** The image goes into the toy network's input blob and comes back. *)
Lemma input_cell_is_read_back_witness :
  exists w1,
    check_and_copy_cell Toy.bottom 0 1%N Toy.w1 = Ret tt w1 /\
    mx_blob_of data 1%N w1 = Ret Toy.image w1.
Proof.
  apply (input_cell_is_read_back Toy.w1 Toy.bottom 0%nat 1%N
           (Toy.blob3 (Toy.zeros 6) (Toy.zeros 6))
           ([3; 1; 1; 2], map Toy.fl [1; 2; 3; 4; 5; 6])).
  - reflexivity.
  - split; reflexivity.
  - split; [discriminate | vm_compute; reflexivity].
  - apply toy_blob3_wf; reflexivity.
  - reflexivity.
Defined.

(** ** The errors a command can raise *)

Ltac a_message :=
  intros;
  first [ exact I
        | unfold may_raise; apply (bool_decide_unpack _); by vm_compute
        | by red ].

Section Messages.
Context {Net Internal PRNG : Type} {E : Engine Net Internal PRNG}.
Local Abbreviation W := (World Net Internal PRNG).
Local Abbreviation handler := (handler Net Internal PRNG).

Lemma handler_may_raise name (f : handler) nlhs args :
  (name, f) ∈ registered ->
  steps (any_step : W -> W -> Prop) (may_raise name) (f nlhs args).
Proof.
  unfold registered, handlers. simpl. intros Hin.
  repeat (apply elem_of_cons in Hin as [Hin|Hin];
          [injection Hin as -> ->; unfold_handlers; unfold_workers;
           steps_auto a_message |]).
  by apply elem_of_nil in Hin.
Qed.

(** The MATLAB errors of a command.  [forward], [backward], [init] and
    [set_device] raise no error but the one over the number of their
    arguments: whatever else goes wrong in them ends the process.
    [get_features], [get_gradients] and [read_mean] raise no error but
    those listed for them.  The other commands raise none. *)
Theorem a_command_raises_its_own_errors nlhs c args (w : W) msg :
  c ∈ command_names (E:=E) ->
  observe (mexFunction nlhs (mxChar c :: args) w) = Raised msg ->
  msg ∈ messages_of c.
Proof.
  intros Hc Hobs. apply registered_lookup in Hc as [f Hin].
  rewrite (mexFunction_registered nlhs c args f w Hin) in Hobs.
  pose proof (handler_may_raise c f nlhs args Hin w) as Hm.
  destruct (f nlhs args w); simpl in Hobs; try discriminate Hobs.
  injection Hobs as <-. by destruct Hm.
Qed.

End Messages.

(** [get_features] before [init]. *)
Lemma a_command_raises_its_own_errors_witness :
  observe (mexFunction 1 [mxChar "get_features"; Toy.bottom; mxChar "ip"]
                       Toy.w0)
  = Raised "Initialize caffe first by calling matcaffe_init." /\
  "Initialize caffe first by calling matcaffe_init."
    ∈ messages_of "get_features".
Proof.
  assert (Hobs : observe (mexFunction 1 [mxChar "get_features"; Toy.bottom;
                                        mxChar "ip"] Toy.w0)
                 = Raised "Initialize caffe first by calling matcaffe_init.")
    by (vm_compute; reflexivity).
  split; [exact Hobs|].
  apply (a_command_raises_its_own_errors 1 "get_features"
           [Toy.bottom; mxChar "ip"] Toy.w0); [|exact Hobs].
  apply (bool_decide_unpack _). by vm_compute.
Defined.

(** ** [forward] and [backward] from end to end *)

Section EndToEnd.
Context {Net Internal PRNG : Type} {E : Engine Net Internal PRNG}.
Local Abbreviation W := (World Net Internal PRNG).





End EndToEnd.



(** ** The deletion of the temporary blobs *)

Section Temporaries.
Context {Net Internal PRNG : Type} {E : Engine Net Internal PRNG}.
Local Abbreviation W := (World Net Internal PRNG).

Local Abbreviation delete_body :=
  (fun (_ : nat) (p : ptr) => when_ (negb (N.eqb p NULL)) (delete_blob p)).

Lemma non_null_NULL ps : non_null (NULL :: ps) = non_null ps.
Proof. unfold non_null. by rewrite filter_cons_False by (by intros []). Qed.

Lemma non_null_cons p ps : p <> NULL -> non_null (p :: ps) = p :: non_null ps.
Proof. intros Hp. unfold non_null. by rewrite filter_cons_True. Qed.

Lemma delete_loop_live ps : forall i (w : W),
  Forall (fun p : ptr => is_Some (blob_heap (lib w) !! p)) (non_null ps) ->
  NoDup (non_null ps) ->
  for_each delete_body i ps w
  = Ret tt (mkWorld (net_ w) (init_key w)
              (mkLib (caffe_mode (lib w)) (caffe_phase (lib w))
                     (delete_all (non_null ps) (blob_heap (lib w)))
                     (internal (lib w)))
              (prng w) (rev (non_null ps) ++ deleted w)).
Proof.
  induction ps as [|p ps IH]; intros i w Hlive Hnd.
  - cbn [for_each delete_all foldl rev app]. by destruct w as [? ? [] ? ?].
  - cbn [for_each]. unfold bind at 1.
    destruct (decide (p = NULL)) as [->|Hp].
    + rewrite non_null_NULL in *. cbn [N.eqb NULL negb when_].
      unfold ret at 1. by apply IH.
    + rewrite non_null_cons in * by done.
      apply NoDup_cons in Hnd as [Hfresh Hnd].
      apply Forall_cons in Hlive as [[b Hb] Hlive].
      rewrite (proj2 (N.eqb_neq p NULL) Hp). cbn [negb when_].
      unfold delete_blob. rewrite Hb.
      rewrite IH; [| |done].
      * cbn [net_ init_key lib prng deleted caffe_mode caffe_phase blob_heap
             internal delete_all foldl rev].
        by rewrite <- app_assoc.
      * cbn [lib blob_heap]. apply Forall_forall. intros q Hq.
        pose proof (proj1 (Forall_forall _ _) Hlive q Hq) as Hsome.
        rewrite lookup_delete_ne; [done|]. intros ->.
        apply Hfresh. by apply list_elem_of_In.
Qed.

Lemma delete_loop_dead (p : ptr) ps : forall i (w : W),
  blob_heap (lib w) !! p = None -> p ∈ non_null ps ->
  for_each delete_body i ps w = Undef.
Proof.
  induction ps as [|q ps IH]; intros i w Hdead Hin.
  - by apply elem_of_nil in Hin.
  - cbn [for_each]. unfold bind at 1.
    destruct (decide (q = NULL)) as [->|Hq].
    + rewrite non_null_NULL in Hin. cbn [N.eqb NULL negb when_].
      unfold ret at 1. by apply IH.
    + rewrite non_null_cons in Hin by done.
      rewrite (proj2 (N.eqb_neq q NULL) Hq). cbn [negb when_].
      unfold delete_blob.
      destruct (decide (q = p)) as [->|Hne]; [by rewrite Hdead|].
      destruct (blob_heap (lib w) !! q); [|done].
      apply IH.
      * cbn [lib blob_heap]. by rewrite lookup_delete_ne.
      * apply elem_of_cons in Hin as [Hin|Hin]; [congruence|done].
Qed.

Lemma delete_loop_twice ps : forall i (w : W),
  ~ NoDup (non_null ps) -> for_each delete_body i ps w = Undef.
Proof.
  induction ps as [|p ps IH]; intros i w Hnd.
  - exfalso. apply Hnd. constructor.
  - cbn [for_each]. unfold bind at 1.
    destruct (decide (p = NULL)) as [->|Hp].
    + rewrite non_null_NULL in Hnd. cbn [N.eqb NULL negb when_].
      unfold ret at 1. by apply IH.
    + rewrite non_null_cons in Hnd by done.
      rewrite (proj2 (N.eqb_neq p NULL) Hp). cbn [negb when_].
      unfold delete_blob.
      destruct (blob_heap (lib w) !! p); [|done].
      destruct (decide (p ∈ non_null ps)) as [Hin|Hnin].
      * apply (delete_loop_dead p); [|done].
        cbn [lib blob_heap]. apply lookup_delete_eq.
      * apply IH. intros Hnd'. apply Hnd. apply NoDup_cons. by split.
Qed.

(** The loop that removes the temporary blobs of [get_gradients] skips
    the null pointers and deletes every other pointer of the vector, in
    the order of the vector.  It returns if these pointers are live and
    pairwise distinct; a pointer that occurs twice is deleted twice. *)
Theorem temporaries_are_deleted_in_order (ps : list ptr) (w : W) :
  (Forall (fun p : ptr => is_Some (blob_heap (lib w) !! p)) (non_null ps) ->
   NoDup (non_null ps) ->
   remove_temp_blobs ps w
   = Ret tt (mkWorld (net_ w) (init_key w)
               (mkLib (caffe_mode (lib w)) (caffe_phase (lib w))
                      (delete_all (non_null ps) (blob_heap (lib w)))
                      (internal (lib w)))
               (prng w) (rev (non_null ps) ++ deleted w))) /\
  (~ NoDup (non_null ps) -> remove_temp_blobs ps w = Undef).
Proof.
  split.
  - intros Hlive Hnd. by apply delete_loop_live.
  - intros Hnd. by apply delete_loop_twice.
Qed.

End Temporaries.

(** With the two gradient blobs of the toy engine and a null pointer
    between them; and with one of them named twice. *)
Lemma temporaries_are_deleted_in_order_witness :
  deleted <$> survives (remove_temp_blobs [100%N; NULL; 101%N]
                          (mkWorld (Some Toy.std_net) 0 Toy.lib_gradients 0 []))
  = Some [101%N; 100%N] /\
  remove_temp_blobs [100%N; 101%N; 100%N]
    (mkWorld (Some Toy.std_net) 0 Toy.lib_gradients 0 [])
  = Undef.
Proof.
  split.
  - rewrite (proj1 (temporaries_are_deleted_in_order [100%N; NULL; 101%N]
                      (mkWorld (Some Toy.std_net) 0 Toy.lib_gradients 0 []))).
    + reflexivity.
    + repeat (apply Forall_cons; split; [by (vm_compute; eexists)|]).
      apply Forall_nil. done.
    + apply (bool_decide_unpack _). by vm_compute.
  - apply (proj2 (temporaries_are_deleted_in_order [100%N; 101%N; 100%N]
                    (mkWorld (Some Toy.std_net) 0 Toy.lib_gradients 0 []))).
    apply (bool_decide_unpack _). by vm_compute.
Defined.

(** ** C7: who deletes blobs, and which *)

Section Deletion.
Context {Net Internal PRNG : Type} {E : Engine Net Internal PRNG}.
Local Abbreviation W := (World Net Internal PRNG).
Local Abbreviation handler := (handler Net Internal PRNG).

Lemma delete_all_dead ps : forall (h : gmap N Blob) (p : ptr),
  h !! p = None -> delete_all ps h !! p = None.
Proof.
  unfold delete_all.
  induction ps as [|q ps IH]; intros h p Hp; [done|].
  cbn [foldl]. apply IH.
  destruct (decide (q = p)) as [->|Hne]; [apply lookup_delete_eq|].
  by rewrite lookup_delete_ne.
Qed.

Lemma delete_all_gone ps : forall (h : gmap N Blob) (p : ptr),
  p ∈ ps -> delete_all ps h !! p = None.
Proof.
  induction ps as [|q ps IH]; intros h p Hin; [by apply elem_of_nil in Hin|].
  destruct (decide (p = q)) as [->|Hne].
  - change (delete_all (q :: ps) h) with (delete_all ps (delete q h)).
    apply delete_all_dead, lookup_delete_eq.
  - apply elem_of_cons in Hin as [Hin|Hin]; [done|].
    change (delete_all (q :: ps) h) with (delete_all ps (delete q h)).
    by apply IH.
Qed.

(** When the loop over the temporary blobs returns, it has deleted the
    non-null pointers of the vector, all of them, in order. *)
Lemma remove_temp_blobs_returned ps (w w' : W) u :
  remove_temp_blobs ps w = Ret u w' ->
  w' = mkWorld (net_ w) (init_key w)
         (mkLib (caffe_mode (lib w)) (caffe_phase (lib w))
                (delete_all (non_null ps) (blob_heap (lib w)))
                (internal (lib w)))
         (prng w) (rev (non_null ps) ++ deleted w).
Proof.
  intros H. unfold remove_temp_blobs in H.
  destruct (decide (NoDup (non_null ps))) as [Hnd|Hnd];
    [|by rewrite delete_loop_twice in H].
  destruct (decide (Forall (fun p : ptr => is_Some (blob_heap (lib w) !! p))
                           (non_null ps))) as [Hl|Hl].
  - rewrite delete_loop_live in H by done. by injection H as _ <-.
  - apply not_Forall_Exists in Hl; [|apply _].
    apply Exists_exists in Hl as (p & Hin & Hp).
    rewrite (delete_loop_dead p) in H; [done| |done].
    by apply eq_None_not_Some.
Qed.

Lemma net_call_outcome {A}
    (f : Net -> Lib Internal -> option (A * Net * Lib Internal)) (w : W) :
  match net_call f w with
  | Ret a w' => exists n n' l',
      net_ w = Some n /\ f n (lib w) = Some (a, n', l') /\
      w' = mkWorld (Some n') (init_key w) l' (prng w) (deleted w)
  | MexErr _ _ => False
  | Fatal _ | Undef => True
  end.
Proof.
  unfold net_call, the_net, bind, get_net_, get_lib, defined, ret, undefined.
  destruct (net_ w) as [n|]; [|done].
  destruct (f n (lib w)) as [[[a n'] l']|] eqn:Hf; [|done]. simpl.
  by exists n, n', l'.
Qed.

Lemma read_channel_ids_unchanged channel_ids :
  steps unchanged (fun _ => True) (read_channel_ids channel_ids : M W _).
Proof.
  unfold_workers.
  steps_auto ltac:(intros; unfold unchanged in *;
                   first [exact I | reflexivity | congruence]).
Qed.

Lemma copy_gradients_unchanged k batch_size outs :
  steps unchanged (fun _ => True) (copy_gradients k batch_size outs : M W _).
Proof.
  unfold_workers. unfold copy_to_mx.
  steps_auto ltac:(intros; unfold unchanged in *;
                   first [exact I | reflexivity | congruence]).
Qed.

Lemma deref_unchanged p :
  steps unchanged (fun _ => True) (deref p : M W _).
Proof.
  unfold_workers.
  steps_auto ltac:(intros; unfold unchanged in *;
                   first [exact I | reflexivity | congruence]).
Qed.

(** The deletions of [do_get_gradients].  When it returns, the input
    stage ended in some world [w1], [CalcGradientsPrefilled] was called
    there on the converted ids and returned status 0 with the vector
    [outs], and the non-null pointers of [outs] are what was deleted.
    When it raises a MATLAB error, nothing was deleted. *)
Lemma do_get_gradients_outcome bottom layername channel_ids (w : W) :
  match do_get_gradients bottom layername channel_ids w with
  | Ret _ w' =>
      exists name ids n w1 outs n' l',
        mxArrayToString layername = Some name /\
        read_channel_ids channel_ids w = Ret ids w /\
        copy_checked_inputs bottom w = Ret tt w1 /\
        net_ w1 = Some n /\
        Net_CalcGradientsPrefilled name ids n (lib w1)
        = Some (0, outs, n', l') /\
        deleted w' = rev (non_null outs) ++ deleted w /\
        blob_heap (lib w') = delete_all (non_null outs) (blob_heap l')
  | MexErr _ w' => deleted w' = deleted w
  | Fatal _ | Undef => True
  end.
Proof.
  unfold do_get_gradients.
  unfold bind at 1. unfold get_net_ at 1.
  destruct (net_ w) as [n0|] eqn:Hn; cbn [is_set negb when_];
    [|reflexivity].
  unfold bind at 1. unfold ret at 1.
  (* the channel ids *)
  unfold bind at 1.
  pose proof (read_channel_ids_unchanged channel_ids w) as Hread.
  destruct (read_channel_ids channel_ids w) as [ids wa|msg wa|msg|] eqn:Hids;
    [|by destruct Hread as [-> _]|done|done].
  unfold unchanged in Hread. subst wa.
  unfold bind at 1.
  destruct (Z.of_nat (length ids) <? 1); cbn [when_]; [reflexivity|].
  unfold ret at 1.
  (* the input stage *)
  unfold bind at 1.
  pose proof (only_lib_copy_checked_inputs bottom w) as Hin.
  destruct (copy_checked_inputs bottom w) as [[] w1|msg w1|msg|] eqn:Hcopy;
    [|destruct Hin as [Hin _]; unfold only_lib in Hin; by rewrite Hin
     |done|done].
  unfold only_lib in Hin.
  assert (Hn1 : net_ w1 = Some n0) by (by rewrite Hin).
  assert (Hd1 : deleted w1 = deleted w) by (by rewrite Hin).
  (* the batch size *)
  unfold bind at 1. unfold the_net at 1. unfold bind at 1.
  unfold get_net_ at 1. rewrite Hn1. cbn [defined]. unfold ret at 1.
  unfold bind at 1.
  destruct (Net_top_vecs n0 !! 0%nat ≫= (.!! 0%nat)) as [top|];
    cbn [defined]; [|done].
  unfold ret at 1.
  unfold bind at 1.
  pose proof (deref_unchanged top w1) as Htop.
  destruct (deref top w1) as [top_blob wb|msg wb|msg|];
    [|by destruct Htop as [-> _]|done|done].
  unfold unchanged in Htop. subst wb.
  unfold bind at 1.
  destruct (mxArrayToString layername) as [name|] eqn:Hname;
    cbn [defined]; [|done].
  unfold ret at 1.
  (* the engine's call *)
  unfold bind at 1.
  pose proof (net_call_outcome (Net_CalcGradientsPrefilled name ids) w1)
    as Hcall.
  destruct (net_call (Net_CalcGradientsPrefilled name ids) w1)
    as [[status outs] w2|msg w2|msg|]; [|done|done|done].
  destruct Hcall as (n & n' & l' & Hn' & Hcall & Hw2).
  cbn [fst snd].
  unfold bind at 1.
  destruct (Z.eqb_spec status 0) as [->|Hstatus]; cbn [negb].
  2:{ unfold mexErrMsgTxt at 1. rewrite Hw2. by cbn [deleted]. }
  pose proof (copy_gradients_unchanged (Z.of_nat (length ids))
                (num top_blob) outs w2) as Hgrad.
  destruct (copy_gradients (Z.of_nat (length ids)) (num top_blob) outs w2)
    as [st wc|msg wc|msg|];
    [|destruct Hgrad as [-> _]; rewrite Hw2; by cbn [deleted]|done|done].
  unfold unchanged in Hgrad. subst wc.
  (* the deletions *)
  unfold bind at 1.
  pose proof (remove_temp_blobs_deleted outs w2) as Hnoerr.
  destruct (remove_temp_blobs outs w2) as [[] w3|msg w3|msg|] eqn:Hrm;
    [|done|done|done].
  clear Hnoerr. apply remove_temp_blobs_returned in Hrm.
  destruct (mx_out st) as [out|]; cbn [defined]; [|done].
  unfold ret at 1.
  exists name, ids, n, w1, outs, n', l'.
  split; [done|]. split; [done|]. split; [done|]. split; [done|].
  split; [done|].
  rewrite Hrm, Hw2. cbn [deleted lib blob_heap]. by rewrite Hd1.
Qed.

Lemma get_gradients_outcome nlhs args (w : W) :
  match get_gradients nlhs args w with
  | Ret _ w' =>
      exists bottom layername channel_ids r,
        args = [bottom; layername; channel_ids] /\
        do_get_gradients bottom layername channel_ids w = Ret r w'
  | MexErr _ w' => deleted w' = deleted w
  | Fatal _ | Undef => True
  end.
Proof.
  unfold get_gradients, expect_nrhs, nrhs.
  destruct args as [|a0 [|a1 [|a2 [|a3 rest]]]];
    try (unfold bind at 1; reflexivity).
  - change (negb (Z.of_nat (length [a0; a1; a2]) =? 3)) with false.
    cbn [when_ lookup list_lookup defined]. unfold bind, ret. cbv beta iota.
    pose proof (do_get_gradients_outcome a0 a1 a2 w) as Hw.
    destruct (do_get_gradients a0 a1 a2 w) as [r w'|msg w'|msg|] eqn:Hrun;
      [|done|done|done].
    unfold ret. by exists a0, a1, a2, r.
  - unfold bind at 1.
    assert (Hlen : (Z.of_nat (length (a0 :: a1 :: a2 :: a3 :: rest)) =? 3)
                   = false).
    { apply Z.eqb_neq. cbn [length]. lia. }
    rewrite Hlen. reflexivity.
Qed.

(** C7, as amended.  A call of any command but [get_gradients] leaves
    the trace of the bridge's own [delete] expressions as it was, and so
    does every call that raises a MATLAB error.  A call of
    [get_gradients] that returns has run its input stage to some world
    [w1], has called [CalcGradientsPrefilled] there with the layer name
    and the converted channel ids, has been handed status 0 and the
    vector [outs], and has deleted exactly the non-null pointers of
    [outs], in the order of the vector: they are what the trace has
    gained, and they are gone from the heap the engine left. *)
Theorem C7_only_get_gradients_deletes nlhs prhs (w w' : W) :
  survives (mexFunction nlhs prhs w) = Some w' ->
  (is_command "get_gradients" prhs = false -> deleted w' = deleted w) /\
  (forall msg, mexFunction nlhs prhs w = MexErr msg w' ->
               deleted w' = deleted w) /\
  (is_command "get_gradients" prhs = true ->
   forall r, mexFunction nlhs prhs w = Ret r w' ->
   exists bottom layername channel_ids name ids n w1 outs n' l',
     prhs = [mxChar "get_gradients"; bottom; layername; channel_ids] /\
     mxArrayToString layername = Some name /\
     read_channel_ids channel_ids w = Ret ids w /\
     copy_checked_inputs bottom w = Ret tt w1 /\
     net_ w1 = Some n /\
     Net_CalcGradientsPrefilled name ids n (lib w1) = Some (0, outs, n', l') /\
     deleted w' = rev (non_null outs) ++ deleted w /\
     blob_heap (lib w') = delete_all (non_null outs) (blob_heap l') /\
     Forall (fun p : ptr => blob_heap (lib w') !! p = None) (non_null outs)).
Proof.
  intros Hs.
  assert (Hother : forall c (f : handler),
            (c, f) ∈ registered -> c <> "get_gradients" ->
            mexFunction nlhs prhs w = f nlhs (tail prhs) w ->
            deleted w' = deleted w).
  { intros c f Hin Hne He.
    pose proof (handler_no_delete c f nlhs (tail prhs) Hin Hne w) as H.
    rewrite He in Hs.
    destruct (f nlhs (tail prhs) w); simpl in Hs; try done;
      injection Hs as <-; [done | by destruct H]. }
  assert (Hgrad : forall f : handler,
            ("get_gradients", f) ∈ registered -> f = get_gradients).
  { intros f Hin. apply (registered_functional "get_gradients"); [exact Hin|].
    unfold registered, handlers. simpl.
    repeat (apply elem_of_cons; first [left; reflexivity | right]). }
  split; [|split].
  - intros Hcmd.
    destruct (mexFunction_cases nlhs prhs)
      as [[_ He]|[(_ & _ & He)|[(c & _ & _ & He)|(c & f & Hc & Hin & He)]]];
      try (rewrite He in Hs; simpl in Hs; try done; by injection Hs as <-).
    apply (Hother c f Hin); [|apply He].
    intros ->. unfold is_command in Hcmd. rewrite Hc in Hcmd.
    by rewrite String.eqb_refl in Hcmd.
  - intros msg Hm.
    destruct (mexFunction_cases nlhs prhs)
      as [[_ He]|[(_ & _ & He)|[(c & _ & _ & He)|(c & f & Hc & Hin & He)]]];
      try (rewrite He in Hs; simpl in Hs; try done; by injection Hs as <-).
    destruct (decide (c = "get_gradients")) as [->|Hne];
      [|by apply (Hother c f Hin)].
    rewrite (Hgrad f Hin) in He. rewrite He in Hm.
    pose proof (get_gradients_outcome nlhs (tail prhs) w) as Hg.
    by rewrite Hm in Hg.
  - intros Hcmd r Hr.
    destruct (mexFunction_cases nlhs prhs)
      as [[_ He]|[(_ & _ & He)|[(c & _ & _ & He)|(c & f & Hc & Hin & He)]]];
      try (rewrite He in Hr; discriminate Hr).
    unfold is_command in Hcmd. rewrite Hc in Hcmd.
    apply String.eqb_eq in Hcmd. subst c.
    rewrite (Hgrad f Hin) in He. rewrite He in Hr.
    pose proof (get_gradients_outcome nlhs (tail prhs) w) as Hg.
    rewrite Hr in Hg.
    destruct Hg as (bottom & layername & channel_ids & r' & Hargs & Hrun).
    pose proof (do_get_gradients_outcome bottom layername channel_ids w)
      as Hd.
    rewrite Hrun in Hd.
    destruct Hd as (name & ids & n & w1 & outs & n' & l' & Hname & Hids
                    & Hcopy & Hn & Hcall & Hdel & Hheap).
    exists bottom, layername, channel_ids, name, ids, n, w1, outs, n', l'.
    split.
    { destruct prhs as [|a0 args]; [discriminate Hc|].
      unfold command_of in Hc. cbn [head mbind option_bind] in Hc.
      destruct a0; try discriminate Hc. cbn [mxArrayToString] in Hc.
      injection Hc as ->. cbn [tail] in Hargs. by rewrite Hargs. }
    repeat (split; [done|]).
    apply Forall_forall. intros p Hp. rewrite Hheap.
    by apply delete_all_gone.
Qed.

End Deletion.

(** C7 as stated fails: [get_gradients] deletes the two blobs the toy
    engine allocated for the three requested channels. *)
Lemma C7_get_gradients_deletes_blobs :
  let call := mexFunction 1 [mxChar "get_gradients"; mxCell [1; 1] [Some Toy.image];
                             mxChar "ip";
                             mxDouble [1; 3] [Toy.dbl 0; Toy.dbl 1; Toy.dbl 2]] in
  deleted Toy.w1 = [] /\
  deleted <$> survives (call Toy.w1) = Some [101%N; 100%N].
Proof. vm_compute. done. Qed.

(** On the toy network: the call of [get_gradients] for three channels
    returns, and what it has deleted are the two blobs the engine's
    [CalcGradientsPrefilled] handed to this call. *)
Lemma C7_witness :
  let prhs := [mxChar "get_gradients"; mxCell [1; 1] [Some Toy.image];
               mxChar "ip";
               mxDouble [1; 3] [Toy.dbl 0; Toy.dbl 1; Toy.dbl 2]] in
  exists r w' w1 n' l',
    mexFunction 1 prhs Toy.w1 = Ret r w' /\
    copy_checked_inputs (mxCell [1; 1] [Some Toy.image]) Toy.w1 = Ret tt w1 /\
    Net_CalcGradientsPrefilled "ip" [0; 1; 2] Toy.std_net (lib w1)
    = Some (0, [100%N; 101%N], n', l') /\
    deleted w' = [101%N; 100%N] /\
    blob_heap (lib w') !! 100%N = None /\
    blob_heap (lib w') !! 101%N = None.
Proof.
  intros prhs.
  destruct (mexFunction 1 prhs Toy.w1) as [r w'|msg w'|msg|] eqn:Hrun;
    try (by vm_compute in Hrun).
  assert (Hs : survives (mexFunction 1 prhs Toy.w1) = Some w')
    by (by rewrite Hrun).
  destruct (C7_only_get_gradients_deletes 1 prhs Toy.w1 w' Hs)
    as (_ & _ & Hdel).
  destruct (Hdel eq_refl r Hrun)
    as (bottom & layername & channel_ids & name & ids & n & w1 & outs & n'
        & l' & Hargs & Hname & Hids & Hcopy & Hn & Hcall & Hdeleted & Hheap
        & Hgone).
  injection Hargs as <- <- <-.
  injection Hname as <-.
  assert (Hids' : read_channel_ids
                    (mxDouble [1; 3] [Toy.dbl 0; Toy.dbl 1; Toy.dbl 2]) Toy.w1
                  = Ret [0; 1; 2] Toy.w1) by (vm_compute; reflexivity).
  pose proof (eq_trans (eq_sym Hids) Hids') as Hi. injection Hi as ->.
  assert (Hcopy' : copy_checked_inputs (mxCell [1; 1] [Some Toy.image]) Toy.w1
                   = Ret tt Toy.w1_filled) by (vm_compute; reflexivity).
  pose proof (eq_trans (eq_sym Hcopy) Hcopy') as Hc. injection Hc as ->.
  assert (Hn' : net_ Toy.w1_filled = Some Toy.std_net) by reflexivity.
  rewrite Hn' in Hn. injection Hn as <-.
  assert (Houts : outs = [100%N; 101%N]).
  { pose proof Hcall as Hengine. vm_compute in Hengine.
    by injection Hengine as <- _ _. }
  subst outs.
  exists r, w', Toy.w1_filled, n', l'.
  split; [done|]. split; [done|]. split; [exact Hcall|].
  split; [exact Hdeleted|].
  apply Forall_cons in Hgone as [H100 Hgone].
  apply Forall_cons in Hgone as [H101 _].
  by split.
Defined.
